(** * SynergySphere insight engine: the dashboard's aggregation code in Rocq

    A shallow embedding of the decision logic of the React front end
    (components [ProjectDetail], [AIDashboard] and [AITaskCard]) together
    with the properties its specification states about it.

    Conventions of the embedding.
    - A JavaScript number is a [Js.num]: [NaN], an infinity, or a finite
      value carried as an exact rational.  Rounding of doubles and the
      negative zero are not represented.
    - [x.toFixed(1)] yields a decimal string with one fractional digit; it is
      carried as a [Js.fixed], the number of tenths the string denotes.
    - An array is a [list]; [.length] is a [nat]; a [Set] is a [gset]; an
      object used as a dictionary is an association list in creation order
      when its key order is observed and a [gmap] otherwise.  Only own
      properties are carried: the dictionaries behave as the objects do
      for the keys that name no property inherited from
      [Object.prototype], and the properties that depend on it say so.
    - A string holds the UTF-8 bytes of the text.
    - A [Date] is its time value: milliseconds since the epoch, or invalid.
      A task's [due] string is carried as the [Date] that [new Date(due)]
      builds from it.  One run of a synchronous function reads the clock
      once: every [new Date()] in it returns the same instant [today].
    - The HTTP call [getAIInsights] is an oracle that, for the task at a
      given position of the task list, either returns a response body or
      throws. *)

From Stdlib Require Import Ascii String QArith Qround Qminmax Lqa.
From stdpp Require Import base list strings gmap sorting pretty.

(** ** JavaScript numbers *)

Module Js.

Inductive num : Type :=
| NaN
| Inf (negative : bool)
| Fin (q : Q).

Definition of_Z (z : Z) : num := Fin (inject_Z z).
Definition of_nat (n : nat) : num := of_Z (Z.of_nat n).

Definition is_zero (q : Q) : bool := Qeq_bool q 0.
Definition is_neg (q : Q) : bool := (Qnum q <? 0)%Z.

Definition add (a b : num) : num :=
  match a, b with
  | NaN, _ | _, NaN => NaN
  | Fin x, Fin y => Fin (x + y)
  | Inf s, Inf s' => if Bool.eqb s s' then Inf s else NaN
  | Inf s, Fin _ | Fin _, Inf s => Inf s
  end.

Definition sub (a b : num) : num :=
  match a, b with
  | NaN, _ | _, NaN => NaN
  | Fin x, Fin y => Fin (x - y)
  | Inf s, Inf s' => if Bool.eqb s s' then NaN else Inf s
  | Inf s, Fin _ => Inf s
  | Fin _, Inf s => Inf (negb s)
  end.

Definition mul (a b : num) : num :=
  match a, b with
  | NaN, _ | _, NaN => NaN
  | Fin x, Fin y => Fin (x * y)
  | Inf s, Inf s' => Inf (xorb s s')
  | Inf s, Fin y | Fin y, Inf s =>
      if is_zero y then NaN else Inf (xorb s (is_neg y))
  end.

(** [a / b]: a zero divisor gives [NaN] for [0 / 0] and an infinity
    otherwise. *)
Definition div (a b : num) : num :=
  match a, b with
  | NaN, _ | _, NaN => NaN
  | Fin x, Fin y =>
      if is_zero y then (if is_zero x then NaN else Inf (is_neg x))
      else Fin (x / y)
  | Inf _, Inf _ => NaN
  | Inf s, Fin y => Inf (xorb s (is_neg y))
  | Fin _, Inf _ => Fin 0
  end.

(** [a < b]; every comparison with [NaN] is false. *)
Definition lt (a b : num) : bool :=
  match a, b with
  | NaN, _ | _, NaN => false
  | Fin x, Fin y => match (x ?= y)%Q with Lt => true | _ => false end
  | Inf s, Inf s' => s && negb s'
  | Inf s, Fin _ => s
  | Fin _, Inf s => negb s
  end.

Definition le (a b : num) : bool :=
  match a, b with
  | NaN, _ | _, NaN => false
  | Fin x, Fin y => match (x ?= y)%Q with Gt => false | _ => true end
  | Inf s, Inf s' => s || negb s'
  | Inf s, Fin _ => s
  | Fin _, Inf s => negb s
  end.

Definition gt (a b : num) : bool := lt b a.
Definition ge (a b : num) : bool := le b a.

(** [Math.min(a, b)] *)
Definition min (a b : num) : num :=
  match a, b with
  | NaN, _ | _, NaN => NaN
  | _, _ => if lt b a then b else a
  end.

(** [Math.ceil(a)] *)
Definition ceil (a : num) : num :=
  match a with
  | Fin x => of_Z (Qceiling x)
  | _ => a
  end.

(** The string [x.toFixed(1)] builds, as the number of tenths it shows:
    the integer nearest to [10 * x], the larger one on a tie, computed on
    the magnitude with the sign put back. *)
Inductive fixed : Type :=
| FixedNaN
| FixedInf (negative : bool)
| Fixed (tenths : Z).

Definition round_tenths (x : Q) : Z := Qfloor (x * 10 + (1 # 2))%Q.

Definition toFixed1 (a : num) : fixed :=
  match a with
  | NaN => FixedNaN
  | Inf s => FixedInf s
  | Fin x => Fixed (if is_neg x then (- round_tenths (- x)%Q)%Z else round_tenths x)
  end.

(** The characters of a [fixed]. *)
Definition show (f : fixed) : string :=
  match f with
  | FixedNaN => "NaN"
  | FixedInf s => (if s then "-" else EmptyString) +:+ "Infinity"
  | Fixed t =>
      (if (t <? 0)%Z then "-" else EmptyString)
        +:+ pretty (Z.abs t / 10)%Z +:+ "." +:+ pretty (Z.abs t mod 10)%Z
  end.

(** The number a [fixed] string converts back to. *)
Definition Number (f : fixed) : num :=
  match f with
  | FixedNaN => NaN
  | FixedInf s => Inf s
  | Fixed t => Fin (t # 10)
  end.

(** A field that holds either a number or a [toFixed] string. *)
Inductive value : Type :=
| VNumber (n : num)
| VString (f : fixed).

Definition valueOf (v : value) : num :=
  match v with
  | VNumber n => n
  | VString f => Number f
  end.

(** An integer counter stepped by [++]; [undefined++] is [NaN]. *)
Inductive counter : Type :=
| CNaN
| Count (n : nat).

#[global] Instance counter_eq_dec : EqDecision counter.
Proof. solve_decision. Defined.

(** A [Date]: its time value in milliseconds, [None] for "Invalid Date". *)
Definition Date : Type := option Z.

Definition getTime (d : Date) : num :=
  match d with
  | Some ms => of_Z ms
  | None => NaN
  end.

(** [s.toLowerCase()] on the ASCII letters. *)
Definition lower_ascii (c : ascii) : ascii :=
  let n := N_of_ascii c in
  if ((65 <=? n) && (n <=? 90))%N then ascii_of_N (n + 32) else c.

Fixpoint toLowerCase (s : string) : string :=
  match s with
  | EmptyString => EmptyString
  | String c s' => String (lower_ascii c) (toLowerCase s')
  end.

(** [s.includes(sub)] *)
Definition includes (sub s : string) : bool :=
  match String.index 0 sub s with
  | Some _ => true
  | None => false
  end.

(** [Boolean(s)] for a string that may be undefined. *)
Definition truthy (s : option string) : option string :=
  match s with
  | Some EmptyString | None => None
  | Some s => Some s
  end.

(** [s || ''] *)
Definition or_empty (s : option string) : string := default EmptyString s.

(** The double-quote character, as a string. *)
Definition quote : string := String (ascii_of_nat 34) EmptyString.

End Js.

(** ** Data model *)

(** A task record.  [projectName] and [projectId] are the fields the
    dashboard adds when it flattens the projects; [due] is [None] for a null
    or empty due date. *)
Module Task.
Record t : Type := mk {
  id : Z;
  title : string;
  description : option string;
  assignee : option string;
  due : option Js.Date;
  status : string;
  complexity : option string;
  projectName : option string;
  projectId : option Z
}.
End Task.

Module Project.
Record t : Type := mk {
  id : Z;
  name : string;
  members : list string;
  tasks : list Task.t
}.
End Project.

Module Recommendation.
Record t : Type := mk {
  type : string;
  icon : string;
  title : string;
  description : string;
  action : string;
  priority : string
}.
End Recommendation.

(** ** ProjectDetail: project mutations *)

(** [updateProject] of [App]: replaces every project that has the id of
    [updated]. *)
Definition updateProject (projects : list Project.t) (updated : Project.t)
  : list Project.t :=
  map (fun p => if (Project.id p =? Project.id updated)%Z then updated else p)
      projects.

Definition set_members (project : Project.t) (ms : list string) : Project.t :=
  Project.mk (Project.id project) (Project.name project) ms
             (Project.tasks project).

(** [addMember]: [email] is what [prompt] returned ([None] when the dialog
    was cancelled).  The result is the project handed to [updateProject], or
    [None] when [updateProject] is not called. *)
Definition addMember (project : Project.t) (email : option string)
  : option Project.t :=
  match Js.truthy email with
  | Some email =>
      if negb (bool_decide (email ∈ Project.members project))
      then Some (set_members project (Project.members project ++ [email]))
      else None
  | None => None
  end.

(** The project as it stands after [addMember]. *)
Definition after_addMember (project : Project.t) (email : option string)
  : Project.t :=
  default project (addMember project email).

(** ** AIDashboard: recommendations *)

Definition msPerDay : Z := 1000 * 60 * 60 * 24.

Definition is_status (s : string) (t : Task.t) : bool :=
  String.eqb (Task.status t) s.

Definition not_Done (t : Task.t) : bool := negb (is_status "Done" t).

(** The callback of the [overdueTasks] filter. *)
Definition overdue (today : Z) (t : Task.t) : bool :=
  match Task.due t with
  | None => false
  | Some dueDate => Js.lt (Js.getTime dueDate) (Js.of_Z today) && not_Done t
  end.

(** [t.due && t.status !== 'Done'] *)
Definition has_deadline (t : Task.t) : bool :=
  match Task.due t with
  | None => false
  | Some _ => not_Done t
  end.

(** [daysLeft] of the [upcomingDeadlines] filter: no rounding is applied. *)
Definition daysLeft (today : Z) (dueDate : Js.Date) : Js.num :=
  Js.div (Js.sub (Js.getTime dueDate) (Js.of_Z today)) (Js.of_Z msPerDay).

Definition upcoming (today : Z) (t : Task.t) : bool :=
  match Task.due t with
  | None => false
  | Some dueDate =>
      let daysLeft := daysLeft today dueDate in
      Js.le daysLeft (Js.of_nat 3) && Js.ge daysLeft (Js.of_nat 0)
  end.

(** [tasks.length > 0 ? (done / tasks.length) * 100 : 0] *)
Definition completionRate (tasks : list Task.t) : Js.num :=
  if (0 <? length tasks)%nat
  then Js.mul (Js.div (Js.of_nat (length (List.filter (is_status "Done") tasks)))
                      (Js.of_nat (length tasks)))
              (Js.of_nat 100)
  else Js.of_nat 0.

(** [new Set(tasks.map(t => t.assignee).filter(Boolean))] *)
Definition uniqueAssignees (tasks : list Task.t) : gset string :=
  list_to_set (omap (fun t => Js.truthy (Task.assignee t)) tasks).

Definition rec_overdue (overdueTasks : nat) : Recommendation.t :=
  Recommendation.mk "urgent" "🚨" "Overdue Tasks Detected"
    (pretty overdueTasks +:+
     " tasks are overdue. AI suggests immediate attention and stakeholder communication.")
    "Review overdue tasks and update timelines" "high".

Definition rec_workload : Recommendation.t :=
  Recommendation.mk "workload" "⚖️" "Workload Distribution Alert"
    "High number of active tasks detected. AI recommends task prioritization and resource allocation."
    "Consider breaking down large tasks or adding team members" "medium".

Definition rec_productivity : Recommendation.t :=
  Recommendation.mk "productivity" "📈" "Productivity Optimization"
    "Low completion rate detected. AI suggests implementing daily standups and task breakdown."
    "Break down complex tasks into smaller, manageable pieces" "medium".

Definition rec_deadline (upcomingDeadlines : nat) : Recommendation.t :=
  Recommendation.mk "deadline" "⏰" "Upcoming Deadlines"
    (pretty upcomingDeadlines +:+
     " tasks have deadlines within 3 days. AI recommends focused attention.")
    "Prioritize tasks with imminent deadlines" "high".

Definition rec_collaboration : Recommendation.t :=
  Recommendation.mk "collaboration" "👥" "Team Collaboration Opportunity"
    "AI detects potential for better task distribution and cross-team collaboration."
    "Consider redistributing tasks or adding more team members" "low".

Definition rec_success : Recommendation.t :=
  Recommendation.mk "success" "🎉" "Excellent Project Management"
    "AI analysis shows healthy project metrics. Keep up the great work!"
    "Continue current practices and consider expanding the project scope" "low".

(** [if (c) xs.push(x)] *)
Definition push_if {A : Type} (c : bool) (x : A) (xs : list A) : list A :=
  if c then xs ++ [x] else xs.

(** The five tests of [generateAIRecommendations], in source order. *)
Definition overdueTasks (today : Z) (tasks : list Task.t) : nat :=
  length (List.filter (overdue today) tasks).

Definition upcomingDeadlines (today : Z) (tasks : list Task.t) : nat :=
  length (List.filter (upcoming today) (List.filter has_deadline tasks)).

Definition collaboration_test (tasks : list Task.t) : bool :=
  if (0 <? size (uniqueAssignees tasks))%nat
  then
    let avgTasksPerPerson :=
      Js.div (Js.of_nat (length tasks)) (Js.of_nat (size (uniqueAssignees tasks))) in
    Js.gt avgTasksPerPerson (Js.of_nat 3)
  else false.

Definition generateAIRecommendations (today : Z) (tasks : list Task.t)
  : list Recommendation.t :=
  let recommendations := [] in
  let highPriorityTasks := length (List.filter not_Done tasks) in
  let overdueTasks := overdueTasks today tasks in
  let recommendations :=
    push_if (0 <? overdueTasks)%nat (rec_overdue overdueTasks) recommendations in
  let recommendations :=
    push_if (5 <? highPriorityTasks)%nat rec_workload recommendations in
  let completionRate := completionRate tasks in
  let recommendations :=
    push_if (Js.lt completionRate (Js.of_nat 30)) rec_productivity recommendations in
  let upcomingDeadlines := upcomingDeadlines today tasks in
  let recommendations :=
    push_if (0 <? upcomingDeadlines)%nat (rec_deadline upcomingDeadlines)
            recommendations in
  let recommendations :=
    push_if (collaboration_test tasks) rec_collaboration recommendations in
  let recommendations :=
    push_if (length recommendations =? 0)%nat rec_success recommendations in
  recommendations.

(** ** The insight service *)

Module Priority.
Record t : Type := mk {
  priority : string;
  confidence : Q;
  method : string;
  reasoning : string
}.
End Priority.

Module Deadline.
Record t : Type := mk {
  days_left : option Z;
  risk_level : string;
  confidence : Q;
  recommendations : option (list string);
  urgency_score : Q
}.
End Deadline.

(** The body of an [/ai-insights] response; each part may be missing. *)
Module Insight.
Record t : Type := mk {
  priority : option Priority.t;
  deadline : option Deadline.t;
  summary : option string
}.
End Insight.

(** What awaiting [getAIInsights] does: it throws (network or server error)
    or returns the response body, which may be null. *)
Inductive response : Type :=
| Throws
| Returns (data : option Insight.t).

(** [getAIInsights(title, description, dueDate, complexity)], for the task at
    a given position of the flattened task list. *)
Definition Api : Type :=
  nat -> string -> string -> option Js.Date -> string -> response.

(** [insight?.priority?.priority]; a missing value reads as the empty
    string, which is falsy and equal to no label. *)
Definition priority_label (insight : option Insight.t) : string :=
  match insight with
  | Some i =>
      match Insight.priority i with
      | Some p => Priority.priority p
      | None => EmptyString
      end
  | None => EmptyString
  end.

(** [insight?.deadline?.risk_level] *)
Definition risk_level (insight : option Insight.t) : string :=
  match insight with
  | Some i =>
      match Insight.deadline i with
      | Some d => Deadline.risk_level d
      | None => EmptyString
      end
  | None => EmptyString
  end.

(** [insight.deadline?.recommendations?.[0] || fallback] *)
Definition first_recommendation (insight : option Insight.t) (fallback : string)
  : string :=
  match insight with
  | Some i =>
      match Insight.deadline i with
      | Some d =>
          match Deadline.recommendations d with
          | Some (r :: _) => if String.eqb r EmptyString then fallback else r
          | _ => fallback
          end
      | None => fallback
      end
  | None => fallback
  end.

(** ** AIDashboard: risk alerts *)

Module Alert.
Record t : Type := mk {
  type : string;
  severity : string;
  task : Task.t;
  message : string;
  recommendation : string
}.
End Alert.

(** The alerts one loop iteration of [generateRiskAlerts] pushes for [task],
    given the insight the service returned for it. *)
Definition alerts_of (task : Task.t) (insight : option Insight.t)
  : list Alert.t :=
  let alerts := [] in
  let alerts :=
    if String.eqb (risk_level insight) "overdue" then
      alerts ++ [Alert.mk "overdue" "critical" task
                   ("Task " +:+ Js.quote +:+ Task.title task +:+ Js.quote +:+ " is overdue")
                   (first_recommendation insight "Immediate action required")]
    else if String.eqb (risk_level insight) "critical" then
      alerts ++ [Alert.mk "critical" "high" task
                   ("Task " +:+ Js.quote +:+ Task.title task +:+ Js.quote
                    +:+ " has critical deadline risk")
                   (first_recommendation insight "Urgent attention needed")]
    else alerts in
  push_if (String.eqb (priority_label insight) "high")
    (Alert.mk "priority" "medium" task
       ("High priority task " +:+ Js.quote +:+ Task.title task +:+ Js.quote
          +:+ " needs attention")
       "Focus resources on this high-impact task")
    alerts.

(** The request [generateRiskAlerts] and [generateProjectInsights] send for
    [task]. *)
Definition request (api : Api) (n : nat) (task : Task.t) (complexity : string)
  : response :=
  api n (Task.title task) (Js.or_empty (Task.description task)) (Task.due task)
      complexity.

(** One iteration of the loop of [generateRiskAlerts]: a task that is done is
    skipped, a request that throws is caught and pushes nothing. *)
Definition risk_alerts_step (api : Api) (n : nat) (task : Task.t)
  : list Alert.t :=
  if is_status "Done" task then []
  else
    match request api n task "medium" with
    | Returns insight => alerts_of task insight
    | Throws => []
    end.

Definition generateRiskAlerts (api : Api) (tasks : list Task.t)
  : list Alert.t :=
  concat (imap (risk_alerts_step api) tasks).

(** ** AIDashboard: productivity *)

Module Productivity.
Record t : Type := mk {
  completionRate : Js.fixed;
  progressRate : Js.fixed;
  complexTasks : nat;
  avgTaskComplexity : Js.value;
  productivityScore : Js.fixed
}.
End Productivity.

Definition completedTasks (tasks : list Task.t) : list Task.t :=
  List.filter (is_status "Done") tasks.

Definition inProgressTasks (tasks : list Task.t) : list Task.t :=
  List.filter (is_status "In Progress") tasks.

Definition todoTasks (tasks : list Task.t) : list Task.t :=
  List.filter (is_status "To-Do") tasks.

(** [tasks.length > 0 ? ((completed + inProgress) / tasks.length) * 100 : 0] *)
Definition progressRate (tasks : list Task.t) : Js.num :=
  if (0 <? length tasks)%nat
  then Js.mul (Js.div (Js.of_nat (length (completedTasks tasks)
                                   + length (inProgressTasks tasks)))
                      (Js.of_nat (length tasks)))
              (Js.of_nat 100)
  else Js.of_nat 0.

(** The callback of the [complexTasks] filter. *)
Definition is_complex (t : Task.t) : bool :=
  let desc := Js.or_empty (Task.description t) in
  (100 <? String.length desc)%nat
  || Js.includes "complex" (Js.toLowerCase desc)
  || Js.includes "difficult" (Js.toLowerCase desc)
  || Js.includes "challenging" (Js.toLowerCase desc).

(** [(completionRate + progressRate) / 2], the argument of [Math.min]. *)
Definition averageRate (tasks : list Task.t) : Js.num :=
  Js.div (Js.add (completionRate tasks) (progressRate tasks)) (Js.of_nat 2).

Definition generateProductivityInsights (tasks : list Task.t) : Productivity.t :=
  let complexTasks := List.filter is_complex tasks in
  {| Productivity.completionRate := Js.toFixed1 (completionRate tasks);
     Productivity.progressRate := Js.toFixed1 (progressRate tasks);
     Productivity.complexTasks := length complexTasks;
     Productivity.avgTaskComplexity :=
       if (0 <? length tasks)%nat
       then Js.VString
              (Js.toFixed1
                 (Js.mul (Js.div (Js.of_nat (length complexTasks))
                                 (Js.of_nat (length tasks)))
                         (Js.of_nat 100)))
       else Js.VNumber (Js.of_nat 0);
     Productivity.productivityScore :=
       Js.toFixed1 (Js.min (Js.of_nat 100) (averageRate tasks)) |}.

(** ** Objects used as dictionaries *)

(** An object with string keys, as the list of its own properties in
    creation order.  [Object.keys] lists the keys that are array indices
    first, in ascending numeric order, then the others in creation order.
    [get] reads an own property and [set] creates or updates one, as
    [o[k]] and [o[k] = v] do for every key that [Object.prototype] does not
    define; [o[k]] also finds the inherited properties, and an assignment
    to the key [__proto__] creates no property. *)
Module Obj.
Section Obj.
Context {V : Type}.

Definition t : Type := list (string * V).

Fixpoint get (o : t) (k : string) : option V :=
  match o with
  | [] => None
  | (k', v) :: o' => if String.eqb k' k then Some v else get o' k
  end.

Fixpoint set (o : t) (k : string) (v : V) : t :=
  match o with
  | [] => [(k, v)]
  | (k', v') :: o' =>
      if String.eqb k' k then (k', v) :: o' else (k', v') :: set o' k v
  end.

Definition digit (c : ascii) : option N :=
  let n := N_of_ascii c in
  if ((48 <=? n) && (n <=? 57))%N then Some (n - 48)%N else None.

Fixpoint digits (s : string) (acc : N) : option N :=
  match s with
  | EmptyString => Some acc
  | String c s' =>
      match digit c with
      | Some d => digits s' (10 * acc + d)%N
      | None => None
      end
  end.

(** The array index a key denotes: a decimal numeral without a leading
    zero whose value is below [2^32 - 1]. *)
Definition array_index (k : string) : option N :=
  match k with
  | EmptyString => None
  | String c rest =>
      if Ascii.eqb c "0" && negb (String.eqb rest EmptyString) then None
      else
        match digits k 0 with
        | Some n => if (n <? 2 ^ 32 - 1)%N then Some n else None
        | None => None
        end
  end.

Definition indexed (o : t) : list (N * (string * V)) :=
  omap (fun e => (fun n => (n, e)) <$> array_index e.1) o.

Definition named (o : t) : list (string * V) :=
  List.filter (fun e => negb (bool_decide (is_Some (array_index e.1)))) o.

Definition index_le (a b : N * (string * V)) : Prop := (a.1 <= b.1)%N.

#[global] Instance index_le_dec a b : Decision (index_le a b).
Proof. unfold index_le. apply _. Defined.

Definition entries (o : t) : list (string * V) :=
  map snd (merge_sort index_le (indexed o)) ++ named o.

Definition keys (o : t) : list string := map fst (entries o).
Definition values (o : t) : list V := map snd (entries o).
End Obj.
Arguments t : clear implicits.
End Obj.

(** ** AIDashboard: team *)

Module Team.
Record t : Type := mk {
  totalMembers : nat;
  avgTasksPerMember : Js.fixed;
  mostActiveMember : string;
  projectDistribution : Obj.t nat
}.
End Team.

(** [t.assignee === member] *)
Definition assigned_to (member : string) (t : Task.t) : bool :=
  match Task.assignee t with
  | Some a => String.eqb a member
  | None => false
  end.

(** The three accumulators of [generateTeamInsights]. *)
Record TeamState : Type := mkTeamState {
  allMembers : gset string;
  memberTaskCounts : Obj.t nat;
  projectCounts : Obj.t nat
}.

(** The body of [project.members.forEach].  [memberTaskCounts[member] || 0]
    is read as an own property; for a member called like a property that
    [Object.prototype] defines the code reads the inherited value. *)
Definition team_member_step (project : Project.t) (st : TeamState)
  (member : string) : TeamState :=
  {| allMembers := allMembers st ∪ {[member]};
     memberTaskCounts :=
       Obj.set (memberTaskCounts st) member
         (default 0 (Obj.get (memberTaskCounts st) member)
          + length (List.filter (assigned_to member) (Project.tasks project)));
     projectCounts := projectCounts st |}.

(** The body of [projects.forEach]. *)
Definition team_project_step (st : TeamState) (project : Project.t)
  : TeamState :=
  let st := foldl (team_member_step project) st (Project.members project) in
  {| allMembers := allMembers st;
     memberTaskCounts := memberTaskCounts st;
     projectCounts :=
       Obj.set (projectCounts st) (Project.name project)
               (length (Project.tasks project)) |}.

Definition team_state (projects : list Project.t) : TeamState :=
  foldl team_project_step
        {| allMembers := ∅; memberTaskCounts := []; projectCounts := [] |}
        projects.

(** [counts[k]] converted to a number for a comparison: a missing key reads
    as [undefined], which converts to [NaN]. *)
Definition count_num (counts : Obj.t nat) (k : string) : Js.num :=
  match Obj.get counts k with
  | Some n => Js.of_nat n
  | None => Js.NaN
  end.

(** The reducer of [mostActiveMember]. *)
Definition more_active (counts : Obj.t nat) (a b : string) : string :=
  if Js.gt (count_num counts a) (count_num counts b) then a else b.

Definition mostActive (counts : Obj.t nat) : string :=
  foldl (more_active counts) "None" (Obj.keys counts).

Definition generateTeamInsights (projects : list Project.t) : Team.t :=
  let st := team_state projects in
  let totalMembers := size (allMembers st) in
  let avgTasksPerMember :=
    if (0 <? totalMembers)%nat
    then Js.div (foldl Js.add (Js.of_nat 0)
                       (map Js.of_nat (Obj.values (memberTaskCounts st))))
                (Js.of_nat totalMembers)
    else Js.of_nat 0 in
  {| Team.totalMembers := totalMembers;
     Team.avgTasksPerMember := Js.toFixed1 avgTasksPerMember;
     Team.mostActiveMember := mostActive (memberTaskCounts st);
     Team.projectDistribution := projectCounts st |}.

(** ** AIDashboard: summary of the per-task insights *)

Module TaskInsight.
Record t : Type := mk {
  task : Task.t;
  insight : option Insight.t
}.
End TaskInsight.

Module Summary.
Record t : Type := mk {
  totalTasks : nat;
  completedTasks : nat;
  inProgressTasks : nat;
  todoTasks : nat;
  completionRate : Js.value;
  priorityCounts : gmap string Js.counter;
  riskCounts : gmap string Js.counter;
  highRiskTasks : nat;
  highPriorityTasks : nat;
  urgentTasks : nat
}.
End Summary.

(** [counts[k]++], for every key but [__proto__], whose assignment creates
    no bucket. *)
Definition increment (counts : gmap string Js.counter) (k : string)
  : gmap string Js.counter :=
  <[k := match counts !! k with
         | Some (Js.Count n) => Js.Count (S n)
         | _ => Js.CNaN
         end]> counts.

(** [if (label) counts[label]++] *)
Definition tally (counts : gmap string Js.counter) (label : string)
  : gmap string Js.counter :=
  if String.eqb label EmptyString then counts else increment counts label.

Definition priorityCounts0 : gmap string Js.counter :=
  <["low" := Js.Count 0]> (<["medium" := Js.Count 0]> (<["high" := Js.Count 0]> ∅)).

Definition riskCounts0 : gmap string Js.counter :=
  <["low" := Js.Count 0]> (<["medium" := Js.Count 0]> (<["high" := Js.Count 0]>
    (<["critical" := Js.Count 0]> (<["overdue" := Js.Count 0]> ∅)))).

Definition task_has_status (s : string) (ti : TaskInsight.t) : bool :=
  is_status s (TaskInsight.task ti).

(** The callback of the [highRiskTasks] filter. *)
Definition is_high_risk (ti : TaskInsight.t) : bool :=
  String.eqb (risk_level (TaskInsight.insight ti)) "overdue"
  || String.eqb (risk_level (TaskInsight.insight ti)) "critical".

(** The callback of the [highPriorityTasks] filter. *)
Definition is_high_priority (ti : TaskInsight.t) : bool :=
  String.eqb (priority_label (TaskInsight.insight ti)) "high".

Definition generateSummaryInsights (taskInsights : list TaskInsight.t)
  : Summary.t :=
  let totalTasks := length taskInsights in
  let completedTasks := length (List.filter (task_has_status "Done") taskInsights) in
  let inProgressTasks :=
    length (List.filter (task_has_status "In Progress") taskInsights) in
  let todoTasks := length (List.filter (task_has_status "To-Do") taskInsights) in
  let priorityCounts :=
    foldl (fun counts ti => tally counts (priority_label (TaskInsight.insight ti)))
          priorityCounts0 taskInsights in
  let riskCounts :=
    foldl (fun counts ti => tally counts (risk_level (TaskInsight.insight ti)))
          riskCounts0 taskInsights in
  let highRiskTasks := List.filter is_high_risk taskInsights in
  let highPriorityTasks := List.filter is_high_priority taskInsights in
  {| Summary.totalTasks := totalTasks;
     Summary.completedTasks := completedTasks;
     Summary.inProgressTasks := inProgressTasks;
     Summary.todoTasks := todoTasks;
     Summary.completionRate :=
       if (0 <? totalTasks)%nat
       then Js.VString
              (Js.toFixed1
                 (Js.mul (Js.div (Js.of_nat completedTasks) (Js.of_nat totalTasks))
                         (Js.of_nat 100)))
       else Js.VNumber (Js.of_nat 0);
     Summary.priorityCounts := priorityCounts;
     Summary.riskCounts := riskCounts;
     Summary.highRiskTasks := length highRiskTasks;
     Summary.highPriorityTasks := length highPriorityTasks;
     Summary.urgentTasks := length highRiskTasks + length highPriorityTasks |}.

(** ** AIDashboard: the two analysis runs *)

(** How a run wrapped in [try]/[catch] ends: it sets the component state to
    its result, or the [catch] branch logs the error and sets nothing. *)
Inductive outcome (A : Type) : Type :=
| Completed (result : A)
| Failed (error : string).
Arguments Completed {A} result.
Arguments Failed {A} error.

Module Insights.
Record t : Type := mk {
  taskInsights : list TaskInsight.t;
  summary : Summary.t
}.
End Insights.

Module Advanced.
Record t : Type := mk {
  recommendations : list Recommendation.t;
  alerts : list Alert.t;
  productivity : Productivity.t;
  team : Team.t
}.
End Advanced.

(** [{ ...task, projectName: project.name }] *)
Definition with_projectName (project : Project.t) (task : Task.t) : Task.t :=
  {| Task.id := Task.id task;
     Task.title := Task.title task;
     Task.description := Task.description task;
     Task.assignee := Task.assignee task;
     Task.due := Task.due task;
     Task.status := Task.status task;
     Task.complexity := Task.complexity task;
     Task.projectName := Some (Project.name project);
     Task.projectId := Task.projectId task |}.


(** [projects.flatMap(project => project.tasks.map(tag))] *)
Definition allTasks (tag : Project.t -> Task.t -> Task.t)
  (projects : list Project.t) : list Task.t :=
  flat_map (fun project => map (tag project) (Project.tasks project)) projects.

(** The callback of [allTasks.map] in [generateProjectInsights]: a request
    that throws is caught and recorded as a null insight. *)
Definition task_insight (api : Api) (n : nat) (task : Task.t) : TaskInsight.t :=
  match request api n task (default "medium" (Js.truthy (Task.complexity task))) with
  | Returns insight => {| TaskInsight.task := task; TaskInsight.insight := insight |}
  | Throws => {| TaskInsight.task := task; TaskInsight.insight := None |}
  end.

(** No statement of the [try] block throws, so the [catch] branch, which
    would give [Failed], is never taken. *)
Definition generateProjectInsights (api : Api) (projects : list Project.t)
  : outcome Insights.t :=
  let allTasks := allTasks with_projectName projects in
  let taskInsights := imap (task_insight api) allTasks in
  let summary := generateSummaryInsights taskInsights in
  Completed {| Insights.taskInsights := taskInsights;
               Insights.summary := summary |}.


(** ** AITaskCard *)

(** [getDaysLeft(dueDate)]: [None] is the [null] returned for a task without
    a due date. *)
Definition getDaysLeft (today : Z) (dueDate : option Js.Date) : option Js.num :=
  match dueDate with
  | None => None
  | Some due =>
      let diffTime := Js.sub (Js.getTime due) (Js.of_Z today) in
      let diffDays := Js.ceil (Js.div diffTime (Js.of_Z msPerDay)) in
      Some diffDays
  end.

(** ** Strings: [trim] *)

(** The white space that [trim] removes, as UTF-8: U+0009 to U+000D and
    U+0020 take one byte, U+00A0 takes two, and U+1680, U+2000 to U+200A,
    U+2028, U+2029, U+202F, U+205F, U+3000 and U+FEFF take three. *)
Definition space1 (c : ascii) : bool :=
  let n := N_of_ascii c in
  ((9 <=? n) && (n <=? 13) || (n =? 32))%N.

Definition space2 (c1 c2 : ascii) : bool :=
  ((N_of_ascii c1 =? 194) && (N_of_ascii c2 =? 160))%N.

Definition space3 (c1 c2 c3 : ascii) : bool :=
  let a := N_of_ascii c1 in
  let b := N_of_ascii c2 in
  let c := N_of_ascii c3 in
  ((a =? 225) && (b =? 154) && (c =? 128)
   || (a =? 226) && (b =? 128)
      && ((128 <=? c) && (c <=? 138) || (c =? 168) || (c =? 169) || (c =? 175))
   || (a =? 226) && (b =? 129) && (c =? 159)
   || (a =? 227) && (b =? 128) && (c =? 128)
   || (a =? 239) && (b =? 187) && (c =? 191))%N.

(** [s] is made of white space only. *)
Fixpoint only_spaces (s : string) : bool :=
  match s with
  | EmptyString => true
  | String c1 r1 =>
      if space1 c1 then only_spaces r1
      else
        match r1 with
        | String c2 r2 =>
            if space2 c1 c2 then only_spaces r2
            else
              match r2 with
              | String c3 r3 => space3 c1 c2 c3 && only_spaces r3
              | EmptyString => false
              end
        | EmptyString => false
        end
  end.

Fixpoint trimStart (s : string) : string :=
  match s with
  | EmptyString => EmptyString
  | String c1 r1 =>
      if space1 c1 then trimStart r1
      else
        match r1 with
        | String c2 r2 =>
            if space2 c1 c2 then trimStart r2
            else
              match r2 with
              | String c3 r3 => if space3 c1 c2 c3 then trimStart r3 else s
              | EmptyString => s
              end
        | EmptyString => s
        end
  end.

(** The white space at the end goes: the string is cut where what is left
    is white space only. *)
Fixpoint trimEnd (s : string) : string :=
  match s with
  | EmptyString => EmptyString
  | String c s' => if only_spaces s then EmptyString else String c (trimEnd s')
  end.

(** [s.trim()] *)
Definition trim (s : string) : string := trimEnd (trimStart s).

(** ** ProjectDetail: tasks *)

(** The state of the form for a new task; [due] is [None] for the empty
    string of a date input left blank. *)
Module NewTask.
Record t : Type := mk {
  title : string;
  description : string;
  assignee : string;
  due : option Js.Date;
  status : string
}.
End NewTask.

Definition set_tasks (project : Project.t) (ts : list Task.t) : Project.t :=
  Project.mk (Project.id project) (Project.name project)
             (Project.members project) ts.

(** [Math.max(0, ...ids)], for integers that a number holds exactly. *)
Definition max_id (ids : list Z) : Z := foldl Z.max 0%Z ids.

(** The task [addTask] builds:
    [{ id: max + 1, ...newTask, due: newTask.due || null }]. *)
Definition new_task (project : Project.t) (newTask : NewTask.t) : Task.t :=
  {| Task.id := max_id (map Task.id (Project.tasks project)) + 1;
     Task.title := NewTask.title newTask;
     Task.description := Some (NewTask.description newTask);
     Task.assignee := Some (NewTask.assignee newTask);
     Task.due := NewTask.due newTask;
     Task.status := NewTask.status newTask;
     Task.complexity := None;
     Task.projectName := None;
     Task.projectId := None |}.

(** [addTask]: the project handed to [updateProject], or [None] when the
    title trims to nothing and the function returns at once. *)
Definition addTask (project : Project.t) (newTask : NewTask.t)
  : option Project.t :=
  if String.eqb (trim (NewTask.title newTask)) EmptyString then None
  else Some (set_tasks project
               (Project.tasks project ++ [new_task project newTask])).

(** [updateTask]: the project handed to [updateProject]. *)
Definition updateTask (project : Project.t) (updatedTask : Task.t) : Project.t :=
  set_tasks project
    (map (fun t => if (Task.id t =? Task.id updatedTask)%Z then updatedTask else t)
         (Project.tasks project)).

(** [deleteTask]: the project handed to [updateProject]. *)
Definition deleteTask (project : Project.t) (taskId : Z) : Project.t :=
  set_tasks project
    (List.filter (fun t => negb (Task.id t =? taskId)%Z) (Project.tasks project)).

(** [{ ...task, status: value }], what the status select of a task card
    passes to [onUpdate]. *)
Definition with_status (task : Task.t) (value : string) : Task.t :=
  {| Task.id := Task.id task;
     Task.title := Task.title task;
     Task.description := Task.description task;
     Task.assignee := Task.assignee task;
     Task.due := Task.due task;
     Task.status := value;
     Task.complexity := Task.complexity task;
     Task.projectName := Task.projectName task;
     Task.projectId := Task.projectId task |}.

(** [projects.find(p => p.id === projectId)] *)
Definition find_project (projects : list Project.t) (projectId : Z)
  : option Project.t :=
  List.find (fun p => (Project.id p =? projectId)%Z) projects.

(** ** App: projects *)

(** [addProject(name)]: the list handed to [setProjects]. *)
Definition addProject (projects : list Project.t) (name : string)
  : list Project.t :=
  let id := (max_id (map Project.id projects) + 1)%Z in
  projects ++ [ {| Project.id := id; Project.name := name;
                   Project.members := []; Project.tasks := [] |} ].

(** ** Colours of the risk levels and priorities *)

(** [getRiskColor], defined alike in [AIDashboard] and [AITaskCard]; [None]
    is an undefined level. *)
Definition getRiskColor (riskLevel : option string) : string :=
  match riskLevel with
  | None => "#6b7280"
  | Some s =>
      let l := Js.toLowerCase s in
      if String.eqb l "overdue" then "#dc2626"
      else if String.eqb l "critical" then "#ea580c"
      else if String.eqb l "high" then "#d97706"
      else if String.eqb l "medium" then "#ca8a04"
      else if String.eqb l "low" then "#16a34a"
      else "#6b7280"
  end.

(** [getPriorityColor], defined alike in [AIDashboard] and [AITaskCard]. *)
Definition getPriorityColor (priority : option string) : string :=
  match priority with
  | None => "#6b7280"
  | Some s =>
      let l := Js.toLowerCase s in
      if String.eqb l "high" then "#ef4444"
      else if String.eqb l "medium" then "#f59e0b"
      else if String.eqb l "low" then "#10b981"
      else "#6b7280"
  end.

(** * Vocabulary of the properties *)

(** ** Numbers *)

(** A finite number between 0 and 100. *)
Definition percentage (a : Js.num) : Prop :=
  exists q : Q, a = Js.Fin q /\ (0 <= q)%Q /\ (q <= 100)%Q.

(** Two numbers denote the same value. *)
Definition same_number (a b : Js.num) : Prop :=
  match a, b with
  | Js.NaN, Js.NaN => True
  | Js.Inf s, Js.Inf s' => s = s'
  | Js.Fin x, Js.Fin y => (x == y)%Q
  | _, _ => False
  end.

(** ** Conditions of the recommendations *)

(** The five conditions under which a recommendation other than the default
    one is issued.  Some task that is not done has a valid due date before
    [today]. *)
Definition overdue_exists (today : Z) (tasks : list Task.t) : Prop :=
  exists t ms, In t tasks /\ Task.due t = Some (Some ms)
               /\ (ms < today)%Z /\ Task.status t <> "Done".

(** More than five tasks are not done. *)
Definition many_open_tasks (tasks : list Task.t) : Prop :=
  (5 < length (filter (fun t => Task.status t <> "Done") tasks))%nat.

(** The completion rate, done tasks over all tasks times 100 and 0 when
    there is no task, is below 30. *)
Definition low_completion (tasks : list Task.t) : Prop :=
  tasks = []
  \/ (100 * length (filter (fun t => Task.status t = "Done") tasks)
      < 30 * length tasks)%nat.

(** Some task that is not done is due between [today] and three days from
    [today]. *)
Definition deadline_within_3_days (today : Z) (tasks : list Task.t) : Prop :=
  exists t ms, In t tasks /\ Task.status t <> "Done"
               /\ Task.due t = Some (Some ms)
               /\ (today <= ms)%Z /\ (ms <= today + 3 * msPerDay)%Z.

(** [names] lists, once each, the non-empty assignees of the tasks. *)
Definition distinct_assignees (tasks : list Task.t) (names : list string)
  : Prop :=
  NoDup names
  /\ forall a, In a names
                <-> a <> EmptyString
                    /\ exists t, In t tasks /\ Task.assignee t = Some a.

(** Some task has a non-empty assignee, and there are more than three tasks
    per distinct non-empty assignee. *)
Definition crowded_assignees (tasks : list Task.t) : Prop :=
  exists names,
    distinct_assignees tasks names
    /\ names <> []
    /\ (3 * length names < length tasks)%nat.

(** ** Insights and their summary *)

(** The response for the task has a priority part whose priority is [l]. *)
Definition has_priority (l : string) (ti : TaskInsight.t) : Prop :=
  exists i p,
    TaskInsight.insight ti = Some i /\ Insight.priority i = Some p
    /\ Priority.priority p = l.

(** The response for the task has a deadline part whose risk level is
    [l]. *)
Definition has_risk_level (l : string) (ti : TaskInsight.t) : Prop :=
  exists i d,
    TaskInsight.insight ti = Some i /\ Insight.deadline i = Some d
    /\ Deadline.risk_level d = l.

#[global] Instance has_priority_dec l ti : Decision (has_priority l ti).
Proof.
  unfold has_priority.
  destruct (TaskInsight.insight ti) as [i|].
  - destruct (Insight.priority i) as [p|] eqn:Ep.
    + destruct (decide (Priority.priority p = l)) as [H|H].
      * left. exists i, p. auto.
      * right. intros (i' & p' & Hi & Hp & Hr).
        injection Hi as <-. rewrite Ep in Hp. injection Hp as <-. auto.
    + right. intros (i' & p' & Hi & Hp & _).
      injection Hi as <-. rewrite Ep in Hp. discriminate.
  - right. intros (i' & p' & Hi & _). discriminate.
Defined.

#[global] Instance has_risk_level_dec l ti : Decision (has_risk_level l ti).
Proof.
  unfold has_risk_level.
  destruct (TaskInsight.insight ti) as [i|].
  - destruct (Insight.deadline i) as [d|] eqn:Ed.
    + destruct (decide (Deadline.risk_level d = l)) as [H|H].
      * left. exists i, d. auto.
      * right. intros (i' & d' & Hi & Hd & Hr).
        injection Hi as <-. rewrite Ed in Hd. injection Hd as <-. auto.
    + right. intros (i' & d' & Hi & Hd & _).
      injection Hi as <-. rewrite Ed in Hd. discriminate.
  - right. intros (i' & d' & Hi & _). discriminate.
Defined.

(** The deadline risk of the task is overdue or critical. *)
Definition deadline_at_risk (ti : TaskInsight.t) : Prop :=
  has_risk_level "overdue" ti \/ has_risk_level "critical" ti.

(** The priority of the task is high. *)
Definition priority_is_high (ti : TaskInsight.t) : Prop :=
  has_priority "high" ti.

#[global] Instance deadline_at_risk_dec ti : Decision (deadline_at_risk ti).
Proof. unfold deadline_at_risk. apply _. Defined.

#[global] Instance priority_is_high_dec ti : Decision (priority_is_high ti).
Proof. unfold priority_is_high. apply _. Defined.

(** The insight of [ti] has no priority part (or there is no insight). *)
Definition no_priority (ti : TaskInsight.t) : Prop :=
  match TaskInsight.insight ti with
  | Some i => Insight.priority i = None
  | None => True
  end.

(** The insight of [ti] has no deadline part (or there is no insight). *)
Definition no_deadline (ti : TaskInsight.t) : Prop :=
  match TaskInsight.insight ti with
  | Some i => Insight.deadline i = None
  | None => True
  end.

(** The complexity [generateProjectInsights] sends for a task. *)
Definition complexity_sent (task : Task.t) : string :=
  default "medium" (Js.truthy (Task.complexity task)).

(** The task insights of a completed run, none for a failed one. *)
Definition taskInsights_of (o : outcome Insights.t) : list TaskInsight.t :=
  match o with
  | Completed r => Insights.taskInsights r
  | Failed _ => []
  end.

(** ** Team counts *)

(** How often [member] occurs in a member list. *)
Definition listings (member : string) (members : list string) : nat :=
  length (List.filter (String.eqb member) members).

(** The tasks of a task list whose assignee is [member]. *)
Definition assigned_tasks (member : string) (tasks : list Task.t) : nat :=
  length (filter (fun t => Task.assignee t = Some member) tasks).

(** The tasks assigned to [member] in the projects that list [member], a
    project counting once for each time it lists [member]. *)
Definition tasks_where_listed (member : string) (projects : list Project.t)
  : nat :=
  sum_list (map (fun p => listings member (Project.members p)
                          * assigned_tasks member (Project.tasks p))
                projects).

(** The tasks assigned to [member] in all projects. *)
Definition tasks_anywhere (member : string) (projects : list Project.t) : nat :=
  sum_list (map (fun p => assigned_tasks member (Project.tasks p)) projects).

(** Some project lists [member]. *)
Definition listed (member : string) (projects : list Project.t) : Prop :=
  exists p, In p projects /\ In member (Project.members p).

(** A count after [k] more additions of [a]. *)
Definition add_count (c : option nat) (k a : nat) : option nat :=
  if (k =? 0)%nat then c else Some (default 0 c + k * a).

(** [r] has the highest count among the keys [ks] and is the last key that
    has it: no key before [r] has a higher count and every key after [r] has
    a lower one. *)
Definition last_of_highest (counts : Obj.t nat) (ks : list string) (r : string)
  : Prop :=
  exists pre post n,
    ks = pre ++ r :: post
    /\ Obj.get counts r = Some n
    /\ (forall k m, In k pre -> Obj.get counts k = Some m -> (m <= n)%nat)
    /\ (forall k m, In k post -> Obj.get counts k = Some m -> (m < n)%nat).

(** [r] has the highest count among the keys [ks] and is the first key that
    has it. *)
Definition first_of_highest (counts : Obj.t nat) (ks : list string) (r : string)
  : Prop :=
  exists pre post n,
    ks = pre ++ r :: post
    /\ Obj.get counts r = Some n
    /\ (forall k m, In k pre -> Obj.get counts k = Some m -> (m < n)%nat)
    /\ (forall k m, In k post -> Obj.get counts k = Some m -> (m <= n)%nat).

(** The properties that [Object.prototype] defines and every plain object
    inherits. *)
Definition Object_prototype_keys : list string :=
  [ "constructor"; "hasOwnProperty"; "isPrototypeOf"; "propertyIsEnumerable";
    "toLocaleString"; "toString"; "valueOf"; "__proto__";
    "__defineGetter__"; "__defineSetter__";
    "__lookupGetter__"; "__lookupSetter__" ].

(** [k] names no inherited property: on a plain object, [o[k]] is an own
    property or undefined. *)
Definition plain_key (k : string) : Prop := ~ In k Object_prototype_keys.

(** No member of any of the projects is called like an inherited
    property. *)
Definition plain_members (projects : list Project.t) : Prop :=
  forall p m, In p projects -> In m (Project.members p) -> plain_key m.

(** ** Days *)

(** The day a time value falls on, counted from the epoch in UTC. *)
Definition day_of (ms : Z) : Z := (ms / msPerDay)%Z.

(** ** Invariants of the data model *)




(** ** Sample data *)

(** The project [App] starts with, and its two tasks, due on 15 and on
    9 September 2025. *)
Definition hero_task : Task.t :=
  {| Task.id := 1; Task.title := "Create hero image";
     Task.description := Some "Design a hero banner";
     Task.assignee := Some "alice@example.com";
     Task.due := Some (Some 1757894400000%Z);
     Task.status := "To-Do"; Task.complexity := None;
     Task.projectName := None; Task.projectId := None |}.

Definition nav_task : Task.t :=
  {| Task.id := 2; Task.title := "Fix nav bug";
     Task.description := Some "Resolve sticky nav overlap";
     Task.assignee := Some "bob@example.com";
     Task.due := Some (Some 1757376000000%Z);
     Task.status := "In Progress"; Task.complexity := None;
     Task.projectName := None; Task.projectId := None |}.

Definition website_redesign : Project.t :=
  {| Project.id := 1; Project.name := "Website Redesign";
     Project.members := ["alice@example.com"; "bob@example.com"];
     Project.tasks := [hero_task; nav_task] |}.

(** A second project that lists Bob alone and has a task assigned to
    Alice. *)
Definition two_projects : list Project.t :=
  [ website_redesign;
    {| Project.id := 2; Project.name := "Mobile App";
       Project.members := ["bob@example.com"];
       Project.tasks :=
         [ {| Task.id := 1; Task.title := "Draft onboarding copy";
              Task.description := Some "Write the first-run screens";
              Task.assignee := Some "alice@example.com";
              Task.due := None; Task.status := "To-Do";
              Task.complexity := None;
              Task.projectName := None; Task.projectId := None |} ] |} ].


(** The response body the service documents as an example. *)
Definition medium_insight : Insight.t :=
  {| Insight.priority :=
       Some {| Priority.priority := "medium"; Priority.confidence := 7 # 10;
               Priority.method := "ML";
               Priority.reasoning :=
                 "Default classification based on content analysis" |};
     Insight.deadline :=
       Some {| Deadline.days_left := Some 10%Z; Deadline.risk_level := "medium";
               Deadline.confidence := 8 # 10;
               Deadline.recommendations := Some ["Monitor progress regularly"];
               Deadline.urgency_score := 4 # 10 |};
     Insight.summary := Some "Add secure login system with JWT tokens." |}.


(** A service whose request for the second task fails. *)
Definition second_request_fails : Api :=
  fun n _ _ _ _ => if (n =? 1)%nat then Throws else Returns (Some medium_insight).

(** A task with a status and an assignee and nothing else. *)
Definition plain_task (id : Z) (status : string) (assignee : option string)
  : Task.t :=
  {| Task.id := id; Task.title := "Task"; Task.description := None;
     Task.assignee := assignee; Task.due := None; Task.status := status;
     Task.complexity := None;
     Task.projectName := None; Task.projectId := None |}.

(** Ten tasks: three done, two in progress, five to do. *)
Definition ten_tasks : list Task.t :=
  [ plain_task 1 "Done" None; plain_task 2 "Done" None; plain_task 3 "Done" None;
    plain_task 4 "In Progress" None; plain_task 5 "In Progress" None;
    plain_task 6 "To-Do" None; plain_task 7 "To-Do" None;
    plain_task 8 "To-Do" None; plain_task 9 "To-Do" None;
    plain_task 10 "To-Do" None ].

(** Six finished tasks shared by two assignees. *)
Definition six_tasks : list Task.t :=
  [ plain_task 1 "Done" (Some "alice@example.com");
    plain_task 2 "Done" (Some "alice@example.com");
    plain_task 3 "Done" (Some "alice@example.com");
    plain_task 4 "Done" (Some "bob@example.com");
    plain_task 5 "Done" (Some "bob@example.com");
    plain_task 6 "Done" (Some "bob@example.com") ].

(** Noon UTC of 9 September 2025, the day [nav_task] is due. *)
Definition noon_2025_09_09 : Z := 1757419200000.

(** ** Task and project edits *)

(** An integer that a number holds exactly and whose successor it holds
    exactly too. *)
Definition safe_integer (z : Z) : Prop := (- 2 ^ 53 < z < 2 ^ 53)%Z.

(** Few enough elements for a call to take them all as arguments, as
    [Math.max(0, ...ids)] does with the ids.  An engine throws a
    [RangeError] at a number of arguments of its own, which depends on the
    stack that is left; ten thousand are within the reach of all. *)
Definition spreadable {A : Type} (l : list A) : Prop :=
  (Z.of_nat (length l) < 10000)%Z.

(** What [updateProject] is called with, if it is called, applied to the
    list of projects. *)
Definition apply_update (projects : list Project.t) (update : option Project.t)
  : list Project.t :=
  match update with
  | Some updated => updateProject projects updated
  | None => projects
  end.

(** A character given by its UTF-8 bytes. *)
Definition utf8 (bytes : list N) : string :=
  fold_right (fun b s => String (ascii_of_N b) s) EmptyString bytes.

(** The white-space characters of the language: tab, line feed, vertical
    tab, form feed, carriage return and space; the no-break space U+00A0;
    U+1680; the spaces U+2000 to U+200A; the line and paragraph separators
    U+2028 and U+2029; U+202F, U+205F, the ideographic space U+3000 and the
    byte order mark U+FEFF. *)
Definition white_space : list string :=
  [ utf8 [9]; utf8 [10]; utf8 [11]; utf8 [12]; utf8 [13]; utf8 [32];
    utf8 [194; 160];
    utf8 [225; 154; 128];
    utf8 [226; 128; 128]; utf8 [226; 128; 129]; utf8 [226; 128; 130];
    utf8 [226; 128; 131]; utf8 [226; 128; 132]; utf8 [226; 128; 133];
    utf8 [226; 128; 134]; utf8 [226; 128; 135]; utf8 [226; 128; 136];
    utf8 [226; 128; 137]; utf8 [226; 128; 138];
    utf8 [226; 128; 168]; utf8 [226; 128; 169];
    utf8 [226; 128; 175];
    utf8 [226; 129; 159];
    utf8 [227; 128; 128];
    utf8 [239; 187; 191] ]%N.

(** A text that is empty or made of white-space characters only. *)
Inductive blank : string -> Prop :=
| blank_empty : blank EmptyString
| blank_more c s : In c white_space -> blank s -> blank (c +:+ s).

(** The ids are integers that numbers hold exactly. *)
Definition safe_ids (ids : list Z) : Prop := Forall safe_integer ids.

(** The ideographic space U+3000. *)
Definition ideographic_space : string := utf8 [227; 128; 128]%N.

(** A form whose title is a space, an ideographic space and a tab. *)
Definition blank_form : NewTask.t :=
  {| NewTask.title := " " +:+ ideographic_space +:+ utf8 [9%N];
     NewTask.description := "No title";
     NewTask.assignee := "alice@example.com";
     NewTask.due := None;
     NewTask.status := "To-Do" |}.

(** A filled-in form for a new task. *)
Definition release_notes : NewTask.t :=
  {| NewTask.title := "Write release notes";
     NewTask.description := "Summarise the changes of the sprint";
     NewTask.assignee := "alice@example.com";
     NewTask.due := None;
     NewTask.status := "To-Do" |}.

(** ** More sample data *)

(** A response that calls the task overdue and of high priority, with no
    recommendation attached. *)
Definition urgent_insight : Insight.t :=
  {| Insight.priority :=
       Some {| Priority.priority := "high"; Priority.confidence := 9 # 10;
               Priority.method := "Rule-based";
               Priority.reasoning := "Keywords found: critical (high), bug (high)" |};
     Insight.deadline :=
       Some {| Deadline.days_left := Some (-2)%Z; Deadline.risk_level := "overdue";
               Deadline.confidence := 95 # 100;
               Deadline.recommendations := Some [];
               Deadline.urgency_score := 1 |};
     Insight.summary := None |}.

(** A response whose priority and risk level are outside the known
    ones. *)
Definition odd_insight : Insight.t :=
  {| Insight.priority :=
       Some {| Priority.priority := "urgent"; Priority.confidence := 1 # 2;
               Priority.method := "ML"; Priority.reasoning := "None" |};
     Insight.deadline :=
       Some {| Deadline.days_left := None; Deadline.risk_level := "unknown";
               Deadline.confidence := 1 # 2;
               Deadline.recommendations := None;
               Deadline.urgency_score := 0 |};
     Insight.summary := None |}.

Definition odd_insights : list TaskInsight.t :=
  [ {| TaskInsight.task := hero_task; TaskInsight.insight := Some odd_insight |};
    {| TaskInsight.task := nav_task;
       TaskInsight.insight := Some medium_insight |} ].

(** A service that answers every request with [urgent_insight]. *)
Definition always_urgent : Api := fun _ _ _ _ _ => Returns (Some urgent_insight).

(** The two alerts [generateRiskAlerts] raises for [nav_task] under
    [always_urgent]. *)
Definition nav_overdue_alert : Alert.t :=
  {| Alert.type := "overdue"; Alert.severity := "critical";
     Alert.task := nav_task;
     Alert.message := "Task " +:+ Js.quote +:+ "Fix nav bug" +:+ Js.quote
                        +:+ " is overdue";
     Alert.recommendation := "Immediate action required" |}.

(** The levels that have a colour of their own. *)
Definition risk_levels : list string :=
  ["overdue"; "critical"; "high"; "medium"; "low"].

Definition priority_levels : list string := ["high"; "medium"; "low"].

(** The colour of anything that is not a known level. *)
Definition grey : string := "#6b7280".

(** The type tags of the five recommendations, in the order the tests are
    made. *)
Definition recommendation_types : list string :=
  ["urgent"; "workload"; "productivity"; "deadline"; "collaboration"].

(** ** Histograms *)

(** How many of the tasks have a response with the priority [l]. *)
Definition priority_occurrences (l : string) (tis : list TaskInsight.t) : nat :=
  length (filter (has_priority l) tis).

(** How many of the tasks have a response with the risk level [l]. *)
Definition risk_occurrences (l : string) (tis : list TaskInsight.t) : nat :=
  length (filter (has_risk_level l) tis).

(** A bucket after [k] increments: a counter moves up by [k]; a bucket that
    did not exist or held [NaN] holds [NaN] once it is incremented. *)
Definition bump (bucket : option Js.counter) (k : nat) : option Js.counter :=
  match k with
  | O => bucket
  | S _ =>
      match bucket with
      | Some (Js.Count n) => Some (Js.Count (n + k))
      | _ => Some Js.CNaN
      end
  end.

(** The status is one of the three the task form and the task card offer. *)
Definition known_status (t : Task.t) : Prop :=
  Task.status t = "To-Do" \/ Task.status t = "In Progress"
  \/ Task.status t = "Done".

(** An insight record for [task] without an insight. *)
Definition bare (task : Task.t) : TaskInsight.t :=
  {| TaskInsight.task := task; TaskInsight.insight := None |}.

(** ** The accumulators of the team panel *)

(** The keys of the member counts are distinct and are the members seen so
    far. *)
Definition team_inv (st : TeamState) : Prop :=
  NoDup (map fst (memberTaskCounts st))
  /\ forall k, k ∈ allMembers st <-> In k (map fst (memberTaskCounts st)).

(** The last project called [name]. *)
Fixpoint last_named (name : string) (projects : list Project.t)
  : option Project.t :=
  match projects with
  | [] => None
  | p :: projects' =>
      match last_named name projects' with
      | Some q => Some q
      | None => if String.eqb (Project.name p) name then Some p else None
      end
  end.

(** Two projects that share a name. *)
Definition namesakes : list Project.t :=
  [ website_redesign;
    {| Project.id := 2; Project.name := "Website Redesign";
       Project.members := []; Project.tasks := [] |} ].

(** * Properties *)

(** ** Numbers *)

Lemma inject_nat_pos (n : nat) :
  (0 < n)%nat -> (0 < inject_Z (Z.of_nat n))%Q.
Proof.
  intros Hn. change 0%Q with (inject_Z 0). rewrite <- Zlt_Qlt. lia.
Qed.

Lemma is_zero_false (q : Q) : (0 < q)%Q -> Js.is_zero q = false.
Proof.
  intros Hq. unfold Js.is_zero.
  destruct (Qeq_bool q 0) eqn:E; [|reflexivity].
  apply Qeq_bool_eq in E. rewrite E in Hq. exfalso. revert Hq. apply Qlt_irrefl.
Qed.

Lemma is_neg_false (q : Q) : (0 <= q)%Q -> Js.is_neg q = false.
Proof.
  unfold Js.is_neg, Qle. simpl. intros H. apply Z.ltb_ge. lia.
Qed.

Lemma percent_of_nat (d n : nat) :
  (0 < n)%nat ->
  Js.mul (Js.div (Js.of_nat d) (Js.of_nat n)) (Js.of_nat 100)
  = Js.Fin (inject_Z (Z.of_nat d) / inject_Z (Z.of_nat n) * 100).
Proof.
  intros Hn. unfold Js.of_nat, Js.of_Z, Js.div.
  rewrite (is_zero_false _ (inject_nat_pos n Hn)). reflexivity.
Qed.

Lemma ratio_bounds (d n : nat) :
  (d <= n)%nat -> (0 < n)%nat ->
  (0 <= inject_Z (Z.of_nat d) / inject_Z (Z.of_nat n))%Q
  /\ (inject_Z (Z.of_nat d) / inject_Z (Z.of_nat n) <= 1)%Q.
Proof.
  intros Hd Hn. pose proof (inject_nat_pos n Hn) as Hpos. split.
  - apply Qle_shift_div_l; [exact Hpos|]. rewrite Qmult_0_l.
    change 0%Q with (inject_Z 0). rewrite <- Zle_Qle. lia.
  - apply Qle_shift_div_r; [exact Hpos|]. rewrite Qmult_1_l.
    rewrite <- Zle_Qle. lia.
Qed.

Lemma percent_percentage (d n : nat) :
  (d <= n)%nat -> (0 < n)%nat ->
  percentage (Js.mul (Js.div (Js.of_nat d) (Js.of_nat n)) (Js.of_nat 100)).
Proof.
  intros Hd Hn. rewrite percent_of_nat by exact Hn.
  destruct (ratio_bounds d n Hd Hn) as [H0 H1].
  set (r := (inject_Z (Z.of_nat d) / inject_Z (Z.of_nat n))%Q) in *.
  exists (r * 100)%Q. split; [reflexivity|]. clearbody r. split; lra.
Qed.

Lemma round_tenths_bounds (x : Q) :
  (0 <= x)%Q -> (x <= 100)%Q ->
  (0 <= Js.round_tenths x)%Z /\ (Js.round_tenths x <= 1000)%Z.
Proof.
  intros H0 H100. unfold Js.round_tenths. split.
  - assert (H : (Qfloor 0 <= Qfloor (x * 10 + (1 # 2)))%Z)
      by (apply Qfloor_resp_le; lra).
    exact H.
  - assert (Qfloor (x * 10 + (1 # 2)) < 1001)%Z; [|lia].
    rewrite Zlt_Qlt. eapply Qle_lt_trans; [apply Qfloor_le|].
    change (inject_Z 1001) with 1001%Q. lra.
Qed.

Lemma toFixed1_percentage (a : Js.num) :
  percentage a ->
  exists t : Z, Js.toFixed1 a = Js.Fixed t /\ (0 <= t)%Z /\ (t <= 1000)%Z.
Proof.
  intros (q & -> & H0 & H100). unfold Js.toFixed1.
  rewrite is_neg_false by exact H0.
  exists (Js.round_tenths q). split; [reflexivity|].
  apply round_tenths_bounds; assumption.
Qed.

Lemma Number_toFixed1_percentage (a : Js.num) :
  percentage a -> percentage (Js.Number (Js.toFixed1 a)).
Proof.
  intros Ha. destruct (toFixed1_percentage a Ha) as (t & -> & H0 & H1).
  exists (t # 10). split; [reflexivity|].
  unfold Qle. simpl. lia.
Qed.

Lemma toFixed1_same (a b : Js.num) :
  same_number a b -> Js.toFixed1 a = Js.toFixed1 b.
Proof.
  destruct a as [| s | x], b as [| s' | y]; simpl; try tauto; try congruence.
  intros E. f_equal.
  assert (Hneg : Js.is_neg x = Js.is_neg y).
  { unfold Js.is_neg. unfold Qeq in E.
    destruct (Z.ltb_spec (Qnum x) 0), (Z.ltb_spec (Qnum y) 0); try reflexivity;
      exfalso; nia. }
  rewrite Hneg. unfold Js.round_tenths.
  destruct (Js.is_neg y); [f_equal|]; apply Qfloor_comp; rewrite E; reflexivity.
Qed.

Lemma same_number_refl (a : Js.num) : same_number a a.
Proof. destruct a; simpl; auto. reflexivity. Qed.

Lemma lt_Fin (x y : Q) : Js.lt (Js.Fin x) (Js.Fin y) = true <-> (x < y)%Q.
Proof.
  simpl. rewrite Qlt_alt. destruct (x ?= y)%Q; split; congruence.
Qed.

Lemma le_Fin (x y : Q) : Js.le (Js.Fin x) (Js.Fin y) = true <-> (x <= y)%Q.
Proof.
  simpl. rewrite Qle_alt. destruct (x ?= y)%Q; split; congruence.
Qed.

Lemma min_100_percentage (a : Js.num) :
  percentage a -> same_number (Js.min (Js.of_nat 100) a) a.
Proof.
  intros (q & -> & H0 & H100). unfold Js.min, Js.of_nat, Js.of_Z.
  destruct (Js.lt (Js.Fin q) (Js.Fin (inject_Z (Z.of_nat 100)))) eqn:E.
  - apply same_number_refl.
  - simpl. destruct (Qlt_le_dec q (inject_Z (Z.of_nat 100))) as [Hlt | Hge].
    + apply lt_Fin in Hlt. congruence.
    + apply Qle_antisym; [exact Hge | exact H100].
Qed.

(** ** Task counts *)

Lemma is_status_eq (s : string) (t : Task.t) :
  is_status s t = true <-> Task.status t = s.
Proof. unfold is_status. apply String.eqb_eq. Qed.

Lemma completed_le_total (tasks : list Task.t) :
  (length (completedTasks tasks) <= length tasks)%nat.
Proof. apply List.filter_length_le. Qed.

Lemma completed_inProgress_le_total (tasks : list Task.t) :
  (length (completedTasks tasks) + length (inProgressTasks tasks)
   <= length tasks)%nat.
Proof.
  unfold completedTasks, inProgressTasks.
  induction tasks as [| t tasks IH]; simpl; [lia|].
  destruct (is_status "Done" t) eqn:Ed, (is_status "In Progress" t) eqn:Ep;
    simpl; try lia.
  apply is_status_eq in Ed. apply is_status_eq in Ep. congruence.
Qed.

Lemma completionRate_percentage (tasks : list Task.t) :
  percentage (completionRate tasks).
Proof.
  unfold completionRate. destruct (Nat.ltb_spec 0 (length tasks)) as [Hn | Hn].
  - apply percent_percentage; [apply completed_le_total | exact Hn].
  - exists 0%Q. split; [reflexivity|]. split; lra.
Qed.

Lemma progressRate_percentage (tasks : list Task.t) :
  percentage (progressRate tasks).
Proof.
  unfold progressRate. destruct (Nat.ltb_spec 0 (length tasks)) as [Hn | Hn].
  - apply percent_percentage; [apply completed_inProgress_le_total | exact Hn].
  - exists 0%Q. split; [reflexivity|]. split; lra.
Qed.

Lemma averageRate_percentage (tasks : list Task.t) :
  percentage (averageRate tasks).
Proof.
  unfold averageRate.
  destruct (completionRate_percentage tasks) as (c & -> & Hc0 & Hc1).
  destruct (progressRate_percentage tasks) as (p & -> & Hp0 & Hp1).
  exists ((c + p) / 2)%Q. split; [reflexivity|].
  split.
  - apply Qle_shift_div_l; lra.
  - apply Qle_shift_div_r; lra.
Qed.

(** ** Completion rate and productivity score *)

(** C3. The completion rate is a finite number between 0 and 100 wherever it
    is computed: the unrounded rate, the rate text of the productivity
    panel and the rate field of the summary.  For no tasks at all it is 0:
    the guard on the task count keeps the division [0 / 0], which would be
    [NaN], from being evaluated. *)
Theorem completionRate_in_range
  (tasks : list Task.t) (taskInsights : list TaskInsight.t) :
  percentage (completionRate tasks)
  /\ percentage (Js.Number (Productivity.completionRate
                              (generateProductivityInsights tasks)))
  /\ percentage (Js.valueOf (Summary.completionRate
                               (generateSummaryInsights taskInsights)))
  /\ completionRate [] = Js.Fin 0
  /\ Productivity.completionRate (generateProductivityInsights []) = Js.Fixed 0
  /\ Summary.completionRate (generateSummaryInsights []) = Js.VNumber (Js.Fin 0).
Proof.
  split; [apply completionRate_percentage|].
  split; [apply Number_toFixed1_percentage, completionRate_percentage|].
  split; [|repeat split; reflexivity].
  unfold generateSummaryInsights; simpl.
  destruct (Nat.ltb_spec 0 (length taskInsights)) as [Hn | Hn].
  - simpl. apply Number_toFixed1_percentage, percent_percentage.
    + apply List.filter_length_le.
    + exact Hn.
  - exists 0%Q. split; [reflexivity|]. split; lra.
Qed.

(** C10. Completed tasks are at most completed plus in-progress tasks, which
    are at most all tasks; so the completion rate, the progress rate and
    their average are at most 100, [Math.min(100, average)] is the average
    itself, and the productivity score is the average rounded to one
    decimal. *)
Theorem productivityScore_clamp_is_identity (tasks : list Task.t) :
  (length (completedTasks tasks)
   <= length (completedTasks tasks) + length (inProgressTasks tasks)
   <= length tasks)%nat
  /\ percentage (completionRate tasks)
  /\ percentage (progressRate tasks)
  /\ percentage (averageRate tasks)
  /\ same_number (Js.min (Js.of_nat 100) (averageRate tasks)) (averageRate tasks)
  /\ Productivity.productivityScore (generateProductivityInsights tasks)
     = Js.toFixed1 (averageRate tasks).
Proof.
  split; [split; [lia | apply completed_inProgress_le_total]|].
  split; [apply completionRate_percentage|].
  split; [apply progressRate_percentage|].
  split; [apply averageRate_percentage|].
  split.
  - apply min_100_percentage, averageRate_percentage.
  - simpl. apply toFixed1_same, min_100_percentage, averageRate_percentage.
Qed.

(** ** Urgent tasks *)

Lemma filter_bool_Prop {A : Type} (f : A -> bool) (P : A -> Prop)
  `{!forall x, Decision (P x)} (l : list A) :
  (forall x, f x = true <-> P x) -> List.filter f l = filter P l.
Proof.
  intros Hf. induction l as [| x l IH]; [reflexivity|].
  simpl. rewrite filter_cons, IH.
  destruct (f x) eqn:E, (decide (P x)) as [HP | HP]; try reflexivity.
  - apply Hf in E. contradiction.
  - apply Hf in HP. congruence.
Qed.

Lemma priority_label_iff (ti : TaskInsight.t) (l : string) :
  l <> EmptyString ->
  String.eqb (priority_label (TaskInsight.insight ti)) l = true
  <-> has_priority l ti.
Proof.
  intros Hl. unfold has_priority, priority_label. rewrite String.eqb_eq.
  destruct (TaskInsight.insight ti) as [i|].
  - destruct (Insight.priority i) as [p|] eqn:Ep.
    + split.
      * intros H. exists i, p. auto.
      * intros (i' & p' & Hi & Hp & H).
        injection Hi as <-. rewrite Ep in Hp. injection Hp as <-. exact H.
    + split.
      * intros H. congruence.
      * intros (i' & p' & Hi & Hp & _).
        injection Hi as <-. rewrite Ep in Hp. discriminate.
  - split.
    + intros H. congruence.
    + intros (i' & p' & Hi & _). discriminate.
Qed.

Lemma risk_level_iff (ti : TaskInsight.t) (l : string) :
  l <> EmptyString ->
  String.eqb (risk_level (TaskInsight.insight ti)) l = true
  <-> has_risk_level l ti.
Proof.
  intros Hl. unfold has_risk_level, risk_level. rewrite String.eqb_eq.
  destruct (TaskInsight.insight ti) as [i|].
  - destruct (Insight.deadline i) as [d|] eqn:Ed.
    + split.
      * intros H. exists i, d. auto.
      * intros (i' & d' & Hi & Hd & H).
        injection Hi as <-. rewrite Ed in Hd. injection Hd as <-. exact H.
    + split.
      * intros H. congruence.
      * intros (i' & d' & Hi & Hd & _).
        injection Hi as <-. rewrite Ed in Hd. discriminate.
  - split.
    + intros H. congruence.
    + intros (i' & d' & Hi & _). discriminate.
Qed.

Lemma is_high_risk_iff (ti : TaskInsight.t) :
  is_high_risk ti = true <-> deadline_at_risk ti.
Proof.
  unfold is_high_risk, deadline_at_risk.
  rewrite orb_true_iff, !risk_level_iff by discriminate. reflexivity.
Qed.

Lemma is_high_priority_iff (ti : TaskInsight.t) :
  is_high_priority ti = true <-> priority_is_high ti.
Proof.
  unfold is_high_priority, priority_is_high.
  apply priority_label_iff. discriminate.
Qed.

Lemma filter_app_length {A : Type} (f : A -> bool) (l1 l2 : list A) :
  length (List.filter f (l1 ++ l2))
  = length (List.filter f l1) + length (List.filter f l2).
Proof. rewrite List.filter_app, length_app. reflexivity. Qed.

(** C2. [urgentTasks] is the number of tasks whose response has a deadline
    risk of overdue or critical plus the number of tasks whose response has
    the priority high.  A task with both is counted twice: taking it out of
    the list lowers [urgentTasks] by two. *)
Theorem urgentTasks_counts_both_dimensions (taskInsights : list TaskInsight.t) :
  Summary.urgentTasks (generateSummaryInsights taskInsights)
  = length (filter deadline_at_risk taskInsights)
    + length (filter priority_is_high taskInsights)
  /\ (forall before ti after,
        taskInsights = before ++ ti :: after ->
        deadline_at_risk ti -> priority_is_high ti ->
        Summary.urgentTasks (generateSummaryInsights taskInsights)
        = Summary.urgentTasks (generateSummaryInsights (before ++ after)) + 2).
Proof.
  split.
  - cbn [generateSummaryInsights Summary.urgentTasks].
    rewrite (filter_bool_Prop is_high_risk deadline_at_risk)
      by (intros t; apply is_high_risk_iff).
    rewrite (filter_bool_Prop is_high_priority priority_is_high)
      by (intros t; apply is_high_priority_iff).
    reflexivity.
  - intros before ti after -> Hr Hp.
    cbn [generateSummaryInsights Summary.urgentTasks].
    rewrite !filter_app_length. cbn [List.filter].
    apply is_high_risk_iff in Hr. apply is_high_priority_iff in Hp.
    rewrite Hr, Hp. cbn [length]. lia.
Qed.

(** The insight that is overdue and of high priority counts for two. *)
Lemma urgentTasks_counts_both_dimensions_witness :
  Summary.urgentTasks
    (generateSummaryInsights
       [ {| TaskInsight.task := nav_task;
            TaskInsight.insight := Some urgent_insight |} ])
  = Summary.urgentTasks (generateSummaryInsights []) + 2.
Proof.
  apply (proj2 (urgentTasks_counts_both_dimensions
                  [ {| TaskInsight.task := nav_task;
                       TaskInsight.insight := Some urgent_insight |} ])
               [] {| TaskInsight.task := nav_task;
                     TaskInsight.insight := Some urgent_insight |} []).
  - reflexivity.
  - left. exists urgent_insight. eexists. simpl. split; [reflexivity|].
    split; reflexivity.
  - exists urgent_insight. eexists. simpl. split; [reflexivity|].
    split; reflexivity.
Defined.

(** ** Recommendations *)

Lemma Qdiv_le_iff (x c m : Q) :
  (0 < m)%Q -> (x / m <= c)%Q <-> (x <= c * m)%Q.
Proof.
  intros Hm. split.
  - intros H. assert (E : (x == x / m * m)%Q) by (field; lra).
    rewrite E. apply Qmult_le_compat_r; lra.
  - apply Qle_shift_div_r. exact Hm.
Qed.

Lemma Qdiv_ge_iff (x c m : Q) :
  (0 < m)%Q -> (c <= x / m)%Q <-> (c * m <= x)%Q.
Proof.
  intros Hm. split.
  - intros H. assert (E : (x == x / m * m)%Q) by (field; lra).
    rewrite E. apply Qmult_le_compat_r; lra.
  - apply Qle_shift_div_l. exact Hm.
Qed.

Lemma Qdiv_lt_iff (x c m : Q) :
  (0 < m)%Q -> (x / m < c)%Q <-> (x < c * m)%Q.
Proof.
  intros Hm. split.
  - intros H. destruct (Qlt_le_dec x (c * m)) as [Hlt | Hge]; [exact Hlt|].
    apply Qdiv_ge_iff in Hge; [|exact Hm]. lra.
  - apply Qlt_shift_div_r. exact Hm.
Qed.

Lemma not_Done_iff (t : Task.t) : not_Done t = true <-> Task.status t <> "Done".
Proof.
  unfold not_Done. rewrite negb_true_iff, <- not_true_iff_false, is_status_eq.
  reflexivity.
Qed.

Lemma filter_nonempty {A : Type} (f : A -> bool) (l : list A) :
  (0 <? length (List.filter f l))%nat = true <-> exists x, In x l /\ f x = true.
Proof.
  rewrite Nat.ltb_lt. split.
  - destruct (List.filter f l) as [| x l'] eqn:E; simpl; [lia|].
    intros _. exists x. apply List.filter_In. rewrite E. left. reflexivity.
  - intros (x & Hx & Hf).
    assert (Hin : In x (List.filter f l)) by (apply List.filter_In; auto).
    destruct (List.filter f l); [destruct Hin | simpl; lia].
Qed.

Lemma msPerDay_pos : (0 < inject_Z msPerDay)%Q.
Proof. reflexivity. Qed.

Lemma overdue_iff (today : Z) (t : Task.t) :
  overdue today t = true
  <-> exists ms, Task.due t = Some (Some ms) /\ (ms < today)%Z
                 /\ Task.status t <> "Done".
Proof.
  unfold overdue. destruct (Task.due t) as [[ms |] |].
  - unfold Js.getTime, Js.of_Z.
    rewrite andb_true_iff, lt_Fin, <- Zlt_Qlt, not_Done_iff. split.
    + intros [H1 H2]. exists ms. auto.
    + intros (ms' & [= <-] & H1 & H2). auto.
  - simpl. split; [discriminate | intros (ms & [=] & _)].
  - split; [discriminate | intros (ms & [=] & _)].
Qed.

Lemma overdue_test_iff (today : Z) (tasks : list Task.t) :
  (0 <? overdueTasks today tasks)%nat = true <-> overdue_exists today tasks.
Proof.
  unfold overdueTasks, overdue_exists. rewrite filter_nonempty. split.
  - intros (t & Hin & Ht). apply overdue_iff in Ht as (ms & ?). exists t, ms. tauto.
  - intros (t & ms & Hin & H). exists t. split; [exact Hin|].
    apply overdue_iff. exists ms. exact H.
Qed.

Lemma workload_test_iff (tasks : list Task.t) :
  (5 <? length (List.filter not_Done tasks))%nat = true <-> many_open_tasks tasks.
Proof.
  unfold many_open_tasks.
  rewrite (filter_bool_Prop not_Done (fun t => Task.status t <> "Done"))
    by apply not_Done_iff.
  apply Nat.ltb_lt.
Qed.

Lemma daysLeft_valid (today ms : Z) :
  daysLeft today (Some ms)
  = Js.Fin ((inject_Z ms - inject_Z today) / inject_Z msPerDay).
Proof. reflexivity. Qed.

Lemma upcoming_iff (today : Z) (t : Task.t) :
  upcoming today t = true
  <-> exists ms, Task.due t = Some (Some ms)
                 /\ (today <= ms)%Z /\ (ms <= today + 3 * msPerDay)%Z.
Proof.
  unfold upcoming. destruct (Task.due t) as [[ms |] |].
  - rewrite daysLeft_valid. unfold Js.ge, Js.of_nat, Js.of_Z.
    rewrite andb_true_iff, !le_Fin.
    rewrite (Qdiv_le_iff _ _ _ msPerDay_pos), (Qdiv_ge_iff _ _ _ msPerDay_pos).
    assert (H3 : (inject_Z ms - inject_Z today
                  <= inject_Z (Z.of_nat 3) * inject_Z msPerDay)%Q
                 <-> (ms <= today + 3 * msPerDay)%Z).
    { rewrite <- inject_Z_mult, Zle_Qle, inject_Z_plus.
      change (Z.of_nat 3) with 3%Z. split; intros H; lra. }
    assert (H0 : (inject_Z (Z.of_nat 0) * inject_Z msPerDay
                  <= inject_Z ms - inject_Z today)%Q
                 <-> (today <= ms)%Z).
    { rewrite Zle_Qle. change (inject_Z (Z.of_nat 0)) with 0%Q.
      split; intros H; lra. }
    rewrite H3, H0. split.
    + intros [? ?]. exists ms. auto.
    + intros (ms' & [= <-] & ? & ?). auto.
  - simpl. split; [discriminate | intros (ms & [=] & _)].
  - split; [discriminate | intros (ms & [=] & _)].
Qed.

Lemma deadline_test_iff (today : Z) (tasks : list Task.t) :
  (0 <? upcomingDeadlines today tasks)%nat = true
  <-> deadline_within_3_days today tasks.
Proof.
  unfold upcomingDeadlines, deadline_within_3_days. rewrite filter_nonempty.
  split.
  - intros (t & Hin & Ht). apply List.filter_In in Hin as [Hin Hd].
    apply upcoming_iff in Ht as (ms & Hdue & H0 & H3).
    exists t, ms. unfold has_deadline in Hd. rewrite Hdue in Hd.
    apply not_Done_iff in Hd. auto.
  - intros (t & ms & Hin & Hs & Hdue & H0 & H3). exists t. split.
    + apply List.filter_In. split; [exact Hin|].
      unfold has_deadline. rewrite Hdue. apply not_Done_iff. exact Hs.
    + apply upcoming_iff. exists ms. auto.
Qed.

Lemma completion_test_iff (tasks : list Task.t) :
  Js.lt (completionRate tasks) (Js.of_nat 30) = true <-> low_completion tasks.
Proof.
  unfold low_completion, completionRate.
  rewrite <- (filter_bool_Prop (is_status "Done")
                               (fun t => Task.status t = "Done"))
    by (intros t; apply is_status_eq).
  destruct (Nat.ltb_spec 0 (length tasks)) as [Hn | Hn].
  - rewrite percent_of_nat by exact Hn. unfold Js.of_nat, Js.of_Z.
    rewrite lt_Fin.
    set (d := length (List.filter (is_status "Done") tasks)).
    pose proof (inject_nat_pos _ Hn) as Hpos.
    assert (E : (inject_Z (Z.of_nat d) / inject_Z (Z.of_nat (length tasks)) * 100
                 == inject_Z (Z.of_nat d) * 100 / inject_Z (Z.of_nat (length tasks)))%Q)
      by (field; lra).
    rewrite E, (Qdiv_lt_iff _ _ _ Hpos).
    change 100%Q with (inject_Z 100).
    rewrite <- !inject_Z_mult, <- Zlt_Qlt.
    split.
    + intros H. right. lia.
    + intros [-> | H]; [simpl in Hn; lia | lia].
  - split; [|reflexivity]. intros _. left.
    destruct tasks; [reflexivity | simpl in Hn; lia].
Qed.

Lemma collaboration_test_size (tasks : list Task.t) :
  collaboration_test tasks = true
  <-> (0 < size (uniqueAssignees tasks))%nat
      /\ (3 * size (uniqueAssignees tasks) < length tasks)%nat.
Proof.
  unfold collaboration_test.
  destruct (Nat.ltb_spec 0 (size (uniqueAssignees tasks))) as [Hn | Hn].
  - unfold Js.gt, Js.of_nat, Js.of_Z, Js.div.
    pose proof (inject_nat_pos _ Hn) as Hpos.
    rewrite (is_zero_false _ Hpos), lt_Fin.
    destruct (Qlt_le_dec (inject_Z (Z.of_nat 3))
                (inject_Z (Z.of_nat (length tasks))
                 / inject_Z (Z.of_nat (size (uniqueAssignees tasks)))))
      as [Hlt | Hge].
    + split; [|intros _; exact Hlt]. intros _. split; [exact Hn|].
      destruct (Nat.lt_ge_cases (3 * size (uniqueAssignees tasks)) (length tasks))
        as [H | H]; [exact H|]. exfalso.
      assert (Hq : (inject_Z (Z.of_nat (length tasks))
                    <= inject_Z (Z.of_nat 3)
                       * inject_Z (Z.of_nat (size (uniqueAssignees tasks))))%Q).
      { rewrite <- inject_Z_mult, <- Zle_Qle. lia. }
      apply (Qdiv_le_iff _ _ _ Hpos) in Hq. lra.
    + split; [intros H; lra|]. intros [_ H]. exfalso.
      apply (Qdiv_le_iff _ _ _ Hpos) in Hge.
      rewrite <- inject_Z_mult, <- Zle_Qle in Hge. lia.
  - split; [discriminate | intros [H _]; lia].
Qed.

Lemma truthy_Some (s : option string) (a : string) :
  Js.truthy s = Some a <-> s = Some a /\ a <> EmptyString.
Proof.
  destruct s as [[| c s']|]; simpl.
  - split; [discriminate|]. intros [H Ha]. injection H as <-. contradiction.
  - split.
    + intros H. injection H as <-. split; [reflexivity | discriminate].
    + intros [H _]. exact H.
  - split; [discriminate | intros [H _]; discriminate].
Qed.

(** The [Set] holds the non-empty assignees of the tasks. *)
Lemma uniqueAssignees_elem (tasks : list Task.t) (a : string) :
  a ∈ uniqueAssignees tasks
  <-> a <> EmptyString /\ exists t, In t tasks /\ Task.assignee t = Some a.
Proof.
  unfold uniqueAssignees.
  rewrite elem_of_list_to_set, list_elem_of_omap. split.
  - intros (t & Ht & E). apply truthy_Some in E as [E Ha].
    split; [exact Ha|]. exists t. split; [|exact E].
    apply list_elem_of_In. exact Ht.
  - intros (Ha & t & Ht & E). exists t. split.
    + apply list_elem_of_In. exact Ht.
    + apply truthy_Some. auto.
Qed.

(** Its size is the number of distinct non-empty assignees, however they are
    listed. *)
Lemma uniqueAssignees_size (tasks : list Task.t) (names : list string) :
  distinct_assignees tasks names ->
  size (uniqueAssignees tasks) = length names.
Proof.
  intros [Hnd Hin].
  assert (E : uniqueAssignees tasks = list_to_set names).
  { apply set_eq. intros a.
    rewrite uniqueAssignees_elem, elem_of_list_to_set, list_elem_of_In.
    symmetry. apply Hin. }
  rewrite E. apply size_list_to_set. exact Hnd.
Qed.

Lemma distinct_assignees_exist (tasks : list Task.t) :
  distinct_assignees tasks (elements (uniqueAssignees tasks)).
Proof.
  split.
  - apply NoDup_elements.
  - intros a. rewrite <- uniqueAssignees_elem, <- elem_of_elements.
    symmetry. apply list_elem_of_In.
Qed.

Lemma collaboration_test_iff (tasks : list Task.t) :
  collaboration_test tasks = true <-> crowded_assignees tasks.
Proof.
  rewrite collaboration_test_size. unfold crowded_assignees. split.
  - intros [H0 H3]. exists (elements (uniqueAssignees tasks)).
    pose proof (uniqueAssignees_size tasks _ (distinct_assignees_exist tasks))
      as E.
    split; [apply distinct_assignees_exist|]. rewrite <- E. split; [|exact H3].
    intros Hnil. rewrite Hnil in E. simpl in E. lia.
  - intros (names & Hd & Hne & H3).
    rewrite (uniqueAssignees_size tasks names Hd).
    split; [|exact H3]. destruct names; [contradiction | simpl; lia].
Qed.

(** The list [generateAIRecommendations] returns, by the outcome of its five
    tests. *)
Lemma generateAIRecommendations_tests (today : Z) (tasks : list Task.t) :
  generateAIRecommendations today tasks
  = let recommendations :=
      (if (0 <? overdueTasks today tasks)%nat
       then [rec_overdue (overdueTasks today tasks)] else [])
      ++ (if (5 <? length (List.filter not_Done tasks))%nat
          then [rec_workload] else [])
      ++ (if Js.lt (completionRate tasks) (Js.of_nat 30)
          then [rec_productivity] else [])
      ++ (if (0 <? upcomingDeadlines today tasks)%nat
          then [rec_deadline (upcomingDeadlines today tasks)] else [])
      ++ (if collaboration_test tasks then [rec_collaboration] else []) in
    match recommendations with
    | [] => [rec_success]
    | _ => recommendations
    end.
Proof.
  unfold generateAIRecommendations.
  destruct (0 <? overdueTasks today tasks)%nat,
           (5 <? length (List.filter not_Done tasks))%nat,
           (Js.lt (completionRate tasks) (Js.of_nat 30)),
           (0 <? upcomingDeadlines today tasks)%nat,
           (collaboration_test tasks); reflexivity.
Qed.

Lemma generateAIRecommendations_nonempty (today : Z) (tasks : list Task.t) :
  generateAIRecommendations today tasks <> [].
Proof.
  rewrite generateAIRecommendations_tests.
  destruct (0 <? overdueTasks today tasks)%nat,
           (5 <? length (List.filter not_Done tasks))%nat,
           (Js.lt (completionRate tasks) (Js.of_nat 30)),
           (0 <? upcomingDeadlines today tasks)%nat,
           (collaboration_test tasks); discriminate.
Qed.

(** C1. The recommendation generator never returns an empty list, and it
    returns the default recommendation alone exactly when none of the five
    conditions holds: no overdue task, at most 5 tasks that are not done, a
    completion rate of at least 30, no open task due within the next three
    days, and no assigned task or at most 3 tasks per distinct non-empty
    assignee. *)
Theorem generateAIRecommendations_default_iff
  (today : Z) (tasks : list Task.t) :
  generateAIRecommendations today tasks <> []
  /\ (generateAIRecommendations today tasks = [rec_success]
      <-> ~ (overdue_exists today tasks
             \/ many_open_tasks tasks
             \/ low_completion tasks
             \/ deadline_within_3_days today tasks
             \/ crowded_assignees tasks)).
Proof.
  split; [apply generateAIRecommendations_nonempty|].
  rewrite generateAIRecommendations_tests.
  rewrite <- overdue_test_iff, <- workload_test_iff, <- completion_test_iff,
    <- deadline_test_iff, <- collaboration_test_iff.
  destruct (0 <? overdueTasks today tasks)%nat,
           (5 <? length (List.filter not_Done tasks))%nat,
           (Js.lt (completionRate tasks) (Js.of_nat 30)),
           (0 <? upcomingDeadlines today tasks)%nat,
           (collaboration_test tasks);
    simpl;
    (split; [try discriminate; intros _; intuition discriminate
            | try reflexivity; intros H; exfalso; apply H; auto 10]).
Qed.

(** ** Failed insight requests *)

Lemma foldl_delete_neutral {A B : Type} (f : B -> A -> B) (l : list A)
  (k : nat) (x : A) :
  l !! k = Some x -> (forall b, f b x = b) ->
  forall b, foldl f b (delete k l) = foldl f b l.
Proof.
  revert k. induction l as [| y l IH]; intros [| k] Hk Hx b;
    simpl in *; try discriminate.
  - injection Hk as ->. rewrite Hx. reflexivity.
  - apply IH; assumption.
Qed.

Lemma filter_delete_neutral {A : Type} (f : A -> bool) (l : list A)
  (k : nat) (x : A) :
  l !! k = Some x -> f x = false ->
  List.filter f (delete k l) = List.filter f l.
Proof.
  revert k. induction l as [| y l IH]; intros [| k] Hk Hx;
    simpl in *; try discriminate.
  - injection Hk as ->. rewrite Hx. reflexivity.
  - rewrite (IH k Hk Hx). reflexivity.
Qed.

Lemma no_priority_label (ti : TaskInsight.t) :
  no_priority ti -> priority_label (TaskInsight.insight ti) = EmptyString.
Proof.
  unfold no_priority, priority_label.
  destruct (TaskInsight.insight ti) as [i |]; [intros -> |]; reflexivity.
Qed.

Lemma no_deadline_level (ti : TaskInsight.t) :
  no_deadline ti -> risk_level (TaskInsight.insight ti) = EmptyString.
Proof.
  unfold no_deadline, risk_level.
  destruct (TaskInsight.insight ti) as [i |]; [intros -> |]; reflexivity.
Qed.

(** An insight without a priority part is in no bucket of the priority
    histogram and is not a high-priority task. *)
Lemma summary_skips_no_priority (tis : list TaskInsight.t) (k : nat)
  (ti : TaskInsight.t) :
  tis !! k = Some ti -> no_priority ti ->
  Summary.priorityCounts (generateSummaryInsights tis)
  = Summary.priorityCounts (generateSummaryInsights (delete k tis))
  /\ Summary.highPriorityTasks (generateSummaryInsights tis)
     = Summary.highPriorityTasks (generateSummaryInsights (delete k tis)).
Proof.
  intros Hk Hp. apply no_priority_label in Hp. simpl. split.
  - symmetry. apply (foldl_delete_neutral _ _ _ _ Hk).
    intros b. rewrite Hp. reflexivity.
  - rewrite (filter_delete_neutral is_high_priority _ _ _ Hk); [reflexivity|].
    unfold is_high_priority. rewrite Hp. reflexivity.
Qed.

(** An insight without a deadline part is in no bucket of the risk histogram
    and is not a high-risk task. *)
Lemma summary_skips_no_deadline (tis : list TaskInsight.t) (k : nat)
  (ti : TaskInsight.t) :
  tis !! k = Some ti -> no_deadline ti ->
  Summary.riskCounts (generateSummaryInsights tis)
  = Summary.riskCounts (generateSummaryInsights (delete k tis))
  /\ Summary.highRiskTasks (generateSummaryInsights tis)
     = Summary.highRiskTasks (generateSummaryInsights (delete k tis)).
Proof.
  intros Hk Hd. apply no_deadline_level in Hd. simpl. split.
  - symmetry. apply (foldl_delete_neutral _ _ _ _ Hk).
    intros b. rewrite Hd. reflexivity.
  - rewrite (filter_delete_neutral is_high_risk _ _ _ Hk); [reflexivity|].
    unfold is_high_risk. rewrite Hd. reflexivity.
Qed.

Lemma taskInsights_lookup (api : Api) (projects : list Project.t) (n : nat) :
  taskInsights_of (generateProjectInsights api projects) !! n
  = task_insight api n <$> allTasks with_projectName projects !! n.
Proof. simpl. apply list_lookup_imap. Qed.

(** C4. When the request for one task throws, the run still completes: that
    task's insight is recorded as null, the insight of every other task is
    what its own request returns, whatever happens to the requests for the
    other tasks, and the order of the tasks is kept.  In the summary an
    insight without a priority (deadline) part is in no bucket of the
    priority (risk) histogram and is not counted as high priority (high
    risk): the figures are those of the list without it. *)
Theorem failed_request_is_isolated
  (api : Api) (projects : list Project.t) (n : nat) (task : Task.t) :
  allTasks with_projectName projects !! n = Some task ->
  request api n task (complexity_sent task) = Throws ->
  let tis := taskInsights_of (generateProjectInsights api projects) in
  (exists r, generateProjectInsights api projects = Completed r)
  /\ length tis = length (allTasks with_projectName projects)
  /\ tis !! n = Some {| TaskInsight.task := task; TaskInsight.insight := None |}
  /\ (forall m task' data,
        allTasks with_projectName projects !! m = Some task' ->
        request api m task' (complexity_sent task') = Returns data ->
        tis !! m = Some {| TaskInsight.task := task';
                           TaskInsight.insight := data |})
  /\ (forall api' m,
        (forall a b c d, api' m a b c d = api m a b c d) ->
        taskInsights_of (generateProjectInsights api' projects) !! m = tis !! m)
  /\ (forall l k ti, l !! k = Some ti -> no_priority ti ->
        Summary.priorityCounts (generateSummaryInsights l)
        = Summary.priorityCounts (generateSummaryInsights (delete k l))
        /\ Summary.highPriorityTasks (generateSummaryInsights l)
           = Summary.highPriorityTasks (generateSummaryInsights (delete k l)))
  /\ (forall l k ti, l !! k = Some ti -> no_deadline ti ->
        Summary.riskCounts (generateSummaryInsights l)
        = Summary.riskCounts (generateSummaryInsights (delete k l))
        /\ Summary.highRiskTasks (generateSummaryInsights l)
           = Summary.highRiskTasks (generateSummaryInsights (delete k l))).
Proof.
  intros Hn Hthrow tis.
  split; [eexists; reflexivity|].
  split; [apply length_imap|].
  split.
  { unfold tis. rewrite taskInsights_lookup, Hn. simpl.
    unfold task_insight. fold (complexity_sent task). rewrite Hthrow.
    reflexivity. }
  split.
  { intros m task' data Hm Hret. unfold tis.
    rewrite taskInsights_lookup, Hm. simpl.
    unfold task_insight. fold (complexity_sent task'). rewrite Hret.
    reflexivity. }
  split.
  { intros api' m Hagree. unfold tis. rewrite !taskInsights_lookup.
    destruct (allTasks with_projectName projects !! m) as [task' |];
      [simpl | reflexivity].
    unfold task_insight, request. rewrite Hagree. reflexivity. }
  split.
  - intros l k ti. apply summary_skips_no_priority.
  - intros l k ti. apply summary_skips_no_deadline.
Qed.

Lemma failed_request_is_isolated_witness :
  allTasks with_projectName [website_redesign] !! 1%nat
  = Some (with_projectName website_redesign nav_task)
  /\ request second_request_fails 1 (with_projectName website_redesign nav_task)
             (complexity_sent (with_projectName website_redesign nav_task))
     = Throws
  /\ taskInsights_of (generateProjectInsights second_request_fails
                                              [website_redesign]) !! 1%nat
     = Some {| TaskInsight.task := with_projectName website_redesign nav_task;
               TaskInsight.insight := None |}.
Proof.
  split; [reflexivity|]. split; [reflexivity|].
  exact (proj1 (proj2 (proj2
    (failed_request_is_isolated second_request_fails [website_redesign] 1
       (with_projectName website_redesign nav_task) eq_refl eq_refl)))).
Defined.

(** ** Team counts *)

Lemma get_set {V : Type} (o : Obj.t V) (k k' : string) (v : V) :
  Obj.get (Obj.set o k v) k' = if String.eqb k k' then Some v else Obj.get o k'.
Proof.
  induction o as [| [k0 v0] o IH]; simpl.
  - reflexivity.
  - destruct (String.eqb_spec k0 k) as [-> | Hne]; simpl.
    + destruct (String.eqb k k'); reflexivity.
    + rewrite IH. destruct (String.eqb_spec k0 k') as [-> | Hne'];
        [|reflexivity].
      destruct (String.eqb_spec k k') as [-> | _]; [contradiction | reflexivity].
Qed.

Lemma assigned_to_iff (member : string) (t : Task.t) :
  assigned_to member t = true <-> Task.assignee t = Some member.
Proof.
  unfold assigned_to. destruct (Task.assignee t) as [a |].
  - rewrite String.eqb_eq. split; congruence.
  - split; discriminate.
Qed.

Lemma assigned_tasks_filter (member : string) (tasks : list Task.t) :
  length (List.filter (assigned_to member) tasks) = assigned_tasks member tasks.
Proof.
  unfold assigned_tasks.
  rewrite (filter_bool_Prop (assigned_to member)
             (fun t => Task.assignee t = Some member))
    by apply assigned_to_iff.
  reflexivity.
Qed.

Lemma member_steps_count (project : Project.t) (members : list string)
  (st : TeamState) (member : string) :
  Obj.get (memberTaskCounts (foldl (team_member_step project) st members)) member
  = add_count (Obj.get (memberTaskCounts st) member)
              (listings member members)
              (assigned_tasks member (Project.tasks project)).
Proof.
  revert st. induction members as [| x members IH]; intros st.
  - reflexivity.
  - simpl foldl. rewrite IH. unfold listings. simpl.
    rewrite get_set, assigned_tasks_filter.
    destruct (String.eqb_spec x member) as [-> | Hne].
    + rewrite String.eqb_refl. simpl. unfold add_count. simpl.
      destruct (length (List.filter (String.eqb member) members)) as [| k];
        simpl; f_equal; lia.
    + destruct (String.eqb_spec member x) as [-> | _]; [contradiction|].
      reflexivity.
Qed.

Lemma project_steps_count (projects : list Project.t) (st : TeamState)
  (member : string) :
  Obj.get (memberTaskCounts (foldl team_project_step st projects)) member
  = foldl (fun c p => add_count c (listings member (Project.members p))
                                (assigned_tasks member (Project.tasks p)))
          (Obj.get (memberTaskCounts st) member) projects.
Proof.
  revert st. induction projects as [| p projects IH]; intros st.
  - reflexivity.
  - simpl foldl. rewrite IH. f_equal. simpl. apply member_steps_count.
Qed.

Lemma tasks_where_listed_zero (member : string) (projects : list Project.t) :
  sum_list (map (fun p => listings member (Project.members p)) projects) = 0%nat ->
  tasks_where_listed member projects = 0%nat.
Proof.
  unfold tasks_where_listed. induction projects as [| p projects IH]; simpl.
  - reflexivity.
  - intros H. rewrite IH by lia.
    replace (listings member (Project.members p)) with 0%nat by lia. lia.
Qed.

Lemma add_counts_sum (member : string) (projects : list Project.t)
  (c : option nat) :
  foldl (fun c p => add_count c (listings member (Project.members p))
                              (assigned_tasks member (Project.tasks p)))
        c projects
  = if (sum_list (map (fun p => listings member (Project.members p)) projects)
        =? 0)%nat
    then c
    else Some (default 0 c + tasks_where_listed member projects).
Proof.
  revert c. induction projects as [| p projects IH]; intros c.
  - reflexivity.
  - simpl foldl. rewrite IH.
    destruct (Nat.eqb_spec
                (sum_list (map (fun p => listings member (Project.members p))
                               projects)) 0) as [E | E].
    + apply tasks_where_listed_zero in E as E'.
      unfold tasks_where_listed in *. simpl. rewrite E, E'. unfold add_count.
      destruct (listings member (Project.members p)) as [| k]; simpl;
        [reflexivity | f_equal; lia].
    + unfold tasks_where_listed, add_count. simpl.
      destruct (listings member (Project.members p)) as [| k]; simpl.
      * rewrite (proj2 (Nat.eqb_neq _ _) E). reflexivity.
      * f_equal. lia.
Qed.

Lemma listings_zero (member : string) (members : list string) :
  listings member members = 0%nat <-> ~ In member members.
Proof.
  unfold listings. induction members as [| x members IH]; simpl.
  - tauto.
  - destruct (String.eqb_spec member x) as [-> | Hne]; simpl.
    + split; [discriminate | intros H; exfalso; apply H; left; reflexivity].
    + rewrite IH. split; [intros H [E | H']; [congruence | tauto] | tauto].
Qed.

Lemma listings_sum_zero (member : string) (projects : list Project.t) :
  sum_list (map (fun p => listings member (Project.members p)) projects) = 0%nat
  <-> ~ listed member projects.
Proof.
  unfold listed. induction projects as [| p projects IH]; simpl.
  - split; [intros _ (p & [] & _) | reflexivity].
  - split.
    + intros H (q & [<- | Hq] & Hm).
      * assert (H0 : listings member (Project.members p) = 0%nat) by lia.
        apply listings_zero in H0. contradiction.
      * apply IH; [lia | eauto].
    + intros H.
      assert (H0 : listings member (Project.members p) = 0%nat).
      { apply listings_zero. intros Hm. apply H. eauto. }
      assert (H1 : sum_list (map (fun p => listings member (Project.members p))
                                 projects) = 0%nat).
      { apply IH. intros (q & Hq & Hm). apply H. eauto. }
      lia.
Qed.

Lemma counts_of_member (projects : list Project.t) (member : string) :
  Obj.get (memberTaskCounts (team_state projects)) member
  = if (sum_list (map (fun p => listings member (Project.members p)) projects)
        =? 0)%nat
    then None
    else Some (tasks_where_listed member projects).
Proof.
  unfold team_state. rewrite project_steps_count, add_counts_sum. reflexivity.
Qed.

Lemma listings_NoDup (member : string) (members : list string) :
  NoDup members ->
  listings member members = if bool_decide (member ∈ members) then 1%nat else 0%nat.
Proof.
  intros Hnd. destruct (bool_decide_reflect (member ∈ members)) as [Hin | Hout].
  - unfold listings. induction Hnd as [| x l Hx Hnd IH]; [inversion Hin|].
    simpl. destruct (String.eqb_spec member x) as [-> | Hne]; simpl.
    + f_equal. apply listings_zero. rewrite <- list_elem_of_In. exact Hx.
    + apply IH. apply elem_of_cons in Hin as [E | Hin]; [contradiction | exact Hin].
  - apply listings_zero. rewrite <- list_elem_of_In. exact Hout.
Qed.

(** C6, as the code has it.  For a member whose identifier names no
    property that a plain object inherits, the count kept is the number of
    tasks assigned to that member in the projects that list the member, a
    project counting once per listing; tasks of projects that do not list
    the member are left out, and an identifier that no project lists has no
    count at all.  When member lists have no duplicates it is the number of
    tasks assigned to the member in the projects listing the member. *)
Theorem memberTaskCounts_counts_listing_projects
  (projects : list Project.t) (member : string) :
  plain_key member ->
  let counts := memberTaskCounts (team_state projects) in
  (listed member projects ->
   Obj.get counts member = Some (tasks_where_listed member projects))
  /\ (~ listed member projects -> Obj.get counts member = None)
  /\ (Forall (fun p => NoDup (Project.members p)) projects ->
      tasks_where_listed member projects
      = tasks_anywhere member
          (filter (fun p => member ∈ Project.members p) projects)).
Proof.
  intros _. simpl. rewrite counts_of_member. split; [|split].
  - intros H.
    destruct (Nat.eqb_spec
                (sum_list (map (fun p => listings member (Project.members p))
                               projects)) 0) as [E | E]; [|reflexivity].
    apply listings_sum_zero in E. contradiction.
  - intros H. apply listings_sum_zero in H. rewrite H. reflexivity.
  - unfold tasks_where_listed, tasks_anywhere.
    induction 1 as [| p projects Hp _ IH]; [reflexivity|].
    simpl. rewrite filter_cons, IH, (listings_NoDup _ _ Hp).
    destruct (decide (member ∈ Project.members p)) as [Hin | Hout].
    + rewrite (bool_decide_eq_true_2 _ Hin). simpl. lia.
    + rewrite (bool_decide_eq_false_2 _ Hout). simpl. lia.
Qed.

Lemma memberTaskCounts_counts_listing_projects_witness :
  plain_key "alice@example.com"
  /\ listed "alice@example.com" two_projects
  /\ Obj.get (memberTaskCounts (team_state two_projects)) "alice@example.com"
     = Some (tasks_where_listed "alice@example.com" two_projects).
Proof.
  assert (Hp : plain_key "alice@example.com").
  { unfold plain_key. simpl. intuition discriminate. }
  assert (H : listed "alice@example.com" two_projects).
  { exists website_redesign. split; left; reflexivity. }
  split; [exact Hp|]. split; [exact H|].
  exact (proj1 (memberTaskCounts_counts_listing_projects
                  two_projects "alice@example.com" Hp) H).
Defined.

(** C6 as stated fails: Alice is listed in the first project only, and the
    task assigned to her in the second project is not counted. *)
Lemma memberTaskCounts_misses_unlisted_projects :
  Obj.get (memberTaskCounts (team_state two_projects)) "alice@example.com"
  = Some 1%nat
  /\ tasks_anywhere "alice@example.com" two_projects = 2%nat
  /\ Obj.get (memberTaskCounts (team_state two_projects)) "alice@example.com"
     <> Some (tasks_anywhere "alice@example.com" two_projects).
Proof.
  split; [vm_compute; reflexivity|].
  split; [vm_compute; reflexivity|].
  vm_compute. discriminate.
Qed.

(** ** Adding a member *)

Lemma listings_app (x : string) (l1 l2 : list string) :
  listings x (l1 ++ l2) = (listings x l1 + listings x l2)%nat.
Proof. unfold listings. rewrite List.filter_app, length_app. reflexivity. Qed.

(** C9. [addMember] appends the email only when it is not yet in the member
    list, and then only at the end and without touching anything else;
    otherwise the project stays as it is.  So the operation gives no
    identifier a second occurrence, and a member list without duplicates has
    none after it. *)
Theorem addMember_keeps_members_distinct
  (project : Project.t) (email : option string) :
  (forall updated, addMember project email = Some updated ->
     exists e, email = Some e /\ (e ∉ Project.members project)
               /\ updated = set_members project (Project.members project ++ [e]))
  /\ (forall e, email = Some e -> (e ∈ Project.members project) ->
        after_addMember project email = project)
  /\ (addMember project email = None -> after_addMember project email = project)
  /\ (forall x,
        (1 < listings x (Project.members (after_addMember project email)))%nat ->
        listings x (Project.members (after_addMember project email))
        = listings x (Project.members project))
  /\ (NoDup (Project.members project) ->
      NoDup (Project.members (after_addMember project email))).
Proof.
  unfold after_addMember, addMember.
  destruct email as [[| c e] |]; simpl.
  - repeat split; try discriminate; auto.
  - destruct (bool_decide_reflect (String c e ∈ Project.members project))
      as [Hin | Hout]; simpl.
    + repeat split; try discriminate; auto.
    + repeat split; try discriminate; auto.
      * intros updated [= <-]. exists (String c e). auto.
      * intros e' [= <-] Hin. contradiction.
      * intros x. rewrite listings_app.
        assert (E : listings x [String c e]
                    = if String.eqb x (String c e) then 1%nat else 0%nat).
        { unfold listings. simpl. destruct (String.eqb x (String c e)); reflexivity. }
        rewrite E. clear E.
        destruct (String.eqb_spec x (String c e)) as [-> | Hne]; [|lia].
        assert (H0 : listings (String c e) (Project.members project) = 0%nat).
        { apply listings_zero. rewrite <- list_elem_of_In. exact Hout. }
        rewrite H0. simpl. lia.
      * intros Hnd. apply NoDup_app.
        repeat split; [exact Hnd | | apply NoDup_singleton].
        intros x Hx Hx'. apply list_elem_of_singleton in Hx'. subst x.
        contradiction.
  - repeat split; try discriminate; auto.
Qed.

Lemma addMember_keeps_members_distinct_witness :
  NoDup (Project.members website_redesign)
  /\ NoDup (Project.members
              (after_addMember website_redesign (Some "carol@example.com"))).
Proof.
  assert (H : NoDup (Project.members website_redesign)).
  { apply NoDup_ListNoDup. repeat constructor; simpl; intuition discriminate. }
  split; [exact H|].
  exact (proj2 (proj2 (proj2 (proj2
    (addMember_keeps_members_distinct website_redesign
       (Some "carol@example.com"))))) H).
Defined.

(** ** Most active member *)

Lemma get_is_Some {V : Type} (o : Obj.t V) (k : string) :
  is_Some (Obj.get o k) <-> In k (map fst o).
Proof.
  induction o as [| [k0 v0] o IH]; simpl.
  - split; [intros [v [=]] | tauto].
  - destruct (String.eqb_spec k0 k) as [-> | Hne].
    + split; [auto | eauto].
    + rewrite IH. split; [auto | intros [E | H]; [contradiction | exact H]].
Qed.

Lemma named_elem {V : Type} (o : Obj.t V) (e : string * V) :
  e ∈ Obj.named o <-> e ∈ o /\ Obj.array_index e.1 = None.
Proof.
  unfold Obj.named. rewrite !list_elem_of_In, List.filter_In.
  rewrite negb_true_iff, bool_decide_eq_false, <- eq_None_not_Some.
  reflexivity.
Qed.

Lemma indexed_elem {V : Type} (o : Obj.t V) (e : string * V) :
  e ∈ map snd (Obj.indexed o) <-> e ∈ o /\ is_Some (Obj.array_index e.1).
Proof.
  unfold Obj.indexed. rewrite list_elem_of_fmap. split.
  - intros ([n e'] & -> & H).
    apply list_elem_of_omap in H as (e0 & He0 & Hn).
    destruct (Obj.array_index e0.1) eqn:E; simpl in Hn; [|discriminate].
    injection Hn as _ <-. simpl. rewrite E. eauto.
  - intros [He [n E]]. exists (n, e). split; [reflexivity|].
    apply list_elem_of_omap. exists e. rewrite E. auto.
Qed.

Lemma entries_elem {V : Type} (o : Obj.t V) (e : string * V) :
  e ∈ Obj.entries o <-> e ∈ o.
Proof.
  unfold Obj.entries.
  rewrite elem_of_app, merge_sort_Permutation, indexed_elem, named_elem.
  destruct (Obj.array_index e.1) as [n |].
  - split; [intros [[H _] | [H _]]; exact H | intros H; left; eauto].
  - split; [intros [[H _] | [H _]]; exact H | intros H; right; eauto].
Qed.

Lemma keys_In {V : Type} (o : Obj.t V) (k : string) :
  In k (Obj.keys o) <-> is_Some (Obj.get o k).
Proof.
  rewrite get_is_Some. unfold Obj.keys.
  rewrite <- !list_elem_of_In, !list_elem_of_fmap.
  split; intros (e & -> & He); exists e; (split; [reflexivity|]);
    apply entries_elem; exact He.
Qed.

Lemma gt_counts (counts : Obj.t nat) (a b : string) :
  Js.gt (count_num counts a) (count_num counts b) = true
  <-> exists x y, Obj.get counts a = Some x /\ Obj.get counts b = Some y
                  /\ (y < x)%nat.
Proof.
  unfold Js.gt, count_num.
  destruct (Obj.get counts a) as [x |], (Obj.get counts b) as [y |];
    try (split; [discriminate | intros (? & ? & [=] & [=] & _)]).
  unfold Js.of_nat, Js.of_Z. rewrite lt_Fin, <- Zlt_Qlt. split.
  - intros H. exists x, y. repeat split. lia.
  - intros (? & ? & [= <-] & [= <-] & H). lia.
Qed.

(** The reduction of [mostActiveMember] from any start [acc] over keys that
    all have a count: either [acc] survives, being counted higher than every
    key, or the result is the last key with the highest count. *)
Lemma foldl_more_active (counts : Obj.t nat) (ks : list string) (acc : string) :
  (forall k, In k ks -> is_Some (Obj.get counts k)) ->
  let r := foldl (more_active counts) acc ks in
  (r = acc
   /\ forall k m, In k ks -> Obj.get counts k = Some m ->
                  exists a, Obj.get counts acc = Some a /\ (m < a)%nat)
  \/ (last_of_highest counts ks r
      /\ forall a n, Obj.get counts acc = Some a -> Obj.get counts r = Some n ->
                     (a <= n)%nat).
Proof.
  induction ks as [| k ks IH] using rev_ind; intros Hks; simpl.
  - left. split; [reflexivity | intros k m []].
  - rewrite foldl_app. simpl.
    assert (Hks' : forall k', In k' ks -> is_Some (Obj.get counts k'))
      by (intros k' Hk'; apply Hks, in_or_app; left; exact Hk').
    destruct (Hks k) as [m Hm]; [apply in_or_app; right; left; reflexivity|].
    specialize (IH Hks'). simpl in IH.
    remember (foldl (more_active counts) acc ks) as r' eqn:Er. clear Er.
    unfold more_active.
    destruct (Js.gt (count_num counts r') (count_num counts k)) eqn:Egt.
    + apply gt_counts in Egt as (x & y & Hx & Hy & Hlt).
      assert (y = m) by congruence. subst y.
      destruct IH as [[Hr Hall] | [(pre & post & n & -> & Hn & Hpre & Hpost) Hacc]].
      * left. split; [exact Hr|]. intros k' m' Hin Hk'.
        apply in_app_or in Hin as [Hin | [<- | []]]; [eauto|].
        exists x. rewrite <- Hr. split; [exact Hx | congruence].
      * right. split; [|exact Hacc].
        exists pre, (post ++ [k]), n. rewrite <- app_assoc. simpl.
        repeat split; [exact Hn | exact Hpre |].
        intros k' m' Hin Hk'.
        apply in_app_or in Hin as [Hin | [<- | []]]; [eauto|].
        assert (x = n) by congruence. assert (m' = m) by congruence. lia.
    + assert (Hle : forall x, Obj.get counts r' = Some x -> (x <= m)%nat).
      { intros x Hx. destruct (Nat.le_gt_cases x m) as [H | H]; [exact H|].
        exfalso. assert (Js.gt (count_num counts r') (count_num counts k) = true)
          by (apply gt_counts; eauto).
        congruence. }
      right. split.
      * exists ks, [], m. repeat split; [exact Hm | | intros k' m' []].
        intros k' m' Hin Hk'.
        destruct IH as [[Hr Hall] | [(pre & post & n & E & Hn & Hpre & Hpost) Hacc]].
        -- destruct (Hall k' m' Hin Hk') as (a & Ha & Hlt).
           rewrite <- Hr in Ha. specialize (Hle a Ha). lia.
        -- specialize (Hle n Hn). rewrite E in Hin.
           apply in_app_or in Hin as [Hin | [<- | Hin]].
           ++ specialize (Hpre k' m' Hin Hk'). lia.
           ++ assert (m' = n) by congruence. lia.
           ++ specialize (Hpost k' m' Hin Hk'). lia.
      * intros a n Ha Hn. assert (n = m) by congruence. subst n.
        destruct IH as [[Hr Hall] | [(pre & post & n & E & Hn' & Hpre & Hpost) Hacc]].
        -- rewrite <- Hr in Ha. exact (Hle a Ha).
        -- specialize (Hacc a n Ha Hn'). specialize (Hle n Hn'). lia.
Qed.

(** C5, as the code has it.  When no member is called like a property that
    a plain object inherits and some member is counted, the most active
    member is a counted member with the highest task count, and among
    several members with that count it is the one that comes last in the
    key order of the counts. *)
Theorem mostActiveMember_is_last_of_highest (projects : list Project.t) :
  let counts := memberTaskCounts (team_state projects) in
  plain_members projects ->
  Obj.keys counts <> [] ->
  last_of_highest counts (Obj.keys counts)
                  (Team.mostActiveMember (generateTeamInsights projects)).
Proof.
  intros counts _ Hne. simpl. fold counts. unfold mostActive.
  destruct (foldl_more_active counts (Obj.keys counts) "None")
    as [[Hr Hall] | [H _]].
  - intros k Hk. apply keys_In. exact Hk.
  - exfalso. destruct (Obj.keys counts) as [| k ks] eqn:E; [contradiction|].
    assert (Hk : In k (Obj.keys counts)) by (rewrite E; left; reflexivity).
    apply keys_In in Hk as [m Hm].
    destruct (Hall k m (or_introl eq_refl) Hm) as (a & Ha & _).
    assert (HN : In "None" (Obj.keys counts)) by (apply keys_In; eauto).
    rewrite E in HN. destruct (Hall "None" a HN Ha) as (a' & Ha' & Hlt).
    assert (a' = a) by congruence. lia.
  - exact H.
Qed.

Lemma mostActiveMember_is_last_of_highest_witness :
  plain_members [website_redesign]
  /\ Obj.keys (memberTaskCounts (team_state [website_redesign])) <> []
  /\ last_of_highest (memberTaskCounts (team_state [website_redesign]))
       (Obj.keys (memberTaskCounts (team_state [website_redesign])))
       (Team.mostActiveMember (generateTeamInsights [website_redesign])).
Proof.
  assert (Hp : plain_members [website_redesign]).
  { intros p m [<- | []] [<- | [<- | []]];
      unfold plain_key; simpl; intuition discriminate. }
  assert (H : Obj.keys (memberTaskCounts (team_state [website_redesign])) <> [])
    by (vm_compute; discriminate).
  split; [exact Hp|]. split; [exact H|].
  exact (mostActiveMember_is_last_of_highest [website_redesign] Hp H).
Defined.

(** C5 as stated fails: Alice and Bob both have one task and Alice comes
    first, yet Bob is reported. *)
Lemma mostActiveMember_tie_goes_to_later_member :
  Obj.keys (memberTaskCounts (team_state [website_redesign]))
  = ["alice@example.com"; "bob@example.com"]
  /\ Obj.get (memberTaskCounts (team_state [website_redesign]))
             "alice@example.com" = Some 1%nat
  /\ Obj.get (memberTaskCounts (team_state [website_redesign]))
             "bob@example.com" = Some 1%nat
  /\ Team.mostActiveMember (generateTeamInsights [website_redesign])
     = "bob@example.com"
  /\ ~ first_of_highest (memberTaskCounts (team_state [website_redesign]))
         (Obj.keys (memberTaskCounts (team_state [website_redesign])))
         (Team.mostActiveMember (generateTeamInsights [website_redesign])).
Proof.
  assert (Hk : Obj.keys (memberTaskCounts (team_state [website_redesign]))
               = ["alice@example.com"; "bob@example.com"])
    by (vm_compute; reflexivity).
  assert (Ha : Obj.get (memberTaskCounts (team_state [website_redesign]))
                       "alice@example.com" = Some 1%nat)
    by (vm_compute; reflexivity).
  assert (Hr : Team.mostActiveMember (generateTeamInsights [website_redesign])
               = "bob@example.com")
    by (vm_compute; reflexivity).
  repeat split; try assumption; try (vm_compute; reflexivity).
  rewrite Hk, Hr. intros (pre & post & n & E & Hn & Hpre & _).
  assert (n = 1%nat) by (vm_compute in Hn; congruence). subst n.
  destruct pre as [| a [| b pre]]; simpl in E.
  - discriminate.
  - injection E as <- _.
    specialize (Hpre "alice@example.com" 1%nat (or_introl eq_refl) Ha). lia.
  - injection E as _ _ E. destruct pre; discriminate.
Qed.

(** ** Days left *)

(** For a due date given as a date alone, which [new Date] reads as midnight
    UTC of that day, the task card's [getDaysLeft] is the difference of the
    two days, whatever the time of day is now. *)
Lemma getDaysLeft_date_only (today day : Z) :
  getDaysLeft today (Some (Some (day * msPerDay)%Z))
  = Some (Js.of_Z (day - day_of today)).
Proof.
  unfold getDaysLeft, Js.getTime, Js.sub, Js.div, Js.ceil, Js.of_Z, day_of.
  rewrite (is_zero_false _ msPerDay_pos). unfold Js.of_Z, Qceiling.
  assert (E : (- ((inject_Z (day * msPerDay) - inject_Z today) / inject_Z msPerDay)
               == inject_Z (today - day * msPerDay) / inject_Z msPerDay)%Q).
  { unfold Z.sub. rewrite !inject_Z_plus, !inject_Z_opp, !inject_Z_mult.
    pose proof msPerDay_pos as Hm. revert Hm.
    generalize (inject_Z msPerDay). intros m Hm. field.
    intros H0. rewrite H0 in Hm. exact (Qlt_irrefl _ Hm). }
  rewrite (Qfloor_comp _ _ E), <- Zdiv_Qdiv.
  replace (today - day * msPerDay)%Z with (today + (- day) * msPerDay)%Z by lia.
  rewrite Z.div_add by (unfold msPerDay; lia).
  do 3 f_equal. generalize (today / msPerDay)%Z. intros q. lia.
Qed.

(** C7 fails in the dashboard.  At noon of the day [nav_task] is due, the
    task card's [getDaysLeft] gives 0, but [generateAIRecommendations] works
    with a [daysLeft] of minus one half: it reports the task as overdue and
    does not count it among the upcoming deadlines. *)
Theorem dashboard_daysLeft_due_today :
  day_of noon_2025_09_09 = 20340%Z
  /\ Task.due nav_task = Some (Some (20340 * msPerDay)%Z)
  /\ getDaysLeft noon_2025_09_09 (Task.due nav_task) = Some (Js.of_Z 0)
  /\ same_number (daysLeft noon_2025_09_09 (Some (20340 * msPerDay)%Z))
                 (Js.Fin (- (1 # 2)))
  /\ upcoming noon_2025_09_09 nav_task = false
  /\ overdue noon_2025_09_09 nav_task = true
  /\ generateAIRecommendations noon_2025_09_09 [nav_task]
     = [rec_overdue 1; rec_productivity].
Proof.
  repeat split; vm_compute; reflexivity.
Qed.

(** ** Input that breaks the data model *)





(** * Further properties *)

(** ** Adding, updating and deleting tasks *)

Lemma only_spaces_trimStart_length (n : nat) (s : string) :
  (String.length s <= n)%nat -> only_spaces (trimStart s) = only_spaces s.
Proof.
  revert s. induction n as [| n IH]; intros s Hs.
  - destruct s; [reflexivity | simpl in Hs; lia].
  - destruct s as [| c1 r1]; [reflexivity|].
    cbn [trimStart only_spaces]. simpl in Hs.
    destruct (space1 c1) eqn:E1; [apply IH; lia|].
    destruct r1 as [| c2 r2].
    { cbn [only_spaces]. rewrite E1. reflexivity. }
    simpl in Hs.
    destruct (space2 c1 c2) eqn:E2; [apply IH; lia|].
    destruct r2 as [| c3 r3].
    { cbn [only_spaces]. rewrite E1, E2. reflexivity. }
    simpl in Hs.
    destruct (space3 c1 c2 c3) eqn:E3.
    + rewrite IH by lia. reflexivity.
    + cbn [only_spaces]. rewrite E1, E2, E3. reflexivity.
Qed.

Lemma only_spaces_trimStart (s : string) :
  only_spaces (trimStart s) = only_spaces s.
Proof. apply (only_spaces_trimStart_length (String.length s)). lia. Qed.

Lemma ascii_of_code (c : ascii) (n : N) : N_of_ascii c = n -> c = ascii_of_N n.
Proof. intros <-. symmetry. apply ascii_N_embedding. Qed.

Lemma white_space_check (c : string) :
  existsb (String.eqb c) white_space = true -> In c white_space.
Proof.
  intros H. apply existsb_exists in H as (x & Hx & E).
  apply String.eqb_eq in E. subst x. exact Hx.
Qed.

Lemma space1_white (c : ascii) :
  space1 c = true -> In (String c EmptyString) white_space.
Proof.
  unfold space1. intros H.
  pose proof (ascii_of_code c _ eq_refl) as Ec. revert H Ec.
  generalize (N_of_ascii c). intros n H Ec.
  rewrite !orb_true_iff, andb_true_iff, !N.leb_le, N.eqb_eq in H.
  assert (Hn : (n = 9 \/ n = 10 \/ n = 11 \/ n = 12 \/ n = 13 \/ n = 32)%N)
    by lia.
  clear H. subst c. apply white_space_check.
  repeat (destruct Hn as [-> | Hn]; [reflexivity|]). subst n. reflexivity.
Qed.

Lemma space2_white (c1 c2 : ascii) :
  space2 c1 c2 = true -> In (String c1 (String c2 EmptyString)) white_space.
Proof.
  unfold space2. intros H.
  rewrite andb_true_iff, !N.eqb_eq in H. destruct H as [H1 H2].
  apply ascii_of_code in H1, H2. subst c1 c2.
  apply white_space_check. reflexivity.
Qed.

Lemma space3_white (c1 c2 c3 : ascii) :
  space3 c1 c2 c3 = true ->
  In (String c1 (String c2 (String c3 EmptyString))) white_space.
Proof.
  unfold space3. intros H.
  pose proof (ascii_of_code c1 _ eq_refl) as E1.
  pose proof (ascii_of_code c2 _ eq_refl) as E2.
  pose proof (ascii_of_code c3 _ eq_refl) as E3.
  revert H E1 E2 E3.
  generalize (N_of_ascii c1), (N_of_ascii c2), (N_of_ascii c3).
  intros n1 n2 n3 H E1 E2 E3. cbv zeta in H.
  rewrite !orb_true_iff, !andb_true_iff, !orb_true_iff, !andb_true_iff,
    !N.leb_le, !N.eqb_eq in H.
  subst c1 c2 c3. apply white_space_check.
  destruct H as [[[[[[-> ->] ->] | [[-> ->] H]] | [[-> ->] ->]]
                  | [[-> ->] ->]] | [[-> ->] ->]];
    try reflexivity.
  assert (Hn : (n3 = 128 \/ n3 = 129 \/ n3 = 130 \/ n3 = 131 \/ n3 = 132
                \/ n3 = 133 \/ n3 = 134 \/ n3 = 135 \/ n3 = 136 \/ n3 = 137
                \/ n3 = 138 \/ n3 = 168 \/ n3 = 169 \/ n3 = 175)%N) by lia.
  clear H.
  repeat (destruct Hn as [-> | Hn]; [reflexivity|]). subst n3. reflexivity.
Qed.

Lemma only_spaces_blank_length (n : nat) (s : string) :
  (String.length s <= n)%nat -> only_spaces s = true -> blank s.
Proof.
  revert s. induction n as [| n IH]; intros s Hs.
  - destruct s; [intros _; constructor | simpl in Hs; lia].
  - destruct s as [| c1 r1]; [intros _; constructor|].
    cbn [only_spaces]. simpl in Hs.
    destruct (space1 c1) eqn:E1.
    { intros H. apply (blank_more (String c1 EmptyString) r1).
      - apply space1_white, E1.
      - apply IH; [lia | exact H]. }
    destruct r1 as [| c2 r2]; [discriminate|]. simpl in Hs.
    destruct (space2 c1 c2) eqn:E2.
    { intros H. apply (blank_more (String c1 (String c2 EmptyString)) r2).
      - apply space2_white, E2.
      - apply IH; [lia | exact H]. }
    destruct r2 as [| c3 r3]; [discriminate|]. simpl in Hs.
    intros H. apply andb_true_iff in H as [E3 H].
    apply (blank_more (String c1 (String c2 (String c3 EmptyString))) r3).
    + apply space3_white, E3.
    + apply IH; [lia | exact H].
Qed.

Lemma blank_only_spaces (s : string) : blank s -> only_spaces s = true.
Proof.
  induction 1 as [| c s Hc _ IH]; [reflexivity|].
  unfold white_space in Hc.
  repeat (destruct Hc as [<- | Hc]; [exact IH|]). destruct Hc.
Qed.

(** The test of the model for white space only is the one on the
    characters. *)
Lemma only_spaces_iff (s : string) : only_spaces s = true <-> blank s.
Proof.
  split; [|apply blank_only_spaces].
  apply (only_spaces_blank_length (String.length s)). lia.
Qed.

Lemma trimEnd_empty_iff (s : string) :
  trimEnd s = EmptyString <-> only_spaces s = true.
Proof.
  destruct s as [| c s]; [simpl; tauto|].
  change (trimEnd (String c s))
    with (if only_spaces (String c s) then EmptyString
          else String c (trimEnd s)).
  destruct (only_spaces (String c s)); split; (reflexivity || discriminate).
Qed.

Lemma trim_empty_iff (s : string) :
  trim s = EmptyString <-> only_spaces s = true.
Proof.
  unfold trim. rewrite trimEnd_empty_iff, only_spaces_trimStart. reflexivity.
Qed.

Lemma max_id_bounds (ids : list Z) (acc : Z) :
  (acc <= foldl Z.max acc ids)%Z
  /\ (forall x, In x ids -> (x <= foldl Z.max acc ids)%Z).
Proof.
  revert acc. induction ids as [| y ids IH]; intros acc; simpl.
  - split; [lia | intros x []].
  - destruct (IH (Z.max acc y)) as [H1 H2]. split; [lia|].
    intros x [<- | Hx]; [lia | auto].
Qed.

Lemma foldl_max_safe (ids : list Z) (acc : Z) :
  (0 <= acc < 2 ^ 53)%Z -> safe_ids ids ->
  (0 <= foldl Z.max acc ids < 2 ^ 53)%Z.
Proof.
  unfold safe_ids, safe_integer. revert acc.
  induction ids as [| y ids IH]; intros acc Hacc Hs; simpl; [exact Hacc|].
  apply Forall_cons in Hs as [Hy Hs]. apply IH; [lia | exact Hs].
Qed.

Lemma max_id_safe (ids : list Z) :
  safe_ids ids -> (0 <= max_id ids < 2 ^ 53)%Z.
Proof. apply foldl_max_safe. lia. Qed.

Lemma new_task_id_fresh (project : Project.t) (newTask : NewTask.t) :
  (1 <= Task.id (new_task project newTask))%Z
  /\ (forall t, In t (Project.tasks project) ->
        (Task.id t < Task.id (new_task project newTask))%Z).
Proof.
  simpl. unfold max_id.
  destruct (max_id_bounds (map Task.id (Project.tasks project)) 0) as [H0 H].
  split; [lia|]. intros t Ht.
  assert (Task.id t <= foldl Z.max 0 (map Task.id (Project.tasks project)))%Z
    by (apply H, in_map, Ht).
  lia.
Qed.

(** X1. For a project whose ids a call can take as arguments, [addTask]
    does nothing exactly when the title is empty or made of white space
    only; otherwise it issues an update. *)
Theorem addTask_rejects_blank_title (project : Project.t) (newTask : NewTask.t) :
  spreadable (Project.tasks project) ->
  addTask project newTask = None <-> blank (NewTask.title newTask).
Proof.
  intros _. unfold addTask. rewrite <- only_spaces_iff, <- trim_empty_iff.
  destruct (String.eqb_spec (trim (NewTask.title newTask)) EmptyString) as [E | E].
  - tauto.
  - split; [discriminate | contradiction].
Qed.

Lemma addTask_rejects_blank_title_witness :
  spreadable (Project.tasks website_redesign)
  /\ addTask website_redesign blank_form = None.
Proof.
  assert (H : spreadable (Project.tasks website_redesign))
    by (unfold spreadable; simpl; lia).
  split; [exact H|].
  apply (addTask_rejects_blank_title website_redesign blank_form H).
  apply (blank_more " "), (blank_more ideographic_space), (blank_more (utf8 [9%N]));
    [| | | apply blank_empty]; unfold white_space; simpl; tauto.
Defined.

(** X2. When [addTask] issues an update, the new task goes to the end of the
    task list with an id that is at least 1 and greater than every id in
    use; the tasks already there, the members, the name and the id of the
    project are untouched, and task ids that were unique stay unique.  The
    ids in use are integers that a number holds exactly, so that the new id
    is exact too, and few enough for a call to take them as arguments. *)
Theorem addTask_appends_fresh_id
  (project updated : Project.t) (newTask : NewTask.t) :
  safe_ids (map Task.id (Project.tasks project)) ->
  spreadable (Project.tasks project) ->
  addTask project newTask = Some updated ->
  Project.tasks updated = Project.tasks project ++ [new_task project newTask]
  /\ Project.id updated = Project.id project
  /\ Project.name updated = Project.name project
  /\ Project.members updated = Project.members project
  /\ (1 <= Task.id (new_task project newTask) <= 2 ^ 53)%Z
  /\ (forall t, In t (Project.tasks project) ->
        (Task.id t < Task.id (new_task project newTask))%Z)
  /\ (NoDup (map Task.id (Project.tasks project)) ->
      NoDup (map Task.id (Project.tasks updated))).
Proof.
  intros Hs _. unfold addTask.
  destruct (String.eqb (trim (NewTask.title newTask)) EmptyString);
    [discriminate|].
  intros [= <-]. destruct (new_task_id_fresh project newTask) as [H1 Hlt].
  apply max_id_safe in Hs as [_ H53].
  assert (H2 : (Task.id (new_task project newTask) <= 2 ^ 53)%Z)
    by (cbn [new_task Task.id]; lia).
  repeat split; try assumption.
  intros Hnd. simpl Project.tasks. rewrite map_app. apply NoDup_app.
  repeat split; [exact Hnd | | apply NoDup_singleton].
  intros x Hx Hx'. apply list_elem_of_singleton in Hx'.
  apply list_elem_of_In, in_map_iff in Hx as (t & Ht & Hin).
  specialize (Hlt t Hin). rewrite Hx' in Ht.
  change (Task.id t = Task.id (new_task project newTask)) in Ht. lia.
Qed.

Lemma addTask_appends_fresh_id_witness :
  safe_ids (map Task.id (Project.tasks website_redesign))
  /\ spreadable (Project.tasks website_redesign)
  /\ addTask website_redesign release_notes
  = Some (set_tasks website_redesign
            [hero_task; nav_task; new_task website_redesign release_notes])
  /\ Task.id (new_task website_redesign release_notes) = 3%Z
  /\ NoDup (map Task.id
              (Project.tasks
                 (set_tasks website_redesign
                    [hero_task; nav_task;
                     new_task website_redesign release_notes]))).
Proof.
  assert (H : addTask website_redesign release_notes
              = Some (set_tasks website_redesign
                        [hero_task; nav_task;
                         new_task website_redesign release_notes]))
    by reflexivity.
  assert (Hs : safe_ids (map Task.id (Project.tasks website_redesign)))
    by (repeat constructor; unfold safe_integer; simpl; lia).
  assert (Hl : spreadable (Project.tasks website_redesign))
    by (unfold spreadable; simpl; lia).
  split; [exact Hs|]. split; [exact Hl|]. split; [exact H|].
  split; [reflexivity|].
  apply (addTask_appends_fresh_id _ _ _ Hs Hl H).
  apply NoDup_ListNoDup. repeat constructor; simpl; intuition discriminate.
Defined.

Lemma filter_all {A : Type} (f : A -> bool) (l : list A) :
  (forall x, In x l -> f x = true) -> List.filter f l = l.
Proof.
  induction l as [| x l IH]; intros H; simpl; [reflexivity|].
  rewrite (H x (or_introl eq_refl)), IH; [reflexivity|].
  intros y Hy. apply H. right. exact Hy.
Qed.

(** X3. Deleting the task that [addTask] has just added gives the project
    back as it was, when the ids in use are integers that a number holds
    exactly and few enough for a call to take them as arguments. *)
Theorem deleteTask_undoes_addTask
  (project updated : Project.t) (newTask : NewTask.t) :
  safe_ids (map Task.id (Project.tasks project)) ->
  spreadable (Project.tasks project) ->
  addTask project newTask = Some updated ->
  deleteTask updated (Task.id (new_task project newTask)) = project.
Proof.
  intros _ _. unfold addTask.
  destruct (String.eqb (trim (NewTask.title newTask)) EmptyString);
    [discriminate|].
  intros [= <-]. destruct (new_task_id_fresh project newTask) as [_ Hlt].
  unfold deleteTask, set_tasks. simpl Project.tasks.
  rewrite List.filter_app, filter_all.
  - simpl List.filter. rewrite Z.eqb_refl. simpl. rewrite app_nil_r.
    destruct project; reflexivity.
  - intros t Ht. specialize (Hlt t Ht).
    apply negb_true_iff, Z.eqb_neq. lia.
Qed.

Lemma deleteTask_undoes_addTask_witness :
  safe_ids (map Task.id (Project.tasks website_redesign))
  /\ spreadable (Project.tasks website_redesign)
  /\ addTask website_redesign release_notes
  = Some (set_tasks website_redesign
            [hero_task; nav_task; new_task website_redesign release_notes])
  /\ deleteTask (set_tasks website_redesign
                   [hero_task; nav_task;
                    new_task website_redesign release_notes])
                (Task.id (new_task website_redesign release_notes))
     = website_redesign.
Proof.
  assert (H : addTask website_redesign release_notes
              = Some (set_tasks website_redesign
                        [hero_task; nav_task;
                         new_task website_redesign release_notes]))
    by reflexivity.
  assert (Hs : safe_ids (map Task.id (Project.tasks website_redesign)))
    by (repeat constructor; unfold safe_integer; simpl; lia).
  assert (Hl : spreadable (Project.tasks website_redesign))
    by (unfold spreadable; simpl; lia).
  split; [exact Hs|]. split; [exact Hl|]. split; [exact H|].
  exact (deleteTask_undoes_addTask _ _ _ Hs Hl H).
Defined.

(** X4. [updateTask] keeps the number, the order and the ids of the tasks:
    each task that has the id of the updated task is replaced by it, also
    when several have it, and every other task stays.  When no task has the
    id, nothing changes. *)
Theorem updateTask_replaces_by_id (project : Project.t) (updatedTask : Task.t) :
  let after := Project.tasks (updateTask project updatedTask) in
  map Task.id after = map Task.id (Project.tasks project)
  /\ (forall i t, Project.tasks project !! i = Some t ->
        after !! i = Some (if (Task.id t =? Task.id updatedTask)%Z
                           then updatedTask else t))
  /\ (~ In (Task.id updatedTask) (map Task.id (Project.tasks project)) ->
      updateTask project updatedTask = project).
Proof.
  simpl. split; [|split].
  - induction (Project.tasks project) as [| t ts IH]; simpl; [reflexivity|].
    rewrite IH. destruct (Z.eqb_spec (Task.id t) (Task.id updatedTask));
      congruence.
  - intros i t Hi. rewrite list_lookup_fmap, Hi. reflexivity.
  - intros Hout. unfold updateTask, set_tasks.
    assert (E : map (fun t => if (Task.id t =? Task.id updatedTask)%Z
                              then updatedTask else t) (Project.tasks project)
                = Project.tasks project).
    { induction (Project.tasks project) as [| t ts IH]; simpl; [reflexivity|].
      simpl in Hout. destruct (Z.eqb_spec (Task.id t) (Task.id updatedTask)).
      - exfalso. apply Hout. left. assumption.
      - rewrite IH; [reflexivity | tauto]. }
    rewrite E. destruct project; reflexivity.
Qed.

Lemma updateTask_replaces_by_id_witness :
  ~ In (Task.id (plain_task 7 "Done" None))
       (map Task.id (Project.tasks website_redesign))
  /\ updateTask website_redesign (plain_task 7 "Done" None) = website_redesign.
Proof.
  assert (H : ~ In (Task.id (plain_task 7 "Done" None))
                   (map Task.id (Project.tasks website_redesign)))
    by (simpl; intuition discriminate).
  split; [exact H|].
  exact (proj2 (proj2 (updateTask_replaces_by_id website_redesign
                         (plain_task 7 "Done" None))) H).
Defined.

(** X5. [deleteTask] removes every task that has the id and keeps the others
    in their order; deleting an id that no task has changes nothing. *)
Theorem deleteTask_removes_by_id (project : Project.t) (taskId : Z) :
  let after := Project.tasks (deleteTask project taskId) in
  ~ In taskId (map Task.id after)
  /\ (forall t, In t after <-> In t (Project.tasks project) /\ Task.id t <> taskId)
  /\ sublist after (Project.tasks project)
  /\ (~ In taskId (map Task.id (Project.tasks project)) ->
      deleteTask project taskId = project).
Proof.
  simpl.
  assert (Hin : forall t,
             In t (List.filter (fun t => negb (Task.id t =? taskId)%Z)
                               (Project.tasks project))
             <-> In t (Project.tasks project) /\ Task.id t <> taskId).
  { intros t. rewrite List.filter_In, negb_true_iff, Z.eqb_neq. reflexivity. }
  split; [|split; [exact Hin | split]].
  - intros H. apply in_map_iff in H as (t & Ht & H). apply Hin in H. tauto.
  - clear Hin.
    induction (Project.tasks project) as [| t ts IH]; simpl; [constructor|].
    destruct (Task.id t =? taskId)%Z; simpl;
      [apply sublist_cons | apply sublist_skip]; exact IH.
  - intros Hout. unfold deleteTask, set_tasks. rewrite filter_all.
    + destruct project; reflexivity.
    + intros t Ht. apply negb_true_iff, Z.eqb_neq. intros E. apply Hout.
      apply in_map_iff. eauto.
Qed.

Lemma deleteTask_removes_by_id_witness :
  ~ In 7%Z (map Task.id (Project.tasks website_redesign))
  /\ deleteTask website_redesign 7 = website_redesign.
Proof.
  assert (H : ~ In 7%Z (map Task.id (Project.tasks website_redesign)))
    by (simpl; intuition discriminate).
  split; [exact H|].
  exact (proj2 (proj2 (proj2 (deleteTask_removes_by_id website_redesign 7))) H).
Defined.

Lemma completed_after_Done (updatedTask : Task.t) (ts : list Task.t) :
  Task.status updatedTask = "Done" ->
  (length (completedTasks ts)
   <= length (completedTasks
                (map (fun t => if (Task.id t =? Task.id updatedTask)%Z
                               then updatedTask else t) ts)))%nat.
Proof.
  intros Hd. unfold completedTasks.
  induction ts as [| t ts IH]; simpl; [lia|].
  destruct (Task.id t =? Task.id updatedTask)%Z.
  - replace (is_status "Done" updatedTask) with true
      by (symmetry; apply is_status_eq; exact Hd).
    destruct (is_status "Done" t); simpl; lia.
  - destruct (is_status "Done" t); simpl; lia.
Qed.

Lemma percent_le (d1 d2 n : nat) :
  (d1 <= d2)%nat -> (0 < n)%nat ->
  Js.le (Js.mul (Js.div (Js.of_nat d1) (Js.of_nat n)) (Js.of_nat 100))
        (Js.mul (Js.div (Js.of_nat d2) (Js.of_nat n)) (Js.of_nat 100)) = true.
Proof.
  intros Hd Hn. rewrite !percent_of_nat by exact Hn. apply le_Fin.
  pose proof (inject_nat_pos n Hn) as Hpos.
  assert (H : (inject_Z (Z.of_nat d1) <= inject_Z (Z.of_nat d2))%Q)
    by (rewrite <- Zle_Qle; lia).
  apply Qmult_le_compat_r; [|discriminate].
  apply Qle_shift_div_l; [exact Hpos|].
  assert (E : (inject_Z (Z.of_nat d1) / inject_Z (Z.of_nat n)
               * inject_Z (Z.of_nat n) == inject_Z (Z.of_nat d1))%Q).
  { revert Hpos. generalize (inject_Z (Z.of_nat n)). intros m Hm. field.
    intros H0. rewrite H0 in Hm. exact (Qlt_irrefl _ Hm). }
  rewrite E. exact H.
Qed.

(** X6. Setting a task to Done from its card, which goes through
    [updateTask], keeps the number of tasks and never lowers the number of
    completed tasks or the completion rate of the project. *)
Theorem marking_Done_never_lowers_completion (project : Project.t) (task : Task.t) :
  let after := Project.tasks (updateTask project (with_status task "Done")) in
  length after = length (Project.tasks project)
  /\ (length (completedTasks (Project.tasks project))
      <= length (completedTasks after))%nat
  /\ Js.le (completionRate (Project.tasks project)) (completionRate after) = true.
Proof.
  simpl.
  assert (Hlen : length (map (fun t => if (Task.id t =? Task.id task)%Z
                                       then with_status task "Done" else t)
                             (Project.tasks project))
                 = length (Project.tasks project)) by apply length_map.
  pose proof (completed_after_Done (with_status task "Done")
                (Project.tasks project) eq_refl) as Hc.
  simpl in Hc. split; [exact Hlen|]. split; [exact Hc|].
  unfold completionRate. rewrite Hlen.
  destruct (Nat.ltb_spec 0 (length (Project.tasks project))) as [Hn | Hn].
  - apply percent_le; [exact Hc | exact Hn].
  - reflexivity.
Qed.

(** ** The list of projects *)

Lemma find_project_id (projects : list Project.t) (projectId : Z)
  (project : Project.t) :
  find_project projects projectId = Some project ->
  Project.id project = projectId /\ In project projects.
Proof.
  unfold find_project. intros H. apply List.find_some in H as [Hin H].
  apply Z.eqb_eq in H. auto.
Qed.

Lemma find_project_None (projects : list Project.t) (projectId : Z) :
  find_project projects projectId = None
  <-> ~ In projectId (map Project.id projects).
Proof.
  unfold find_project. induction projects as [| p ps IH]; simpl; [tauto|].
  destruct (Z.eqb_spec (Project.id p) projectId) as [E | E].
  - split; [discriminate | intros H; exfalso; apply H; left; exact E].
  - rewrite IH. tauto.
Qed.

(** X7. [updateProject] keeps the number, the order and the ids of the
    projects.  After it, looking up the id of the updated project gives the
    updated project if some project had that id, every other id is looked up
    as before, and when no project has the id nothing changes. *)
Theorem updateProject_then_find (projects : list Project.t) (updated : Project.t) :
  map Project.id (updateProject projects updated) = map Project.id projects
  /\ (In (Project.id updated) (map Project.id projects) ->
      find_project (updateProject projects updated) (Project.id updated)
      = Some updated)
  /\ (forall j, j <> Project.id updated ->
        find_project (updateProject projects updated) j
        = find_project projects j)
  /\ (~ In (Project.id updated) (map Project.id projects) ->
      updateProject projects updated = projects).
Proof.
  unfold updateProject, find_project.
  induction projects as [| p ps (IH1 & IH2 & IH3 & IH4)]; simpl.
  - repeat split; tauto.
  - destruct (Z.eqb_spec (Project.id p) (Project.id updated)) as [E | E].
    + split; [rewrite IH1; congruence|]. split; [|split].
      * intros _. rewrite Z.eqb_refl. reflexivity.
      * intros j Hj. destruct (Z.eqb_spec (Project.id updated) j) as [E' | _];
          [congruence|].
        destruct (Z.eqb_spec (Project.id p) j) as [E' | _]; [congruence|].
        apply IH3. exact Hj.
      * intros H. exfalso. apply H. left. exact E.
    + split; [rewrite IH1; reflexivity|]. split; [|split].
      * intros [H | H]; [contradiction|].
        destruct (Z.eqb_spec (Project.id p) (Project.id updated));
          [contradiction | auto].
      * intros j Hj. destruct (Project.id p =? j)%Z; [reflexivity | auto].
      * intros H. rewrite IH4; [reflexivity | tauto].
Qed.

Lemma updateProject_then_find_witness :
  In (Project.id (deleteTask website_redesign 2))
     (map Project.id two_projects)
  /\ find_project (updateProject two_projects (deleteTask website_redesign 2))
                  (Project.id (deleteTask website_redesign 2))
     = Some (deleteTask website_redesign 2).
Proof.
  assert (H : In (Project.id (deleteTask website_redesign 2))
                 (map Project.id two_projects)) by (left; reflexivity).
  split; [exact H|].
  exact (proj1 (proj2 (updateProject_then_find two_projects
                         (deleteTask website_redesign 2))) H).
Defined.

Lemma updateProject_found (projects : list Project.t) (projectId : Z)
  (project updated : Project.t) :
  find_project projects projectId = Some project ->
  Project.id updated = Project.id project ->
  find_project (updateProject projects updated) projectId = Some updated.
Proof.
  intros Hf Hid. destruct (find_project_id _ _ _ Hf) as [Hp _].
  revert Hf. unfold find_project, updateProject.
  induction projects as [| q qs IH]; simpl; [discriminate|].
  destruct (Z.eqb_spec (Project.id q) projectId) as [E | E].
  - intros [= ->].
    destruct (Z.eqb_spec (Project.id project) (Project.id updated)) as [_ | N];
      [|congruence].
    simpl. destruct (Z.eqb_spec (Project.id updated) projectId); congruence.
  - intros Hf.
    destruct (Z.eqb_spec (Project.id q) (Project.id updated)) as [E' | _];
      [congruence|].
    simpl. destruct (Z.eqb_spec (Project.id q) projectId); [contradiction|].
    apply IH, Hf.
Qed.

(** X8. Every edit made in the detail view of a project reaches that project
    in the list of projects: after [addMember], [addTask], [updateTask] or
    [deleteTask], looking the project up by its id gives the edited
    project. *)
Theorem edits_reach_the_project
  (projects : list Project.t) (projectId : Z) (project : Project.t) :
  find_project projects projectId = Some project ->
  (forall email,
     find_project (apply_update projects (addMember project email)) projectId
     = Some (after_addMember project email))
  /\ (forall newTask updated,
        addTask project newTask = Some updated ->
        find_project (updateProject projects updated) projectId = Some updated)
  /\ (forall updatedTask,
        find_project (updateProject projects (updateTask project updatedTask))
                     projectId
        = Some (updateTask project updatedTask))
  /\ (forall taskId,
        find_project (updateProject projects (deleteTask project taskId))
                     projectId
        = Some (deleteTask project taskId)).
Proof.
  intros Hf. split; [|split; [|split]].
  - intros email. unfold after_addMember.
    destruct (addMember project email) as [updated |] eqn:E; simpl; [|exact Hf].
    apply (updateProject_found _ _ project); [exact Hf|].
    unfold addMember in E. destruct (Js.truthy email); [|discriminate].
    destruct (negb _); [|discriminate]. injection E as <-. reflexivity.
  - intros newTask updated E. apply (updateProject_found _ _ project); [exact Hf|].
    unfold addTask in E. destruct (String.eqb _ _); [discriminate|].
    injection E as <-. reflexivity.
  - intros updatedTask. apply (updateProject_found _ _ project); [exact Hf|].
    reflexivity.
  - intros taskId. apply (updateProject_found _ _ project); [exact Hf|].
    reflexivity.
Qed.

Lemma edits_reach_the_project_witness :
  find_project two_projects 1 = Some website_redesign
  /\ find_project
       (apply_update two_projects
          (addMember website_redesign (Some "carol@example.com"))) 1
     = Some (after_addMember website_redesign (Some "carol@example.com")).
Proof.
  assert (H : find_project two_projects 1 = Some website_redesign)
    by reflexivity.
  split; [exact H|].
  exact (proj1 (edits_reach_the_project two_projects 1 website_redesign H)
               (Some "carol@example.com")).
Defined.

(** X9. [addProject] appends a project without members or tasks whose id is
    at least 1 and greater than every id in use: the new project is found
    under its id, the projects already there are found as before, and
    project ids that were unique stay unique.  The ids in use are integers
    that a number holds exactly, few enough for a call to take them as
    arguments. *)
Theorem addProject_appends_fresh_id (projects : list Project.t) (name : string) :
  safe_ids (map Project.id projects) ->
  spreadable projects ->
  exists p,
    addProject projects name = projects ++ [p]
    /\ Project.name p = name
    /\ Project.members p = []
    /\ Project.tasks p = []
    /\ (1 <= Project.id p <= 2 ^ 53)%Z
    /\ (forall q, In q projects -> (Project.id q < Project.id p)%Z)
    /\ find_project (addProject projects name) (Project.id p) = Some p
    /\ (forall j, In j (map Project.id projects) ->
          find_project (addProject projects name) j = find_project projects j)
    /\ (NoDup (map Project.id projects) ->
        NoDup (map Project.id (addProject projects name))).
Proof.
  intros Hs _. unfold addProject. apply max_id_safe in Hs as [_ H53].
  set (p := {| Project.id := max_id (map Project.id projects) + 1;
               Project.name := name; Project.members := [];
               Project.tasks := [] |}).
  destruct (max_id_bounds (map Project.id projects) 0) as [H0 Hmax].
  assert (Hlt : forall q, In q projects -> (Project.id q < Project.id p)%Z).
  { intros q Hq. simpl. unfold max_id.
    assert (Project.id q <= foldl Z.max 0 (map Project.id projects))%Z
      by (apply Hmax, in_map, Hq).
    lia. }
  assert (Hfind : forall j l,
             find_project (l ++ [p]) j
             = match find_project l j with
               | Some q => Some q
               | None => find_project [p] j
               end).
  { intros j l. unfold find_project. induction l as [| q l IH]; [reflexivity|].
    simpl. destruct (Project.id q =? j)%Z; [reflexivity | exact IH]. }
  exists p. repeat split; try reflexivity.
  - simpl. unfold max_id. lia.
  - cbn [p Project.id]. lia.
  - exact Hlt.
  - rewrite Hfind.
    destruct (find_project projects (Project.id p)) as [q |] eqn:E.
    + apply find_project_id in E as [E Hq]. specialize (Hlt q Hq). lia.
    + unfold find_project. simpl. rewrite Z.eqb_refl. reflexivity.
  - intros j Hj. rewrite Hfind.
    destruct (find_project projects j) as [q |] eqn:E; [reflexivity|].
    apply find_project_None in E. contradiction.
  - intros Hnd. rewrite map_app. apply NoDup_app.
    repeat split; [exact Hnd | | apply NoDup_singleton].
    intros x Hx Hx'. apply list_elem_of_singleton in Hx'.
    apply list_elem_of_In, in_map_iff in Hx as (q & Hq & Hin).
    specialize (Hlt q Hin).
    change (x = Project.id p) in Hx'. lia.
Qed.

Lemma addProject_appends_fresh_id_witness :
  safe_ids (map Project.id two_projects)
  /\ spreadable two_projects
  /\ NoDup (map Project.id two_projects)
  /\ NoDup (map Project.id (addProject two_projects "New Project")).
Proof.
  assert (Hs : safe_ids (map Project.id two_projects))
    by (repeat constructor; unfold safe_integer; simpl; lia).
  assert (Hl : spreadable two_projects) by (unfold spreadable; simpl; lia).
  assert (H : NoDup (map Project.id two_projects)).
  { apply NoDup_ListNoDup. repeat constructor; simpl; intuition discriminate. }
  split; [exact Hs|]. split; [exact Hl|]. split; [exact H|].
  destruct (addProject_appends_fresh_id two_projects "New Project" Hs Hl)
    as (p & _ & _ & _ & _ & _ & _ & _ & _ & Hn).
  exact (Hn H).
Defined.

(** ** Risk alerts *)

Lemma first_recommendation_nonempty (insight : option Insight.t)
  (fallback : string) :
  fallback <> EmptyString ->
  first_recommendation insight fallback <> EmptyString.
Proof.
  intros Hf. unfold first_recommendation.
  destruct insight as [i |]; [|exact Hf].
  destruct (Insight.deadline i) as [d |]; [|exact Hf].
  destruct (Deadline.recommendations d) as [[| r rs] |]; try exact Hf.
  destruct (String.eqb_spec r EmptyString); assumption.
Qed.

Lemma alerts_of_sound (task : Task.t) (insight : option Insight.t) (a : Alert.t) :
  In a (alerts_of task insight) ->
  Alert.task a = task
  /\ ((Alert.type a = "overdue" /\ Alert.severity a = "critical"
       /\ risk_level insight = "overdue")
      \/ (Alert.type a = "critical" /\ Alert.severity a = "high"
          /\ risk_level insight = "critical")
      \/ (Alert.type a = "priority" /\ Alert.severity a = "medium"
          /\ priority_label insight = "high"))
  /\ Alert.recommendation a <> EmptyString.
Proof.
  unfold alerts_of, push_if.
  pose proof (first_recommendation_nonempty insight "Immediate action required")
    as H1.
  pose proof (first_recommendation_nonempty insight "Urgent attention needed")
    as H2.
  destruct (String.eqb_spec (risk_level insight) "overdue") as [Eo | Eo];
    [|destruct (String.eqb_spec (risk_level insight) "critical") as [Ec | Ec]];
    destruct (String.eqb_spec (priority_label insight) "high") as [Eh | Eh];
    simpl; intros H; repeat destruct H as [<- | H]; try destruct H; simpl;
    (split; [reflexivity|]); (split; [| try (apply H1; discriminate);
                                        try (apply H2; discriminate);
                                        try discriminate]);
    tauto.
Qed.

Lemma alerts_of_length (task : Task.t) (insight : option Insight.t) :
  (length (alerts_of task insight) <= 2)%nat.
Proof.
  unfold alerts_of, push_if.
  destruct (String.eqb (risk_level insight) "overdue"),
           (String.eqb (risk_level insight) "critical"),
           (String.eqb (priority_label insight) "high"); simpl; lia.
Qed.

Lemma generateRiskAlerts_In (api : Api) (tasks : list Task.t) (a : Alert.t) :
  In a (generateRiskAlerts api tasks)
  <-> exists n t, tasks !! n = Some t /\ In a (risk_alerts_step api n t).
Proof.
  unfold generateRiskAlerts. rewrite in_concat. split.
  - intros (l & Hl & Ha). apply list_elem_of_In, elem_of_lookup_imap in Hl
      as (n & t & -> & Hn). eauto.
  - intros (n & t & Hn & Ha). exists (risk_alerts_step api n t).
    split; [|exact Ha]. apply list_elem_of_In.
    apply elem_of_lookup_imap. eauto.
Qed.

(** X10. Every alert [generateRiskAlerts] raises is about one of the given
    tasks and that task is not done; it is an overdue alert of critical
    severity, a critical-deadline alert of high severity or a priority alert
    of medium severity; and it carries a recommendation that is never
    empty. *)
Theorem generateRiskAlerts_sound (api : Api) (tasks : list Task.t) (a : Alert.t) :
  In a (generateRiskAlerts api tasks) ->
  In (Alert.task a) tasks
  /\ Task.status (Alert.task a) <> "Done"
  /\ ((Alert.type a = "overdue" /\ Alert.severity a = "critical")
      \/ (Alert.type a = "critical" /\ Alert.severity a = "high")
      \/ (Alert.type a = "priority" /\ Alert.severity a = "medium"))
  /\ Alert.recommendation a <> EmptyString.
Proof.
  intros H. apply generateRiskAlerts_In in H as (n & t & Hn & Ha).
  unfold risk_alerts_step in Ha.
  destruct (is_status "Done" t) eqn:Ed; [destruct Ha|].
  destruct (request api n t "medium") as [| insight]; [destruct Ha|].
  apply alerts_of_sound in Ha as (-> & Hk & Hr).
  split; [apply list_elem_of_In, list_elem_of_lookup; eauto|].
  split; [intros E; apply is_status_eq in E; congruence|].
  split; [tauto | exact Hr].
Qed.

Lemma generateRiskAlerts_sound_witness :
  In nav_overdue_alert (generateRiskAlerts always_urgent [hero_task; nav_task])
  /\ In (Alert.task nav_overdue_alert) [hero_task; nav_task]
  /\ Task.status (Alert.task nav_overdue_alert) <> "Done".
Proof.
  assert (H : In nav_overdue_alert
                 (generateRiskAlerts always_urgent [hero_task; nav_task])).
  { vm_compute. right. right. left. reflexivity. }
  split; [exact H|].
  pose proof (generateRiskAlerts_sound always_urgent [hero_task; nav_task]
                nav_overdue_alert H) as (H1 & H2 & _).
  split; assumption.
Defined.

(** X11. A task gives rise to at most two alerts, one for its deadline and
    one for its priority, so there are at most twice as many alerts as tasks
    that are not done. *)
Theorem generateRiskAlerts_at_most_two_per_task (api : Api) (tasks : list Task.t) :
  (length (generateRiskAlerts api tasks)
   <= 2 * length (List.filter not_Done tasks))%nat.
Proof.
  unfold generateRiskAlerts. revert api.
  induction tasks as [| t tasks IH]; intros api; simpl; [lia|].
  rewrite length_app. specialize (IH (fun n => api (S n))).
  assert (Hstep : (length (risk_alerts_step api 0 t)
                   <= if not_Done t then 2 else 0)%nat).
  { unfold risk_alerts_step, not_Done.
    destruct (is_status "Done" t); simpl; [lia|].
    destruct (request api 0 t "medium"); [simpl; lia | apply alerts_of_length]. }
  change (length (concat (imap (risk_alerts_step api ∘ S) tasks)))
    with (length (concat (imap (risk_alerts_step (fun n => api (S n))) tasks))).
  destruct (not_Done t); simpl length; lia.
Qed.

(** X12. Whenever the service answers for a task that is not done, the
    alerts its answer calls for are raised: an overdue alert for the risk
    level overdue, a critical-deadline alert for the risk level critical,
    and a priority alert for the priority high. *)
Theorem generateRiskAlerts_complete
  (api : Api) (tasks : list Task.t) (n : nat) (task : Task.t)
  (insight : option Insight.t) :
  tasks !! n = Some task ->
  Task.status task <> "Done" ->
  request api n task "medium" = Returns insight ->
  (risk_level insight = "overdue" ->
   exists a, In a (generateRiskAlerts api tasks)
             /\ Alert.task a = task /\ Alert.type a = "overdue")
  /\ (risk_level insight = "critical" ->
      exists a, In a (generateRiskAlerts api tasks)
                /\ Alert.task a = task /\ Alert.type a = "critical")
  /\ (priority_label insight = "high" ->
      exists a, In a (generateRiskAlerts api tasks)
                /\ Alert.task a = task /\ Alert.type a = "priority").
Proof.
  intros Hn Hs Hr.
  assert (Hstep : risk_alerts_step api n task = alerts_of task insight).
  { unfold risk_alerts_step. rewrite Hr.
    destruct (is_status "Done" task) eqn:E; [|reflexivity].
    apply is_status_eq in E. contradiction. }
  assert (Hin : forall a, In a (alerts_of task insight) ->
                          In a (generateRiskAlerts api tasks)).
  { intros a Ha. apply generateRiskAlerts_In. exists n, task.
    rewrite Hstep. auto. }
  unfold alerts_of, push_if in Hin. unfold alerts_of, push_if.
  split; [|split]; intros E; rewrite ?E in Hin; simpl in Hin.
  - eexists. split; [apply Hin|].
    + destruct (String.eqb (priority_label insight) "high"); left; reflexivity.
    + split; reflexivity.
  - destruct (String.eqb (priority_label insight) "high");
      (eexists; split; [apply Hin; left; reflexivity | split; reflexivity]).
  - destruct (String.eqb (risk_level insight) "overdue");
      [|destruct (String.eqb (risk_level insight) "critical")];
      (eexists; split; [apply Hin; simpl; eauto | split; reflexivity]).
Qed.

Lemma generateRiskAlerts_complete_witness :
  [hero_task; nav_task] !! 1%nat = Some nav_task
  /\ Task.status nav_task <> "Done"
  /\ request always_urgent 1 nav_task "medium" = Returns (Some urgent_insight)
  /\ exists a, In a (generateRiskAlerts always_urgent [hero_task; nav_task])
               /\ Alert.task a = nav_task /\ Alert.type a = "overdue".
Proof.
  assert (Hs : Task.status nav_task <> "Done") by discriminate.
  split; [reflexivity|]. split; [exact Hs|]. split; [reflexivity|].
  exact (proj1 (generateRiskAlerts_complete always_urgent [hero_task; nav_task]
                  1 nav_task (Some urgent_insight) eq_refl Hs eq_refl)
               eq_refl).
Defined.

(** X13. When every task is done or its request fails, no alert is raised
    and nothing else goes wrong: the result is the empty list. *)
Theorem generateRiskAlerts_silent (api : Api) (tasks : list Task.t) :
  (forall n t, tasks !! n = Some t ->
     Task.status t = "Done" \/ request api n t "medium" = Throws) ->
  generateRiskAlerts api tasks = [].
Proof.
  intros H. destruct (generateRiskAlerts api tasks) as [| a l] eqn:E;
    [reflexivity|].
  assert (Ha : In a (generateRiskAlerts api tasks))
    by (rewrite E; left; reflexivity).
  apply generateRiskAlerts_In in Ha as (n & t & Hn & Ha).
  unfold risk_alerts_step in Ha. destruct (H n t Hn) as [Hd | Ht].
  - apply is_status_eq in Hd. rewrite Hd in Ha. destruct Ha.
  - rewrite Ht in Ha. destruct (is_status "Done" t); destruct Ha.
Qed.

Lemma generateRiskAlerts_silent_witness :
  (forall n t, [plain_task 1 "Done" None; nav_task] !! n = Some t ->
     Task.status t = "Done" \/ request second_request_fails n t "medium" = Throws)
  /\ generateRiskAlerts second_request_fails [plain_task 1 "Done" None; nav_task]
     = [].
Proof.
  assert (H : forall n t, [plain_task 1 "Done" None; nav_task] !! n = Some t ->
                Task.status t = "Done"
                \/ request second_request_fails n t "medium" = Throws).
  { intros [| [| n]] t Hn; simpl in Hn; try discriminate;
      injection Hn as <-; [left | right]; reflexivity. }
  split; [exact H|].
  exact (generateRiskAlerts_silent second_request_fails
           [plain_task 1 "Done" None; nav_task] H).
Defined.

(** ** Colours *)

Lemma lower_ascii_idempotent (c : ascii) :
  Js.lower_ascii (Js.lower_ascii c) = Js.lower_ascii c.
Proof. destruct c as [[] [] [] [] [] [] [] []]; reflexivity. Qed.

Lemma toLowerCase_idempotent (s : string) :
  Js.toLowerCase (Js.toLowerCase s) = Js.toLowerCase s.
Proof.
  induction s as [| c s IH]; simpl; [reflexivity|].
  rewrite lower_ascii_idempotent, IH. reflexivity.
Qed.

Ltac case_eqb :=
  match goal with
  | |- context [String.eqb ?a ?b] => destruct (String.eqb_spec a b) as [-> | ?]
  end.

Lemma getRiskColor_levels :
  (forall s, getRiskColor (Some (Js.toLowerCase s)) = getRiskColor (Some s))
  /\ getRiskColor None = grey
  /\ (forall s, getRiskColor (Some s) = grey
                <-> ~ In (Js.toLowerCase s) risk_levels)
  /\ (forall a b, getRiskColor (Some a) = getRiskColor (Some b) ->
                  getRiskColor (Some a) <> grey ->
                  Js.toLowerCase a = Js.toLowerCase b).
Proof.
  unfold getRiskColor, grey, risk_levels.
  split; [|split; [reflexivity | split]].
  - intros s. rewrite toLowerCase_idempotent. reflexivity.
  - intros s. generalize (Js.toLowerCase s). intros l. split.
    + repeat (case_eqb; [discriminate|]).
      intros _ H. simpl in H.
      repeat (destruct H as [H | H]; [symmetry in H; contradiction|]).
      exact H.
    + intros H.
      repeat (case_eqb; [exfalso; apply H; simpl; tauto|]).
      reflexivity.
  - intros a b. generalize (Js.toLowerCase a), (Js.toLowerCase b).
    intros l l'.
    repeat case_eqb;
      intros H H0; try discriminate; try reflexivity; try contradiction.
Qed.

Lemma getPriorityColor_levels :
  (forall s, getPriorityColor (Some (Js.toLowerCase s))
             = getPriorityColor (Some s))
  /\ getPriorityColor None = grey
  /\ (forall s, getPriorityColor (Some s) = grey
                <-> ~ In (Js.toLowerCase s) priority_levels)
  /\ (forall a b, getPriorityColor (Some a) = getPriorityColor (Some b) ->
                  getPriorityColor (Some a) <> grey ->
                  Js.toLowerCase a = Js.toLowerCase b).
Proof.
  unfold getPriorityColor, grey, priority_levels.
  split; [|split; [reflexivity | split]].
  - intros s. rewrite toLowerCase_idempotent. reflexivity.
  - intros s. generalize (Js.toLowerCase s). intros l. split.
    + repeat (case_eqb; [discriminate|]).
      intros _ H. simpl in H.
      repeat (destruct H as [H | H]; [symmetry in H; contradiction|]).
      exact H.
    + intros H.
      repeat (case_eqb; [exfalso; apply H; simpl; tauto|]).
      reflexivity.
  - intros a b. generalize (Js.toLowerCase a), (Js.toLowerCase b).
    intros l l'.
    repeat case_eqb;
      intros H H0; try discriminate; try reflexivity; try contradiction.
Qed.

(** X14. [getRiskColor] and [getPriorityColor] ignore the case of the
    letters, give each known level a colour of its own, and give grey to an
    undefined level and to any text that is not a known level. *)
Theorem colours_tell_levels_apart :
  ((forall s, getRiskColor (Some (Js.toLowerCase s)) = getRiskColor (Some s))
   /\ getRiskColor None = grey
   /\ (forall s, getRiskColor (Some s) = grey
                 <-> ~ In (Js.toLowerCase s) risk_levels)
   /\ (forall a b, getRiskColor (Some a) = getRiskColor (Some b) ->
                   getRiskColor (Some a) <> grey ->
                   Js.toLowerCase a = Js.toLowerCase b))
  /\ ((forall s, getPriorityColor (Some (Js.toLowerCase s))
                 = getPriorityColor (Some s))
      /\ getPriorityColor None = grey
      /\ (forall s, getPriorityColor (Some s) = grey
                    <-> ~ In (Js.toLowerCase s) priority_levels)
      /\ (forall a b, getPriorityColor (Some a) = getPriorityColor (Some b) ->
                      getPriorityColor (Some a) <> grey ->
                      Js.toLowerCase a = Js.toLowerCase b)).
Proof. split; [exact getRiskColor_levels | exact getPriorityColor_levels]. Qed.

Lemma colours_tell_levels_apart_witness :
  getRiskColor (Some "Overdue") = getRiskColor (Some "OVERDUE")
  /\ getRiskColor (Some "Overdue") <> grey
  /\ Js.toLowerCase "Overdue" = Js.toLowerCase "OVERDUE".
Proof.
  assert (H1 : getRiskColor (Some "Overdue") = getRiskColor (Some "OVERDUE"))
    by reflexivity.
  assert (H2 : getRiskColor (Some "Overdue") <> grey) by discriminate.
  split; [exact H1|]. split; [exact H2|].
  destruct colours_tell_levels_apart as ((_ & _ & _ & H) & _).
  exact (H "Overdue" "OVERDUE" H1 H2).
Defined.

(** ** More on the recommendations *)

(** X15. No task is counted both as overdue and as an upcoming deadline, a
    task that is done or has no valid due date is counted as neither, and
    the two counts together are at most the number of open tasks with a due
    date. *)
Theorem overdue_and_upcoming_are_disjoint (today : Z) (tasks : list Task.t) :
  (forall t, overdue today t = true -> upcoming today t = false)
  /\ (forall t, Task.status t = "Done" ->
        overdue today t = false /\ has_deadline t = false)
  /\ (forall t, Task.due t = None \/ Task.due t = Some None ->
        overdue today t = false /\ upcoming today t = false)
  /\ (overdueTasks today tasks + upcomingDeadlines today tasks
      <= length (List.filter has_deadline tasks))%nat.
Proof.
  assert (Hdis : forall t, overdue today t = true -> upcoming today t = false).
  { intros t Ho. destruct (upcoming today t) eqn:Eu; [|reflexivity].
    apply overdue_iff in Ho as (ms & Hd & Hlt & _).
    apply upcoming_iff in Eu as (ms' & Hd' & Hge & _).
    assert (ms' = ms) by congruence. lia. }
  split; [exact Hdis|]. split; [|split].
  - intros t Hd. unfold overdue, has_deadline, not_Done.
    replace (is_status "Done" t) with true
      by (symmetry; apply is_status_eq; exact Hd).
    destruct (Task.due t); simpl; [rewrite andb_false_r|]; auto.
  - intros t [E | E]; unfold overdue, upcoming; rewrite E; auto.
  - unfold overdueTasks, upcomingDeadlines.
    induction tasks as [| t tasks IH]; simpl; [lia|].
    destruct (overdue today t) eqn:Eo.
    + assert (Hh : has_deadline t = true).
      { unfold overdue in Eo. unfold has_deadline.
        destruct (Task.due t); [|discriminate].
        apply andb_true_iff in Eo. tauto. }
      rewrite Hh. simpl. rewrite (Hdis t Eo). simpl. lia.
    + destruct (has_deadline t); simpl; [|lia].
      destruct (upcoming today t); simpl; lia.
Qed.

Lemma overdue_and_upcoming_are_disjoint_witness :
  overdue noon_2025_09_09 nav_task = true
  /\ upcoming noon_2025_09_09 nav_task = false.
Proof.
  assert (H : overdue noon_2025_09_09 nav_task = true) by reflexivity.
  split; [exact H|].
  exact (proj1 (overdue_and_upcoming_are_disjoint noon_2025_09_09 [nav_task])
               nav_task H).
Defined.

(** X16. The recommendations come in the order of the tests, each type at
    most once: the list of their types is either the default type alone or a
    sublist of the five types, so there are never more than five; and every
    recommendation has the priority high, medium or low. *)
Theorem recommendations_are_ordered (today : Z) (tasks : list Task.t) :
  let types := map Recommendation.type (generateAIRecommendations today tasks) in
  (types = ["success"] \/ sublist types recommendation_types)
  /\ (length (generateAIRecommendations today tasks) <= 5)%nat
  /\ Forall (fun r => In (Recommendation.priority r) priority_levels)
            (generateAIRecommendations today tasks).
Proof.
  simpl. rewrite generateAIRecommendations_tests.
  unfold recommendation_types, priority_levels.
  destruct (0 <? overdueTasks today tasks)%nat,
           (5 <? length (List.filter not_Done tasks))%nat,
           (Js.lt (completionRate tasks) (Js.of_nat 30)),
           (0 <? upcomingDeadlines today tasks)%nat,
           (collaboration_test tasks); simpl;
    (split; [first [left; reflexivity
                   | right;
                     repeat first [apply sublist_nil | apply sublist_skip
                                  | apply sublist_cons]]
            | split; [lia | repeat constructor; simpl; tauto]]).
Qed.

(** ** Productivity panel *)

Lemma rates_as_fractions (tasks : list Task.t) :
  (0 < length tasks)%nat ->
  exists c p : Q,
    completionRate tasks = Js.Fin c /\ progressRate tasks = Js.Fin p
    /\ averageRate tasks = Js.Fin ((c + p) / 2)
    /\ (0 <= c)%Q /\ (c <= p)%Q /\ (p <= 100)%Q.
Proof.
  intros Hn.
  pose proof (completed_inProgress_le_total tasks) as Hle.
  pose proof (percent_le (length (completedTasks tasks))
                (length (completedTasks tasks) + length (inProgressTasks tasks))
                (length tasks) ltac:(lia) Hn) as Hcp.
  destruct (completionRate_percentage tasks) as (c & Ec & Hc0 & _).
  destruct (progressRate_percentage tasks) as (q & Ep & _ & Hp1).
  unfold averageRate. revert Hcp.
  assert (Ec' := Ec). assert (Ep' := Ep).
  unfold completionRate in Ec'. unfold progressRate in Ep'.
  unfold completedTasks in *.
  rewrite (proj2 (Nat.ltb_lt _ _) Hn) in Ec', Ep'.
  rewrite Ec', Ep', Ec, Ep. intros Hcp. apply le_Fin in Hcp.
  exists c, q. repeat split; assumption.
Qed.

(** X17. The progress rate is never below the completion rate, and the
    figure the productivity score is taken from lies between the two. *)
Theorem productivity_rates_are_ordered (tasks : list Task.t) :
  Js.le (completionRate tasks) (progressRate tasks) = true
  /\ Js.le (completionRate tasks) (averageRate tasks) = true
  /\ Js.le (averageRate tasks) (progressRate tasks) = true.
Proof.
  destruct tasks as [| t tasks]; [repeat split|].
  destruct (rates_as_fractions (t :: tasks)) as (c & p & -> & -> & -> & H0 & Hcp & H1);
    [simpl; lia|].
  rewrite !le_Fin. split; [exact Hcp|]. split.
  - apply Qle_shift_div_l; lra.
  - apply Qle_shift_div_r; lra.
Qed.

(** X18. Every figure of the productivity panel is a finite number between
    0 and 100, and the number of complex tasks is at most the number of
    tasks. *)
Theorem productivity_figures_in_range (tasks : list Task.t) :
  let p := generateProductivityInsights tasks in
  percentage (Js.Number (Productivity.completionRate p))
  /\ percentage (Js.Number (Productivity.progressRate p))
  /\ percentage (Js.valueOf (Productivity.avgTaskComplexity p))
  /\ percentage (Js.Number (Productivity.productivityScore p))
  /\ (Productivity.complexTasks p <= length tasks)%nat.
Proof.
  intros p. subst p.
  split; [apply Number_toFixed1_percentage, completionRate_percentage|].
  split; [apply Number_toFixed1_percentage, progressRate_percentage|].
  split; [|split].
  - cbn [generateProductivityInsights Productivity.avgTaskComplexity].
    destruct (Nat.ltb_spec 0 (length tasks)) as [Hn | Hn].
    + apply Number_toFixed1_percentage, percent_percentage;
        [apply List.filter_length_le | exact Hn].
    + exists 0%Q. split; [reflexivity|]. split; lra.
  - change (Productivity.productivityScore (generateProductivityInsights tasks))
      with (Js.toFixed1 (Js.min (Js.of_nat 100) (averageRate tasks))).
    rewrite (toFixed1_same _ _ (min_100_percentage _ (averageRate_percentage tasks))).
    apply Number_toFixed1_percentage, averageRate_percentage.
  - apply List.filter_length_le.
Qed.

Lemma toFixed1_hundred (q : Q) :
  (q == 100)%Q -> Js.toFixed1 (Js.Fin q) = Js.Fixed 1000.
Proof.
  intros E. rewrite (toFixed1_same (Js.Fin q) (Js.Fin 100)); [reflexivity|].
  exact E.
Qed.

(** X19. When there are tasks and all of them are done, the completion rate,
    the progress rate and the productivity score all read 100.0. *)
Theorem all_Done_reads_100 (tasks : list Task.t) :
  tasks <> [] ->
  Forall (fun t => Task.status t = "Done") tasks ->
  let p := generateProductivityInsights tasks in
  Productivity.completionRate p = Js.Fixed 1000
  /\ Productivity.progressRate p = Js.Fixed 1000
  /\ Productivity.productivityScore p = Js.Fixed 1000
  /\ Js.show (Js.Fixed 1000) = "100.0".
Proof.
  intros Hne Hall.
  assert (Hn : (0 < length tasks)%nat) by (destruct tasks; simpl; [congruence | lia]).
  assert (Hd : completedTasks tasks = tasks).
  { apply filter_all. intros t Ht. apply is_status_eq.
    rewrite Forall_forall in Hall. apply Hall, list_elem_of_In, Ht. }
  assert (Hi : length (inProgressTasks tasks) = 0%nat).
  { pose proof (completed_inProgress_le_total tasks). rewrite Hd in *. lia. }
  assert (Hq : (inject_Z (Z.of_nat (length tasks))
                / inject_Z (Z.of_nat (length tasks)) * 100 == 100)%Q).
  { pose proof (inject_nat_pos _ Hn) as Hpos. revert Hpos.
    generalize (inject_Z (Z.of_nat (length tasks))). intros m Hm. field.
    intros H0. rewrite H0 in Hm. exact (Qlt_irrefl _ Hm). }
  assert (Ec : completionRate tasks
               = Js.Fin (inject_Z (Z.of_nat (length tasks))
                         / inject_Z (Z.of_nat (length tasks)) * 100)).
  { unfold completionRate. rewrite (proj2 (Nat.ltb_lt _ _) Hn).
    fold (completedTasks tasks). rewrite Hd. apply percent_of_nat, Hn. }
  assert (Ep : progressRate tasks
               = Js.Fin (inject_Z (Z.of_nat (length tasks))
                         / inject_Z (Z.of_nat (length tasks)) * 100)).
  { unfold progressRate. rewrite (proj2 (Nat.ltb_lt _ _) Hn), Hi, Hd, Nat.add_0_r.
    apply percent_of_nat, Hn. }
  intros p. subst p.
  change (Productivity.completionRate (generateProductivityInsights tasks))
    with (Js.toFixed1 (completionRate tasks)).
  change (Productivity.progressRate (generateProductivityInsights tasks))
    with (Js.toFixed1 (progressRate tasks)).
  change (Productivity.productivityScore (generateProductivityInsights tasks))
    with (Js.toFixed1 (Js.min (Js.of_nat 100) (averageRate tasks))).
  rewrite (toFixed1_same _ _ (min_100_percentage _ (averageRate_percentage tasks))).
  unfold averageRate. rewrite Ec, Ep.
  split; [apply toFixed1_hundred, Hq|].
  split; [apply toFixed1_hundred, Hq|]. split; [|reflexivity].
  apply toFixed1_hundred.
  revert Hq. generalize (inject_Z (Z.of_nat (length tasks))
                         / inject_Z (Z.of_nat (length tasks)) * 100)%Q.
  intros q Hq. rewrite Hq. reflexivity.
Qed.

Lemma all_Done_reads_100_witness :
  six_tasks <> []
  /\ Forall (fun t => Task.status t = "Done") six_tasks
  /\ Productivity.productivityScore (generateProductivityInsights six_tasks)
     = Js.Fixed 1000.
Proof.
  assert (H1 : six_tasks <> []) by discriminate.
  assert (H2 : Forall (fun t => Task.status t = "Done") six_tasks)
    by (repeat constructor).
  split; [exact H1|]. split; [exact H2|].
  exact (proj1 (proj2 (proj2 (all_Done_reads_100 six_tasks H1 H2)))).
Defined.

(** ** More on the summary *)

Lemma status_cases (ti : TaskInsight.t) :
  (task_has_status "Done" ti = true /\ task_has_status "In Progress" ti = false
   /\ task_has_status "To-Do" ti = false /\ known_status (TaskInsight.task ti))
  \/ (task_has_status "Done" ti = false /\ task_has_status "In Progress" ti = true
      /\ task_has_status "To-Do" ti = false
      /\ known_status (TaskInsight.task ti))
  \/ (task_has_status "Done" ti = false
      /\ task_has_status "In Progress" ti = false
      /\ task_has_status "To-Do" ti = true /\ known_status (TaskInsight.task ti))
  \/ (task_has_status "Done" ti = false
      /\ task_has_status "In Progress" ti = false
      /\ task_has_status "To-Do" ti = false
      /\ ~ known_status (TaskInsight.task ti)).
Proof.
  unfold known_status, task_has_status, is_status.
  destruct (String.eqb_spec (Task.status (TaskInsight.task ti)) "Done");
    destruct (String.eqb_spec (Task.status (TaskInsight.task ti)) "In Progress");
    destruct (String.eqb_spec (Task.status (TaskInsight.task ti)) "To-Do");
    try congruence; tauto.
Qed.

Lemma filter_cons_length {A : Type} (f : A -> bool) (x : A) (l : list A) :
  length (List.filter f (x :: l))
  = ((if f x then 1 else 0) + length (List.filter f l))%nat.
Proof. simpl. destruct (f x); reflexivity. Qed.

(** X20. In the summary the three status counts never add up to more than
    the number of tasks, and they add up to exactly that number when every
    task has one of the three known statuses; a task with any other status
    is in the total only. *)
Theorem summary_status_counts (taskInsights : list TaskInsight.t) :
  let s := generateSummaryInsights taskInsights in
  Summary.totalTasks s = length taskInsights
  /\ (Summary.completedTasks s + Summary.inProgressTasks s + Summary.todoTasks s
      <= Summary.totalTasks s)%nat
  /\ (Summary.completedTasks s + Summary.inProgressTasks s + Summary.todoTasks s
      = Summary.totalTasks s
      <-> Forall (fun ti => known_status (TaskInsight.task ti)) taskInsights).
Proof.
  cbn [generateSummaryInsights Summary.totalTasks Summary.completedTasks
       Summary.inProgressTasks Summary.todoTasks].
  split; [reflexivity|].
  induction taskInsights as [| ti l [IHle IHeq]].
  - simpl. split; [lia|]. split; [constructor | reflexivity].
  - rewrite Forall_cons, !filter_cons_length. simpl length.
    destruct (status_cases ti)
      as [(-> & -> & -> & Hk) | [(-> & -> & -> & Hk) | [(-> & -> & -> & Hk)
         | (-> & -> & -> & Hk)]]]; (split; [lia|]).
    + rewrite <- IHeq. split; [intros H; split; [exact Hk | lia] | lia].
    + rewrite <- IHeq. split; [intros H; split; [exact Hk | lia] | lia].
    + rewrite <- IHeq. split; [intros H; split; [exact Hk | lia] | lia].
    + split; [lia | intros [H _]; contradiction].
Qed.

Lemma tally_lookup (counts : gmap string Js.counter) (label l : string) :
  l <> EmptyString ->
  tally counts label !! l
  = bump (counts !! l) (if String.eqb label l then 1 else 0).
Proof.
  intros Hl. unfold tally, increment.
  destruct (String.eqb_spec label EmptyString) as [-> | Hne].
  - destruct (String.eqb_spec EmptyString l); [congruence | reflexivity].
  - destruct (String.eqb_spec label l) as [-> | Hne'].
    + rewrite lookup_insert_eq. simpl.
      destruct (counts !! l) as [[| n] |]; try reflexivity.
      do 2 f_equal. lia.
    + rewrite lookup_insert_ne by exact Hne'. reflexivity.
Qed.

Lemma bump_bump (bucket : option Js.counter) (j k : nat) :
  bump (bump bucket j) k = bump bucket (j + k).
Proof.
  destruct j as [| j]; [reflexivity|].
  destruct k as [| k]; simpl; [rewrite Nat.add_0_r; reflexivity|].
  destruct bucket as [[| n] |]; simpl; try reflexivity.
  do 2 f_equal. lia.
Qed.

Lemma tally_fold_lookup {A : Type} (g : A -> string) (xs : list A)
  (counts : gmap string Js.counter) (l : string) :
  l <> EmptyString ->
  foldl (fun c x => tally c (g x)) counts xs !! l
  = bump (counts !! l) (length (List.filter (fun x => String.eqb (g x) l) xs)).
Proof.
  intros Hl. revert counts. induction xs as [| x xs IH]; intros counts; simpl.
  - reflexivity.
  - rewrite IH, (tally_lookup _ _ _ Hl), bump_bump.
    destruct (String.eqb (g x) l); reflexivity.
Qed.

Lemma tally_fold_empty_label {A : Type} (g : A -> string) (xs : list A)
  (counts : gmap string Js.counter) :
  foldl (fun c x => tally c (g x)) counts xs !! EmptyString
  = counts !! EmptyString.
Proof.
  revert counts. induction xs as [| x xs IH]; intros counts; simpl.
  - reflexivity.
  - rewrite IH. unfold tally, increment.
    destruct (String.eqb_spec (g x) EmptyString) as [E | E]; [reflexivity|].
    apply lookup_insert_ne. exact E.
Qed.

Lemma priority_occurrences_filter (l : string) (tis : list TaskInsight.t) :
  l <> EmptyString ->
  priority_occurrences l tis
  = length (List.filter
              (fun ti => String.eqb (priority_label (TaskInsight.insight ti)) l)
              tis).
Proof.
  intros Hl. unfold priority_occurrences.
  rewrite (filter_bool_Prop _ (has_priority l))
    by (intros ti; apply priority_label_iff, Hl).
  reflexivity.
Qed.

Lemma risk_occurrences_filter (l : string) (tis : list TaskInsight.t) :
  l <> EmptyString ->
  risk_occurrences l tis
  = length (List.filter
              (fun ti => String.eqb (risk_level (TaskInsight.insight ti)) l)
              tis).
Proof.
  intros Hl. unfold risk_occurrences.
  rewrite (filter_bool_Prop _ (has_risk_level l))
    by (intros ti; apply risk_level_iff, Hl).
  reflexivity.
Qed.

(** X21. The priority histogram counts labels exactly: the bucket of high,
    medium or low holds the number of insights with that label, so the
    bucket of high is the high-priority count; a label outside these three
    gets a bucket of its own that holds [NaN], and no bucket exists for a
    label that never occurs or for a missing label.  The label [__proto__]
    is set apart: incrementing it creates no bucket. *)
Theorem priorityCounts_buckets (taskInsights : list TaskInsight.t) (l : string) :
  let s := generateSummaryInsights taskInsights in
  Summary.priorityCounts s !! "high" = Some (Js.Count (Summary.highPriorityTasks s))
  /\ Summary.priorityCounts s !! EmptyString = None
  /\ (In l priority_levels ->
      Summary.priorityCounts s !! l
      = Some (Js.Count (priority_occurrences l taskInsights)))
  /\ (l <> EmptyString -> l <> "__proto__" -> ~ In l priority_levels ->
      Summary.priorityCounts s !! l
      = if (priority_occurrences l taskInsights =? 0)%nat
        then None else Some Js.CNaN).
Proof.
  cbn [generateSummaryInsights Summary.priorityCounts Summary.highPriorityTasks].
  unfold priority_levels.
  split; [|split; [|split]].
  - rewrite tally_fold_lookup by discriminate.
    change (priorityCounts0 !! "high") with (Some (Js.Count 0)).
    unfold is_high_priority.
    destruct (length _) as [| k]; simpl; reflexivity.
  - rewrite tally_fold_empty_label. reflexivity.
  - intros Hl.
    assert (Hne : l <> EmptyString)
      by (destruct Hl as [<- | [<- | [<- | []]]]; discriminate).
    rewrite (priority_occurrences_filter _ _ Hne).
    rewrite (tally_fold_lookup _ _ _ _ Hne).
    assert (E : priorityCounts0 !! l = Some (Js.Count 0))
      by (destruct Hl as [<- | [<- | [<- | []]]]; reflexivity).
    rewrite E. destruct (length _) as [| k]; simpl; reflexivity.
  - intros Hne _ Hl. rewrite (priority_occurrences_filter _ _ Hne).
    rewrite (tally_fold_lookup _ _ _ _ Hne).
    assert (E : priorityCounts0 !! l = None).
    { unfold priorityCounts0. rewrite !lookup_insert_ne, lookup_empty;
        [reflexivity | | |]; intros <-; apply Hl; simpl; tauto. }
    rewrite E. destruct (length _) as [| k]; reflexivity.
Qed.

Lemma priorityCounts_buckets_witness :
  (In "medium" priority_levels
   /\ Summary.priorityCounts (generateSummaryInsights odd_insights) !! "medium"
      = Some (Js.Count 1))
  /\ ("urgent" <> EmptyString /\ "urgent" <> "__proto__"
      /\ ~ In "urgent" priority_levels
      /\ Summary.priorityCounts (generateSummaryInsights odd_insights) !! "urgent"
         = Some Js.CNaN).
Proof.
  assert (H : In "medium" priority_levels) by (simpl; tauto).
  assert (H1 : "urgent" <> EmptyString) by discriminate.
  assert (H2 : "urgent" <> "__proto__") by discriminate.
  assert (H3 : ~ In "urgent" priority_levels) by (simpl; intuition discriminate).
  split.
  - split; [exact H|].
    exact (proj1 (proj2 (proj2 (priorityCounts_buckets odd_insights "medium")))
                 H).
  - split; [exact H1|]. split; [exact H2|]. split; [exact H3|].
    exact (proj2 (proj2 (proj2 (priorityCounts_buckets odd_insights "urgent")))
                 H1 H2 H3).
Defined.

(** X22. The risk histogram counts levels exactly: the bucket of each of the
    five levels holds the number of insights with that level, the high-risk
    count is the sum of the overdue and critical buckets, and a level
    outside the five gets a bucket that holds [NaN] once it occurs.  The
    level [__proto__] is set apart: incrementing it creates no bucket. *)
Theorem riskCounts_buckets (taskInsights : list TaskInsight.t) (l : string) :
  let s := generateSummaryInsights taskInsights in
  Summary.highRiskTasks s
  = (risk_occurrences "overdue" taskInsights
     + risk_occurrences "critical" taskInsights)%nat
  /\ Summary.riskCounts s !! EmptyString = None
  /\ (In l risk_levels ->
      Summary.riskCounts s !! l
      = Some (Js.Count (risk_occurrences l taskInsights)))
  /\ (l <> EmptyString -> l <> "__proto__" -> ~ In l risk_levels ->
      Summary.riskCounts s !! l
      = if (risk_occurrences l taskInsights =? 0)%nat
        then None else Some Js.CNaN).
Proof.
  cbn [generateSummaryInsights Summary.riskCounts Summary.highRiskTasks].
  unfold risk_levels.
  split; [|split; [|split]].
  - rewrite !risk_occurrences_filter by discriminate. unfold is_high_risk.
    induction taskInsights as [| ti tis IH]; simpl; [reflexivity|].
    destruct (String.eqb_spec (risk_level (TaskInsight.insight ti)) "overdue")
      as [E | E]; simpl.
    + rewrite E. simpl. lia.
    + destruct (String.eqb (risk_level (TaskInsight.insight ti)) "critical");
        simpl; lia.
  - rewrite tally_fold_empty_label. reflexivity.
  - intros Hl.
    assert (Hne : l <> EmptyString)
      by (destruct Hl as [<- | [<- | [<- | [<- | [<- | []]]]]]; discriminate).
    rewrite (risk_occurrences_filter _ _ Hne).
    rewrite (tally_fold_lookup _ _ _ _ Hne).
    assert (E : riskCounts0 !! l = Some (Js.Count 0))
      by (destruct Hl as [<- | [<- | [<- | [<- | [<- | []]]]]]; reflexivity).
    rewrite E. destruct (length _) as [| k]; simpl; reflexivity.
  - intros Hne _ Hl. rewrite (risk_occurrences_filter _ _ Hne).
    rewrite (tally_fold_lookup _ _ _ _ Hne).
    assert (E : riskCounts0 !! l = None).
    { unfold riskCounts0. rewrite !lookup_insert_ne, lookup_empty;
        [reflexivity | | | | |]; intros <-; apply Hl; simpl; tauto. }
    rewrite E. destruct (length _) as [| k]; reflexivity.
Qed.

Lemma riskCounts_buckets_witness :
  (In "medium" risk_levels
   /\ Summary.riskCounts (generateSummaryInsights odd_insights) !! "medium"
      = Some (Js.Count 1))
  /\ ("unknown" <> EmptyString /\ "unknown" <> "__proto__"
      /\ ~ In "unknown" risk_levels
      /\ Summary.riskCounts (generateSummaryInsights odd_insights) !! "unknown"
         = Some Js.CNaN).
Proof.
  assert (H : In "medium" risk_levels) by (simpl; tauto).
  assert (H1 : "unknown" <> EmptyString) by discriminate.
  assert (H2 : "unknown" <> "__proto__") by discriminate.
  assert (H3 : ~ In "unknown" risk_levels) by (simpl; intuition discriminate).
  split.
  - split; [exact H|].
    exact (proj1 (proj2 (proj2 (riskCounts_buckets odd_insights "medium"))) H).
  - split; [exact H1|]. split; [exact H2|]. split; [exact H3|].
    exact (proj2 (proj2 (proj2 (riskCounts_buckets odd_insights "unknown")))
                 H1 H2 H3).
Defined.

(** X23. The completion rate of the summary and that of the productivity
    panel, computed from the same tasks, show the same text when there is a
    task; without any task the summary holds the number 0 where the panel
    holds the text 0.0. *)
Theorem summary_and_productivity_agree (taskInsights : list TaskInsight.t) :
  let tasks := map TaskInsight.task taskInsights in
  (taskInsights <> [] ->
   Summary.completionRate (generateSummaryInsights taskInsights)
   = Js.VString (Productivity.completionRate (generateProductivityInsights tasks)))
  /\ (taskInsights = [] ->
      Summary.completionRate (generateSummaryInsights taskInsights)
      = Js.VNumber (Js.Fin 0)
      /\ Productivity.completionRate (generateProductivityInsights tasks)
         = Js.Fixed 0).
Proof.
  cbn [generateSummaryInsights Summary.completionRate
       generateProductivityInsights Productivity.completionRate].
  split.
  - intros Hne.
    assert (Hn : (0 < length taskInsights)%nat)
      by (destruct taskInsights; simpl; [congruence | lia]).
    unfold completionRate. rewrite length_map.
    rewrite (proj2 (Nat.ltb_lt _ _) Hn). do 5 f_equal.
    clear. induction taskInsights as [| ti tis IH]; simpl; [reflexivity|].
    unfold task_has_status at 1.
    destruct (is_status "Done" (TaskInsight.task ti)); simpl; rewrite IH;
      reflexivity.
  - intros ->. split; reflexivity.
Qed.

Lemma summary_and_productivity_agree_witness :
  [bare hero_task; bare nav_task] <> []
  /\ Summary.completionRate (generateSummaryInsights [bare hero_task; bare nav_task])
     = Js.VString (Productivity.completionRate
                     (generateProductivityInsights [hero_task; nav_task])).
Proof.
  assert (H : [bare hero_task; bare nav_task] <> []) by discriminate.
  split; [exact H|].
  exact (proj1 (summary_and_productivity_agree [bare hero_task; bare nav_task]) H).
Defined.

(** ** More on the team panel *)

Lemma entries_Permutation {V : Type} (o : Obj.t V) : Obj.entries o ≡ₚ o.
Proof.
  unfold Obj.entries. rewrite merge_sort_Permutation.
  unfold Obj.indexed, Obj.named.
  induction o as [| e o IH]; simpl; [reflexivity|].
  destruct (Obj.array_index e.1) as [n |]; simpl.
  - rewrite IH. reflexivity.
  - rewrite <- Permutation_middle, IH. reflexivity.
Qed.

Lemma keys_Permutation {V : Type} (o : Obj.t V) : Obj.keys o ≡ₚ map fst o.
Proof. unfold Obj.keys. rewrite entries_Permutation. reflexivity. Qed.

Lemma set_keys {V : Type} (o : Obj.t V) (k : string) (v : V) :
  map fst (Obj.set o k v)
  = if bool_decide (k ∈ map fst o) then map fst o else map fst o ++ [k].
Proof.
  induction o as [| [k0 v0] o IH]; simpl; [reflexivity|].
  destruct (String.eqb_spec k0 k) as [-> | Hne]; simpl.
  - rewrite bool_decide_eq_true_2 by (left). reflexivity.
  - rewrite IH. destruct (bool_decide_reflect (k ∈ map fst o)) as [Hin | Hout].
    + rewrite bool_decide_eq_true_2 by (right; exact Hin). reflexivity.
    + rewrite bool_decide_eq_false_2; [reflexivity|].
      intros H. apply elem_of_cons in H as [E | H]; [congruence | tauto].
Qed.

Lemma team_member_step_inv (project : Project.t) (st : TeamState)
  (member : string) :
  team_inv st -> team_inv (team_member_step project st member).
Proof.
  intros [Hnd Hel]. unfold team_inv, team_member_step. simpl.
  rewrite set_keys.
  destruct (bool_decide_reflect (member ∈ map fst (memberTaskCounts st)))
    as [Hin | Hout].
  - split; [exact Hnd|]. intros k. rewrite elem_of_union, elem_of_singleton, Hel.
    apply list_elem_of_In in Hin.
    split; [intros [H | ->]; assumption | auto].
  - split.
    + apply NoDup_app. repeat split; [exact Hnd | | apply NoDup_singleton].
      intros x Hx Hx'. apply list_elem_of_singleton in Hx'. subst x.
      contradiction.
    + intros k. rewrite elem_of_union, elem_of_singleton, Hel, in_app_iff.
      simpl. split; [intros [H | ->]; auto | intros [H | [<- | []]]; auto].
Qed.

Lemma team_state_inv (projects : list Project.t) : team_inv (team_state projects).
Proof.
  unfold team_state.
  assert (H0 : team_inv {| allMembers := ∅; memberTaskCounts := [];
                           projectCounts := [] |}).
  { split; [constructor|]. intros k. simpl. rewrite elem_of_empty. tauto. }
  revert H0. generalize {| allMembers := ∅; memberTaskCounts := @nil (string * nat);
                           projectCounts := [] |}.
  induction projects as [| p ps IH]; intros st Hst; simpl; [exact Hst|].
  apply IH. unfold team_project_step.
  assert (Hm : team_inv (foldl (team_member_step p) st (Project.members p))).
  { clear IH. revert st Hst.
    induction (Project.members p) as [| m ms IHm]; intros st Hst; simpl;
      [exact Hst|].
    apply IHm, team_member_step_inv, Hst. }
  exact Hm.
Qed.

Lemma listings_sum_pos (member : string) (projects : list Project.t) :
  sum_list (map (fun p => listings member (Project.members p)) projects) <> 0%nat
  -> listed member projects.
Proof.
  unfold listed. induction projects as [| p ps IH]; simpl; [congruence|].
  intros H. destruct (in_dec String.string_dec member (Project.members p))
    as [Hin | Hout].
  - exists p. auto.
  - apply listings_zero in Hout. destruct IH as (q & Hq & Hm); [lia|].
    exists q. auto.
Qed.

Lemma keys_listed (projects : list Project.t) (k : string) :
  In k (Obj.keys (memberTaskCounts (team_state projects))) <-> listed k projects.
Proof.
  rewrite keys_In, counts_of_member.
  destruct (Nat.eqb_spec
              (sum_list (map (fun p => listings k (Project.members p)) projects))
              0) as [E | E].
  - apply listings_sum_zero in E. split; [intros [x [=]] | contradiction].
  - split; [|eauto]. intros _. apply listings_sum_pos, E.
Qed.

Lemma totalMembers_counts_keys (projects : list Project.t) :
  NoDup (Obj.keys (memberTaskCounts (team_state projects)))
  /\ (forall k, k ∈ allMembers (team_state projects)
                <-> In k (Obj.keys (memberTaskCounts (team_state projects))))
  /\ Team.totalMembers (generateTeamInsights projects)
     = length (Obj.keys (memberTaskCounts (team_state projects))).
Proof.
  destruct (team_state_inv projects) as [Hnd Hel].
  set (st := team_state projects) in *.
  assert (Hk : forall k, In k (map fst (memberTaskCounts st))
                         <-> In k (Obj.keys (memberTaskCounts st))).
  { intros k. rewrite <- !list_elem_of_In, keys_Permutation. reflexivity. }
  split; [rewrite keys_Permutation; exact Hnd|].
  split; [intros k; rewrite Hel; apply Hk|].
  cbn [generateTeamInsights Team.totalMembers]. fold st.
  rewrite (Permutation_length (keys_Permutation (memberTaskCounts st))).
  rewrite <- (size_list_to_set (C := gset string) _ Hnd). f_equal.
  apply set_eq. intros k. rewrite elem_of_list_to_set, list_elem_of_In. apply Hel.
Qed.

(** X24. When no member is called like a property that a plain object
    inherits, the members the team panel counts are exactly the identifiers
    that some project lists, each once: they are the keys of the member
    counts and the elements of the member set, and [totalMembers] is their
    number. *)
Theorem team_members_are_the_listed (projects : list Project.t) :
  plain_members projects ->
  let st := team_state projects in
  (forall k, In k (Obj.keys (memberTaskCounts st)) <-> listed k projects)
  /\ (forall k, k ∈ allMembers st <-> listed k projects)
  /\ NoDup (Obj.keys (memberTaskCounts st))
  /\ Team.totalMembers (generateTeamInsights projects)
     = length (Obj.keys (memberTaskCounts st)).
Proof.
  intros _ st. subst st.
  destruct (totalMembers_counts_keys projects) as (Hnd & Hel & Ht).
  split; [intros k; apply keys_listed|].
  split; [intros k; rewrite Hel; apply keys_listed|].
  split; assumption.
Qed.

Lemma team_members_are_the_listed_witness :
  plain_members two_projects
  /\ Team.totalMembers (generateTeamInsights two_projects)
     = length (Obj.keys (memberTaskCounts (team_state two_projects)))
  /\ Team.totalMembers (generateTeamInsights two_projects) = 2%nat.
Proof.
  assert (Hp : plain_members two_projects).
  { intros p m [<- | [<- | []]] Hm; simpl in Hm;
      repeat (destruct Hm as [<- | Hm]); try contradiction;
      unfold plain_key; simpl; intuition discriminate. }
  split; [exact Hp|]. split; [|reflexivity].
  exact (proj2 (proj2 (proj2 (team_members_are_the_listed two_projects Hp)))).
Defined.

(** X25. When no project lists a member, the team panel shows no members,
    an average of 0.0 and the placeholder None as most active member. *)
Theorem team_without_members (projects : list Project.t) :
  Forall (fun p => Project.members p = []) projects ->
  let team := generateTeamInsights projects in
  Team.totalMembers team = 0%nat
  /\ Team.avgTasksPerMember team = Js.Fixed 0
  /\ Team.mostActiveMember team = "None".
Proof.
  intros Hall team. subst team.
  assert (Hkeys : Obj.keys (memberTaskCounts (team_state projects)) = []).
  { destruct (Obj.keys (memberTaskCounts (team_state projects))) as [| k ks] eqn:E;
      [reflexivity|].
    assert (Hk : In k (Obj.keys (memberTaskCounts (team_state projects))))
      by (rewrite E; left; reflexivity).
    apply keys_listed in Hk as (p & Hp & Hm).
    rewrite Forall_forall in Hall. apply list_elem_of_In, Hall in Hp.
    rewrite Hp in Hm. destruct Hm. }
  destruct (totalMembers_counts_keys projects) as (_ & _ & Ht).
  rewrite Hkeys in Ht. simpl in Ht. split; [exact Ht|].
  cbn [generateTeamInsights Team.totalMembers Team.avgTasksPerMember
       Team.mostActiveMember] in *.
  rewrite Ht. unfold mostActive. rewrite Hkeys. split; reflexivity.
Qed.

Lemma team_without_members_witness :
  Forall (fun p => Project.members p = []) (addProject [] "New Project")
  /\ Team.mostActiveMember (generateTeamInsights (addProject [] "New Project"))
     = "None".
Proof.
  assert (H : Forall (fun p => Project.members p = [])
                     (addProject [] "New Project")) by (repeat constructor).
  split; [exact H|].
  exact (proj2 (proj2 (team_without_members (addProject [] "New Project") H))).
Defined.

Lemma member_steps_projectCounts (project : Project.t) (members : list string)
  (st : TeamState) :
  projectCounts (foldl (team_member_step project) st members) = projectCounts st.
Proof.
  revert st. induction members as [| m ms IH]; intros st; simpl; [reflexivity|].
  rewrite IH. reflexivity.
Qed.

Lemma project_steps_projectCounts (projects : list Project.t) (st : TeamState)
  (name : string) :
  Obj.get (projectCounts (foldl team_project_step st projects)) name
  = match last_named name projects with
    | Some p => Some (length (Project.tasks p))
    | None => Obj.get (projectCounts st) name
    end.
Proof.
  revert st. induction projects as [| p ps IH]; intros st; simpl; [reflexivity|].
  rewrite IH. destruct (last_named name ps) as [q |]; [reflexivity|].
  simpl. rewrite get_set, member_steps_projectCounts.
  destruct (String.eqb (Project.name p) name); reflexivity.
Qed.

(** X26. The project distribution is keyed by project name: a name other
    than [__proto__], under which nothing is stored, shows the task count of
    the last project that has it, so of two projects with the same name
    only the later is shown, and a name no project has is not there. *)
Theorem projectDistribution_last_name_wins
  (projects : list Project.t) (name : string) :
  name <> "__proto__" ->
  Obj.get (Team.projectDistribution (generateTeamInsights projects)) name
  = (fun p => length (Project.tasks p)) <$> last_named name projects.
Proof.
  intros _.
  cbn [generateTeamInsights Team.projectDistribution]. unfold team_state.
  rewrite project_steps_projectCounts.
  destruct (last_named name projects); reflexivity.
Qed.

Lemma projectDistribution_last_name_wins_witness :
  "Website Redesign" <> "__proto__"
  /\ Obj.get (Team.projectDistribution (generateTeamInsights namesakes))
             "Website Redesign"
     = Some 0%nat.
Proof.
  assert (H : "Website Redesign" <> "__proto__") by discriminate.
  split; [exact H|].
  exact (projectDistribution_last_name_wins namesakes "Website Redesign" H).
Defined.

(** ** More on the days left *)

(** X27. [getDaysLeft] gives null for a task without a due date and [NaN]
    for a due date that does not parse.  For a valid due date it gives a
    whole number of days, the time left rounded up: at least 1 for a due
    time still ahead, and 0 or less once the due time is reached or past. *)
Theorem getDaysLeft_rounds_up (today : Z) :
  getDaysLeft today None = None
  /\ getDaysLeft today (Some None) = Some Js.NaN
  /\ forall ms, exists d : Z,
       getDaysLeft today (Some (Some ms)) = Some (Js.of_Z d)
       /\ ((d - 1) * msPerDay < ms - today)%Z
       /\ (ms - today <= d * msPerDay)%Z
       /\ ((today < ms)%Z -> (1 <= d)%Z)
       /\ ((ms <= today)%Z -> (d <= 0)%Z).
Proof.
  split; [reflexivity|]. split; [reflexivity|]. intros ms.
  exists (- ((today - ms) / msPerDay))%Z.
  assert (HM : (0 < msPerDay)%Z) by reflexivity.
  pose proof (Z.div_mod (today - ms) msPerDay ltac:(lia)) as Hdm.
  pose proof (Z.mod_pos_bound (today - ms) msPerDay HM) as Hmod.
  revert Hdm Hmod.
  generalize ((today - ms) / msPerDay)%Z, ((today - ms) mod msPerDay)%Z.
  intros q r Hdm Hmod.
  split; [|clear HM; revert Hdm Hmod; generalize msPerDay; intros M Hdm Hmod;
           split; [nia | split; [nia | split]]].
  2: { intros Hlt. destruct (Z.lt_ge_cases q 0) as [Hq | Hq]; [lia|].
       assert (0 <= M * q)%Z by (apply Z.mul_nonneg_nonneg; lia). lia. }
  2: { intros Hle. destruct (Z.lt_ge_cases q 0) as [Hq | Hq]; [|lia].
       assert (M * q <= M * (-1))%Z by (apply Z.mul_le_mono_nonneg_l; lia).
       lia. }
  assert (Hq : q = ((today - ms) / msPerDay)%Z).
  { apply (Z.div_unique_pos _ _ q r); [lia | exact Hdm]. }
  unfold getDaysLeft, Js.getTime, Js.sub, Js.div, Js.ceil, Js.of_Z.
  rewrite (is_zero_false _ msPerDay_pos). unfold Js.of_Z, Qceiling.
  assert (E : (- ((inject_Z ms - inject_Z today) / inject_Z msPerDay)
               == inject_Z (today - ms) / inject_Z msPerDay)%Q).
  { unfold Z.sub. rewrite !inject_Z_plus, !inject_Z_opp.
    pose proof msPerDay_pos as Hm. revert Hm.
    generalize (inject_Z msPerDay). intros m Hm. field.
    intros H0. rewrite H0 in Hm. exact (Qlt_irrefl _ Hm). }
  rewrite (Qfloor_comp _ _ E), <- Zdiv_Qdiv, <- Hq. reflexivity.
Qed.

Lemma getDaysLeft_rounds_up_witness :
  exists d : Z,
    getDaysLeft noon_2025_09_09 (Some (Some 1757894400000%Z)) = Some (Js.of_Z d)
    /\ (1 <= d)%Z.
Proof.
  destruct (proj2 (proj2 (getDaysLeft_rounds_up noon_2025_09_09))
              1757894400000%Z) as (d & Hd & _ & _ & Hpos & _).
  exists d. split; [exact Hd|]. apply Hpos. reflexivity.
Defined.

(** X28. For a due date given as a date alone, which is read as midnight
    UTC of that day, [getDaysLeft] counts calendar days: it is the due day
    minus the current UTC day, the same at every instant of one day, and 0
    all through the due day itself. *)
Theorem getDaysLeft_counts_calendar_days (today today' day : Z) :
  getDaysLeft today (Some (Some (day * msPerDay)%Z))
  = Some (Js.of_Z (day - day_of today))
  /\ (day_of today = day_of today' ->
      getDaysLeft today (Some (Some (day * msPerDay)%Z))
      = getDaysLeft today' (Some (Some (day * msPerDay)%Z)))
  /\ (day_of today = day ->
      getDaysLeft today (Some (Some (day * msPerDay)%Z)) = Some (Js.of_Z 0)).
Proof.
  rewrite !getDaysLeft_date_only. split; [reflexivity|]. split.
  - intros ->. reflexivity.
  - intros ->. rewrite Z.sub_diag. reflexivity.
Qed.

Lemma getDaysLeft_counts_calendar_days_witness :
  day_of noon_2025_09_09 = 20340%Z
  /\ getDaysLeft noon_2025_09_09 (Some (Some (20340 * msPerDay)%Z))
     = Some (Js.of_Z 0).
Proof.
  assert (H : day_of noon_2025_09_09 = 20340%Z) by reflexivity.
  split; [exact H|].
  exact (proj2 (proj2 (getDaysLeft_counts_calendar_days
                         noon_2025_09_09 noon_2025_09_09 20340)) H).
Defined.

(** ** Worked examples *)

Example rates_of_ten_tasks :
  Js.show (Productivity.completionRate (generateProductivityInsights ten_tasks))
  = "30.0"
  /\ Js.show (Productivity.progressRate (generateProductivityInsights ten_tasks))
     = "50.0"
  /\ Js.show (Productivity.productivityScore
                (generateProductivityInsights ten_tasks))
     = "40.0".
Proof. repeat split; vm_compute; reflexivity. Qed.

(** Three tasks per assignee is not more than three: with a full completion
    rate nothing is triggered and the default recommendation is issued. *)
Example six_tasks_two_assignees :
  size (uniqueAssignees six_tasks) = 2%nat
  /\ collaboration_test six_tasks = false
  /\ generateAIRecommendations noon_2025_09_09 six_tasks = [rec_success].
Proof. repeat split; vm_compute; reflexivity. Qed.

(** No task at all: the completion rate is 0, which is below 30. *)
Example no_tasks_recommendation :
  generateAIRecommendations noon_2025_09_09 [] = [rec_productivity].
Proof. vm_compute. reflexivity. Qed.

Example summary_of_nothing :
  let s := generateSummaryInsights [] in
  Summary.totalTasks s = 0%nat
  /\ Summary.completionRate s = Js.VNumber (Js.Fin 0)
  /\ Summary.priorityCounts s = priorityCounts0
  /\ Summary.riskCounts s = riskCounts0
  /\ Summary.urgentTasks s = 0%nat.
Proof. repeat split. Qed.

Example toFixed_rounds_half_up :
  Js.show (Js.toFixed1 (Js.Fin (1 # 4))) = "0.3"
  /\ Js.show (Js.toFixed1 (Js.Fin (100 # 3))) = "33.3"
  /\ Js.show (Js.toFixed1 (Js.div (Js.of_nat 0) (Js.of_nat 0))) = "NaN".
Proof. repeat split; vm_compute; reflexivity. Qed.

Example keys_order :
  Obj.keys [("zoe", 1%nat); ("10", 2%nat); ("amy", 3%nat); ("9", 4%nat);
            ("07", 5%nat)]
  = ["9"; "10"; "zoe"; "amy"; "07"].
Proof. vm_compute. reflexivity. Qed.

Example complex_description :
  is_complex (Task.mk 1 "Migrate" (Some "A COMPLEX migration") None None
                      "To-Do" None None None) = true
  /\ is_complex hero_task = false.
Proof. split; vm_compute; reflexivity. Qed.

Example later_namesake_is_shown :
  Obj.get (Team.projectDistribution (generateTeamInsights namesakes))
          "Website Redesign" = Some 0%nat
  /\ Team.totalMembers (generateTeamInsights namesakes) = 2%nat.
Proof. split; vm_compute; reflexivity. Qed.

Example blank_title_is_rejected :
  addTask website_redesign
    (NewTask.mk "   " "No title given" EmptyString None "To-Do") = None
  /\ trim "  Fix  nav  " = "Fix  nav".
Proof. split; vm_compute; reflexivity. Qed.

Example trim_removes_wide_spaces :
  trim (ideographic_space +:+ " Fix nav" +:+ ideographic_space) = "Fix nav"
  /\ only_spaces (NewTask.title blank_form) = true.
Proof. split; vm_compute; reflexivity. Qed.

Example risk_alerts_of_failing_service :
  generateRiskAlerts second_request_fails [hero_task; nav_task] = [].
Proof. vm_compute. reflexivity. Qed.
